(** * esp32-time-weather: a shallow embedding of the firmware's control code

    The firmware brings up a shared I2C bus with a BME280 sensor and an
    SSD1306 display ([common_i2c_init.c]), joins Wi-Fi ([wifi.c]), waits for
    SNTP ([sntp.c]) and then runs a sampling task and a render loop that
    share one measurement record under a FreeRTOS mutex ([main.c]).

    Sequential bring-up code is embedded in a small state-and-abort monad
    over a [world] that holds the module statics and the trace of calls made
    to the vendor drivers.  What a driver answers is not decided by this
    repository; each embedded function therefore takes the answers of the
    drivers it calls as an argument.  The two tasks of [main.c] are embedded
    as a step function driven by an arbitrary schedule. *)

From Stdlib Require Import ZArith NArith List String Ascii Bool Lia.
From Stdlib Require Import SpecFloat.
Import ListNotations.

Open Scope Z_scope.
Open Scope string_scope.

(* ================================================================== *)
(** * Platform: error codes, handles, the call trace and the monad     *)
(* ================================================================== *)

Module Esp.

(** [esp_err_t] is a 32-bit signed integer; the constants are those of
    ESP-IDF's [esp_err.h] and [nvs.h]. *)
Definition esp_err_t := Z.
Definition ESP_OK : esp_err_t := 0.
Definition ESP_FAIL : esp_err_t := -1.
Definition ESP_ERR_NO_MEM : esp_err_t := 0x101.
Definition ESP_ERR_NOT_FOUND : esp_err_t := 0x105.
Definition ESP_ERR_TIMEOUT : esp_err_t := 0x107.
Definition ESP_ERR_NVS_BASE : esp_err_t := 0x1100.
Definition ESP_ERR_NVS_NO_FREE_PAGES : esp_err_t := ESP_ERR_NVS_BASE + 0x0d.
Definition ESP_ERR_NVS_NEW_VERSION_FOUND : esp_err_t := ESP_ERR_NVS_BASE + 0x10.

(** Driver handles are pointers; [NULL] is the zero address. *)
Definition handle := N.
Definition NULL : handle := 0%N.
Definition is_null (h : handle) : bool := N.eqb h NULL.

Inductive log_level := LOGE | LOGW | LOGI.

(** One entry per call that leaves this repository: driver and RTOS calls
    with the arguments the code passes, and log lines. *)
Inductive event :=
| Log (lvl : log_level) (tag msg : string)
(* common_i2c_init.c *)
| I2cNewMasterBus
| I2cMasterBusAddDevice (bus : handle) (device_address : Z)
| Bme280DeviceInit (dev : handle)
| ConfigureSensorSettings
| I2cDeviceProbe (bus : handle) (addr : Z)
| Ssd1306LinkFromDevice (dev : handle)
| Ssd1306Init (width height : Z)
| Ssd1306SetCursor (x y : Z)
| Ssd1306DrawString (s : string)
| Ssd1306Update
(* wifi.c *)
| NvsFlashInit
| NvsFlashErase
| EspNetifInit
| EspEventLoopCreateDefault
| EspNetifCreateDefaultWifiSta
| EspWifiInit
| XSemaphoreCreateBinary
| EspEventHandlerRegister (base : string)
| EspWifiSetMode
| EspWifiSetConfig (ssid password : string)
| EspWifiStart
| XSemaphoreTakeIpReady
(* sntp.c *)
| EspNetifSntpInit (server : string)
| Setenv (name value : string)
| Tzset
| EspNetifSntpSyncWait (timeout_ms : Z)
| TimeLocaltime
| VTaskDelayMs (ms : Z)
(* main.c *)
| XSemaphoreCreateMutex
| XTaskCreatePinnedToCore (name : string)
| PrintData.

(** The statics of [common_i2c_init.c] and [wifi.c], and the trace. *)
Record world := mkWorld {
  i2c_bus : handle;
  sensor_i2c_dev : handle;
  screen_i2c_dev : handle;
  s_ip_ready : handle;
  trace : list event
}.

(** C statics without an initialiser start as zero. *)
Definition world_init : world := mkWorld NULL NULL NULL NULL [].

Definition set_i2c_bus (h : handle) (w : world) : world :=
  mkWorld h (sensor_i2c_dev w) (screen_i2c_dev w) (s_ip_ready w) (trace w).
Definition set_sensor_i2c_dev (h : handle) (w : world) : world :=
  mkWorld (i2c_bus w) h (screen_i2c_dev w) (s_ip_ready w) (trace w).
Definition set_screen_i2c_dev (h : handle) (w : world) : world :=
  mkWorld (i2c_bus w) (sensor_i2c_dev w) h (s_ip_ready w) (trace w).
Definition set_s_ip_ready (h : handle) (w : world) : world :=
  mkWorld (i2c_bus w) (sensor_i2c_dev w) (screen_i2c_dev w) h (trace w).
Definition record_event (ev : event) (w : world) : world :=
  mkWorld (i2c_bus w) (sensor_i2c_dev w) (screen_i2c_dev w) (s_ip_ready w)
          (trace w ++ [ev]).

(** A call either returns a value in a new world, or the process is halted
    by [abort()] and nothing after it runs. *)
Inductive outcome (A : Type) : Type :=
| Returned (a : A) (w : world)
| Aborted (w : world).
Arguments Returned {A} a w.
Arguments Aborted {A} w.

Definition M (A : Type) : Type := world -> outcome A.

Definition ret {A} (a : A) : M A := fun w => Returned a w.
Definition bind {A B} (m : M A) (k : A -> M B) : M B :=
  fun w => match m w with
           | Returned a w' => k a w'
           | Aborted w' => Aborted w'
           end.
Definition abort {A} : M A := fun w => Aborted w.
Definition emit (ev : event) : M unit := fun w => Returned tt (record_event ev w).
Definition read {A} (f : world -> A) : M A := fun w => Returned (f w) w.
Definition write (f : world -> world) : M unit := fun w => Returned tt (f w).

Definition final {A} (o : outcome A) : world :=
  match o with Returned _ w => w | Aborted w => w end.
Definition retval {A} (o : outcome A) : option A :=
  match o with Returned a _ => Some a | Aborted _ => None end.

Declare Scope esp_scope.
Delimit Scope esp_scope with esp.
Notation "x <- m ;; k" := (bind m (fun x => k))
  (at level 61, m at next level, right associativity) : esp_scope.
Notation "m ;; k" := (bind m (fun _ => k))
  (at level 61, right associativity) : esp_scope.
Open Scope esp_scope.

Definition ESP_LOGE (tag msg : string) : M unit := emit (Log LOGE tag msg).
Definition ESP_LOGW (tag msg : string) : M unit := emit (Log LOGW tag msg).
Definition ESP_LOGI (tag msg : string) : M unit := emit (Log LOGI tag msg).

(** Modelled from the spec: the macro [ESP_ERROR_CHECK] of ESP-IDF's
    [esp_err.h] is not part of this repository.  The spec has these
    failures halt the process through the platform's abort path (section 7),
    and the comment on [init_screen] says the same; this is the macro's
    behaviour in the default build, where assertions are enabled. *)
Definition ESP_ERROR_CHECK (m : M esp_err_t) : M unit :=
  e <- m ;; if Z.eqb e ESP_OK then ret tt else abort.

(** Modelled from the spec: the macro [ESP_RETURN_ON_ERROR] of ESP-IDF's
    [esp_check.h] is not part of this repository.  The spec has
    initialisation fail with the error when the bus cannot be claimed or a
    device fails to attach (section 4.1): on a code other than [ESP_OK] the
    macro logs the message under the tag and makes the enclosing function
    return that code; [k] is the rest of the enclosing function. *)
Definition ESP_RETURN_ON_ERROR (m : M esp_err_t) (tag msg : string)
    (k : M esp_err_t) : M esp_err_t :=
  e <- m ;; if Z.eqb e ESP_OK then k else (ESP_LOGE tag msg ;; ret e).

(** A driver call with an out-parameter: it returns a code and may store a
    handle through the pointer it was given. *)
Definition driver_answer : Type := esp_err_t * option handle.

Definition store_out (set : handle -> world -> world) (o : option handle)
    : M unit :=
  match o with
  | Some h => write (set h)
  | None => ret tt
  end.

End Esp.
Import Esp.

(* ================================================================== *)
(** * common_i2c_init.c: the shared bus and its two device handles     *)
(* ================================================================== *)

Module CommonI2c.

(** Constants of headers that are outside this repository's sources
    ([config.h], [ssd1306.h], [bme280_defs.h]): taken as parameters. *)
Record config := mkConfig {
  WIDTH : Z;
  HEIGHT : Z;
  SSD1306_I2C_ADDR_DEFAULT : Z;
  BME280_I2C_ADDR_PRIM : Z
}.

(** [BME280_OK] of the sensor driver's [bme280_defs.h]. *)
Definition BME280_OK : Z := 0.

(** What the drivers answer during one call of [i2c_shared_init]. *)
Record answers := mkAnswers {
  new_master_bus_a : driver_answer;
  add_ssd1306_a : driver_answer;
  add_bme280_a : driver_answer;
  configure_sensor_settings_a : Z;
  i2c_device_probe_a : esp_err_t;
  ssd1306_init_a : esp_err_t;
  ssd1306_update_a : esp_err_t
}.

(** The same answers with another result of [configure_sensor_settings]. *)
Definition with_configure (rslt : Z) (a : answers) : answers :=
  mkAnswers (new_master_bus_a a) (add_ssd1306_a a) (add_bme280_a a) rslt
            (i2c_device_probe_a a) (ssd1306_init_a a) (ssd1306_update_a a).

Definition TAG : string := "COMMON_I2C".

(** The three accessors: each returns a static and changes nothing. *)
Definition i2c_get_bus : M handle := read i2c_bus.
Definition i2c_get_bme280 : M handle := read sensor_i2c_dev.
Definition i2c_get_ssd1306 : M handle := read screen_i2c_dev.

Section WithConfig.
Variable cfg : config.

(** [i2c_new_master_bus(&bus_cfg, &i2c_bus)] *)
Definition i2c_new_master_bus (a : driver_answer) : M esp_err_t :=
  emit I2cNewMasterBus ;;
  store_out set_i2c_bus (snd a) ;;
  ret (fst a).

(** [i2c_master_bus_add_device(i2c_bus, &cfg, &out)] *)
Definition i2c_master_bus_add_device (device_address : Z)
    (set : handle -> world -> world) (a : driver_answer) : M esp_err_t :=
  bus <- read i2c_bus ;;
  emit (I2cMasterBusAddDevice bus device_address) ;;
  store_out set (snd a) ;;
  ret (fst a).

Definition init_sensor (a : answers) : M unit :=
  sensor_dev <- i2c_get_bme280 ;;
  emit (Bme280DeviceInit sensor_dev) ;;
  rslt <- (emit ConfigureSensorSettings ;; ret (configure_sensor_settings_a a)) ;;
  if negb (Z.eqb rslt BME280_OK)
  then ESP_LOGE "BME280" "configure_sensor_settings failed"
  else ret tt.

(** [sizeof(init_message)] for ["Getting Data"], with its terminator. *)
Definition init_message : string := "Getting Data".
Definition sizeof_init_message : Z := Z.of_nat (String.length init_message) + 1.

Definition uint16 (z : Z) : Z := z mod 2 ^ 16.

Definition init_screen (a : answers) : M unit :=
  bus <- i2c_get_bus ;;
  dev <- i2c_get_ssd1306 ;;
  ESP_ERROR_CHECK
    (emit (I2cDeviceProbe bus (SSD1306_I2C_ADDR_DEFAULT cfg)) ;;
     ret (i2c_device_probe_a a)) ;;
  ESP_LOGI "SSD1306" "SSD1306 detected" ;;
  emit (Ssd1306LinkFromDevice dev) ;;
  ESP_ERROR_CHECK
    (emit (Ssd1306Init (WIDTH cfg) (HEIGHT cfg)) ;; ret (ssd1306_init_a a)) ;;
  let horisontal_cursor :=
    uint16 (Z.quot (WIDTH cfg) 2 - Z.quot sizeof_init_message 2 * 8) in
  let vertical_cursor := uint16 (Z.quot (HEIGHT cfg) 8 * 2) in
  emit (Ssd1306SetCursor horisontal_cursor vertical_cursor) ;;
  emit (Ssd1306DrawString init_message) ;;
  ESP_ERROR_CHECK (emit Ssd1306Update ;; ret (ssd1306_update_a a)).

Definition i2c_shared_init (a : answers) : M esp_err_t :=
  bus <- read i2c_bus ;;
  if negb (is_null bus) then ret ESP_OK else
  ESP_RETURN_ON_ERROR (i2c_new_master_bus (new_master_bus_a a)) TAG "bus fail" (
  ESP_RETURN_ON_ERROR
    (i2c_master_bus_add_device (SSD1306_I2C_ADDR_DEFAULT cfg)
       set_screen_i2c_dev (add_ssd1306_a a)) TAG "ssd fail" (
  ESP_RETURN_ON_ERROR
    (i2c_master_bus_add_device (BME280_I2C_ADDR_PRIM cfg)
       set_sensor_i2c_dev (add_bme280_a a)) TAG "bme fail" (
  init_sensor a ;;
  init_screen a ;;
  ret ESP_OK))).

(** A sequence of calls, one set of driver answers per call; the return
    codes are collected in order.  A halted process makes no further call. *)
Fixpoint i2c_shared_init_seq (calls : list answers) : M (list esp_err_t) :=
  match calls with
  | [] => ret []
  | a :: rest =>
      e <- i2c_shared_init a ;;
      es <- i2c_shared_init_seq rest ;;
      ret (e :: es)
  end.

End WithConfig.

(** ** Concrete set-ups used by the examples *)

(** A 128x64 panel at 0x3C and the sensor at 0x76. *)
Definition board : config := mkConfig 128 64 0x3C 0x76.

Definition all_ok : answers :=
  mkAnswers (ESP_OK, Some 1%N) (ESP_OK, Some 2%N) (ESP_OK, Some 3%N)
            BME280_OK ESP_OK ESP_OK ESP_OK.

(** The world in which the first call, with [all_ok], has created the bus
    and attached both handles and is about to call [init_sensor]. *)
Definition attached : world :=
  mkWorld 1%N 3%N 2%N NULL
          [I2cNewMasterBus; I2cMasterBusAddDevice 1%N 0x3C;
           I2cMasterBusAddDevice 1%N 0x76].

(** Bus creation fails for lack of memory and leaves the handle as it was. *)
Definition bus_fails : answers :=
  mkAnswers (ESP_ERR_NO_MEM, None) (ESP_OK, Some 2%N) (ESP_OK, Some 3%N)
            BME280_OK ESP_OK ESP_OK ESP_OK.

(** The bus is created, attaching the display fails. *)
Definition ssd_attach_fails : answers :=
  mkAnswers (ESP_OK, Some 1%N) (ESP_ERR_NO_MEM, None) (ESP_OK, Some 3%N)
            BME280_OK ESP_OK ESP_OK ESP_OK.

(** Bus and display handle are there, attaching the sensor fails. *)
Definition bme_attach_fails : answers :=
  mkAnswers (ESP_OK, Some 1%N) (ESP_OK, Some 2%N) (ESP_ERR_NO_MEM, None)
            BME280_OK ESP_OK ESP_OK ESP_OK.

(** The display does not answer the probe. *)
Definition probe_fails : answers :=
  mkAnswers (ESP_OK, Some 1%N) (ESP_OK, Some 2%N) (ESP_OK, Some 3%N)
            BME280_OK ESP_ERR_NOT_FOUND ESP_OK ESP_OK.

(** The sensor rejects its configuration ([BME280_E_COMM_FAIL] is -2). *)
Definition configure_fails : answers :=
  mkAnswers (ESP_OK, Some 1%N) (ESP_OK, Some 2%N) (ESP_OK, Some 3%N)
            (-2) ESP_OK ESP_OK ESP_OK.

End CommonI2c.

(* ================================================================== *)
(** * wifi.c: persistent store and station bring-up                    *)
(* ================================================================== *)

Module Wifi.

Definition WIFI_SSID : string := "WIFI_SSID".
Definition WIFI_PASS : string := "WIFI_PASS".
Definition TAG_WIFI : string := "WIFI_INIT".

(** What the platform answers during one call of [wifi_init_sta].
    [nvs_flash_init] can be called twice, so it has two answers;
    [xSemaphoreCreateBinary] answers with a handle, [xSemaphoreTake] with
    [pdTRUE] or [pdFALSE]. *)
Record wifi_answers := mkWifiAnswers {
  nvs_flash_init_a : esp_err_t;
  nvs_flash_erase_a : esp_err_t;
  nvs_flash_init_again_a : esp_err_t;
  esp_netif_init_a : esp_err_t;
  esp_event_loop_create_default_a : esp_err_t;
  esp_wifi_init_a : esp_err_t;
  xSemaphoreCreateBinary_a : handle;
  register_wifi_event_a : esp_err_t;
  register_ip_event_a : esp_err_t;
  esp_wifi_set_mode_a : esp_err_t;
  esp_wifi_set_config_a : esp_err_t;
  esp_wifi_start_a : esp_err_t;
  xSemaphoreTake_a : bool
}.

Definition call (ev : event) (a : esp_err_t) : M esp_err_t :=
  emit ev ;; ret a.

Definition wifi_init_sta (a : wifi_answers) : M unit :=
  (* 1) Initialize NVS *)
  err <- call NvsFlashInit (nvs_flash_init_a a) ;;
  (if Z.eqb err ESP_ERR_NVS_NO_FREE_PAGES
      || Z.eqb err ESP_ERR_NVS_NEW_VERSION_FOUND
   then
     ESP_ERROR_CHECK (call NvsFlashErase (nvs_flash_erase_a a)) ;;
     ESP_ERROR_CHECK (call NvsFlashInit (nvs_flash_init_again_a a))
   else ret tt) ;;
  (* 2) Network stack + default event loop *)
  ESP_ERROR_CHECK (call EspNetifInit (esp_netif_init_a a)) ;;
  ESP_ERROR_CHECK
    (call EspEventLoopCreateDefault (esp_event_loop_create_default_a a)) ;;
  emit EspNetifCreateDefaultWifiSta ;;
  (* 3) Initialize Wi-Fi driver *)
  ESP_ERROR_CHECK (call EspWifiInit (esp_wifi_init_a a)) ;;
  (* 5) Create semaphore + register event handlers *)
  emit XSemaphoreCreateBinary ;;
  write (set_s_ip_ready (xSemaphoreCreateBinary_a a)) ;;
  sem <- read s_ip_ready ;;
  ESP_ERROR_CHECK (ret (if negb (is_null sem) then ESP_OK else ESP_ERR_NO_MEM)) ;;
  ESP_ERROR_CHECK
    (call (EspEventHandlerRegister "WIFI_EVENT") (register_wifi_event_a a)) ;;
  ESP_ERROR_CHECK
    (call (EspEventHandlerRegister "IP_EVENT") (register_ip_event_a a)) ;;
  (* 6) Start Wi-Fi + set config *)
  ESP_ERROR_CHECK (call EspWifiSetMode (esp_wifi_set_mode_a a)) ;;
  ESP_ERROR_CHECK
    (call (EspWifiSetConfig WIFI_SSID WIFI_PASS) (esp_wifi_set_config_a a)) ;;
  ESP_ERROR_CHECK (call EspWifiStart (esp_wifi_start_a a)) ;;
  (* 7) Block until IP is acquired *)
  ESP_LOGI TAG_WIFI "Connecting to WiFi..." ;;
  ESP_ERROR_CHECK
    (emit XSemaphoreTakeIpReady ;;
     ret (if xSemaphoreTake_a a then ESP_OK else ESP_FAIL)) ;;
  ESP_LOGI TAG_WIFI "WiFi connected, proceeding...".

(** The two results of [nvs_flash_init] that the code answers with an
    erase and a second initialisation. *)
Definition retried (e : esp_err_t) : Prop :=
  e = ESP_ERR_NVS_NO_FREE_PAGES \/ e = ESP_ERR_NVS_NEW_VERSION_FOUND.

(** ** Concrete set-ups used by the examples *)

Definition with_nvs (first erase again : esp_err_t) : wifi_answers :=
  mkWifiAnswers first erase again ESP_OK ESP_OK ESP_OK 7%N
            ESP_OK ESP_OK ESP_OK ESP_OK ESP_OK true.

(** The store initialises at once. *)
Definition wifi_all_ok : wifi_answers := with_nvs ESP_OK ESP_OK ESP_OK.

(** The first initialisation fails with a code that is neither of the two
    the code looks for (there is no partition for the store); everything
    after it succeeds. *)
Definition nvs_init_fails : wifi_answers :=
  with_nvs ESP_ERR_NOT_FOUND ESP_OK ESP_OK.

(** Number of times the store was initialised, and erased, in a trace. *)
Definition is_nvs_init (ev : event) : bool :=
  match ev with NvsFlashInit => true | _ => false end.
Definition is_nvs_erase (ev : event) : bool :=
  match ev with NvsFlashErase => true | _ => false end.
Definition count (p : event -> bool) (t : list event) : nat :=
  List.length (List.filter p t).

End Wifi.

(* ================================================================== *)
(** * sntp.c: waiting for wall-clock time                              *)
(* ================================================================== *)

Module Sntp.

Definition TAG_SNTP : string := "SNTP".
Definition TAG_GETT : string := "GET_TIME".
Definition EUROPE_ROMANIA_BUCHAREST : string := "EET-2EEST,M3.5.0/3,M10.5.0/4".

(** What the platform sntp_answers: the result of the SNTP start, the result of
    the synchronisation wait, and the [tm_year] that [localtime_r] fills in
    at the poll with the given retry index. *)
Record sntp_answers := mkSntpAnswers {
  esp_netif_sntp_init_a : esp_err_t;
  esp_netif_sntp_sync_wait_a : esp_err_t;
  tm_year_a : nat -> Z
}.

Definition sntp_start (a : sntp_answers) : M unit :=
  ESP_ERROR_CHECK
    (emit (EspNetifSntpInit "pool.ntp.org") ;; ret (esp_netif_sntp_init_a a)) ;;
  ESP_LOGI TAG_SNTP "SNTP started via esp_netif".

(** The [for] loop of [wait_for_time_blocking]: [remaining] iterations are
    left and [retry] is the loop counter.  The result says whether the loop
    was left by its [return]. *)
Fixpoint fallback_check (a : sntp_answers) (remaining retry : nat) : M bool :=
  match remaining with
  | O => ret false
  | S remaining' =>
      emit TimeLocaltime ;;
      if Z.gtb (tm_year_a a retry) (2016 - 1900)
      then ESP_LOGI TAG_GETT "Time looks valid (fallback)." ;; ret true
      else emit (VTaskDelayMs 500) ;; fallback_check a remaining' (S retry)
  end.

Definition wait_for_time_blocking (a : sntp_answers) (timeout_ms : Z) : M unit :=
  r <- (emit (EspNetifSntpSyncWait timeout_ms) ;;
        ret (esp_netif_sntp_sync_wait_a a)) ;;
  if Z.eqb r ESP_OK then ESP_LOGI TAG_GETT "Time synced" else
  returned <- fallback_check a 10 0 ;;
  if returned : bool then ret tt
  else ESP_LOGW TAG_GETT "Time not synced (timeout).".

Definition init_sntp (a : sntp_answers) : M unit :=
  sntp_start a ;;
  emit (Setenv "TZ" EUROPE_ROMANIA_BUCHAREST) ;;
  emit Tzset ;;
  wait_for_time_blocking a 10000.

(** The calls of one failed poll, and of [n] of them in a row. *)
Definition failed_poll : list event := [TimeLocaltime; VTaskDelayMs 500].
Fixpoint failed_polls (n : nat) : list event :=
  match n with
  | O => []
  | S n' => failed_poll ++ failed_polls n'
  end.

Definition is_poll (ev : event) : bool :=
  match ev with TimeLocaltime => true | _ => false end.
Definition polls (t : list event) : nat := List.length (List.filter is_poll t).

(** ** Concrete set-ups used by the examples *)

(** The wait times out and the clock still shows 1970. *)
Definition never_synced : sntp_answers :=
  mkSntpAnswers ESP_OK ESP_ERR_TIMEOUT (fun _ => 70).

(** The wait times out; the clock shows 2025 from the fourth poll on. *)
Definition synced_late : sntp_answers :=
  mkSntpAnswers ESP_OK ESP_ERR_TIMEOUT (fun k => if Nat.ltb k 3 then 70 else 125).

End Sntp.

(* ================================================================== *)
(** * main.c: the measurement record, its text, and the two tasks      *)
(* ================================================================== *)

Module Main.

(** ** Doubles

    The fields of [struct bme280_data] are C [double]s: IEEE 754 binary64,
    here the Standard Library's [spec_float] at precision 53 and maximal
    exponent 1024, with its correctly rounded division. *)
Definition double : Type := spec_float.
Definition prec : Z := 53.
Definition emax : Z := 1024.

Definition double_of_Z (z : Z) : double := binary_normalize prec emax z 0 false.
Definition double_div (x y : double) : double := SFdiv prec emax x y.

(** The double a C compiler reads from a decimal literal [n / 10^k] whose
    numerator and denominator are both exact doubles: the quotient rounded
    to nearest. *)
Definition double_of_decimal (n : Z) (k : nat) : double :=
  double_div (double_of_Z n) (double_of_Z (10 ^ Z.of_nat k)).

(** [struct bme280_data] is declared in the sensor driver's header, outside
    the sources; these are the three fields that [print_data] reads. *)
Record bme280_data := mkData {
  temperature : double;
  pressure : double;
  humidity : double
}.

(** [static struct bme280_data bme280_device_data = {0};] *)
Definition zero_data : bme280_data :=
  mkData (S754_zero false) (S754_zero false) (S754_zero false).

(** ** [snprintf] with [%.Nf]

    The C library is outside the repository.  [%.Nf] prints the exact value
    of the double rounded to [N] decimals (to nearest, ties to even, as
    newlib and glibc do in the default rounding mode), and [snprintf]
    keeps at most [size - 1] characters. *)

Definition digit_char (d : Z) : ascii := ascii_of_nat (48 + Z.to_nat d).

Fixpoint decimal_digits (fuel : nat) (n : Z) (acc : string) : string :=
  match fuel with
  | O => acc
  | S fuel' =>
      let acc' := String (digit_char (n mod 10)) acc in
      if Z.eqb (n / 10) 0 then acc' else decimal_digits fuel' (n / 10) acc'
  end.

(** The decimal numeral of a natural number; a number has no more decimal
    digits than binary ones. *)
Definition decimal (n : Z) : string :=
  decimal_digits (S (Z.to_nat (Z.log2 n))) n "".

(** The last [width] decimal digits of [n], with leading zeros. *)
Fixpoint fixed_digits (width : nat) (n : Z) (acc : string) : string :=
  match width with
  | O => acc
  | S width' => fixed_digits width' (n / 10) (String (digit_char (n mod 10)) acc)
  end.

(** [m * 2^e * 10^digits] rounded to the nearest integer, ties to even. *)
Definition scaled_round (m : positive) (e : Z) (digits : nat) : Z :=
  let num := Zpos m * 10 ^ Z.of_nat digits * 2 ^ Z.max e 0 in
  let den := 2 ^ Z.max (- e) 0 in
  let q := num / den in
  let r := num mod den in
  match Z.compare (2 * r) den with
  | Lt => q
  | Gt => q + 1
  | Eq => if Z.even q then q else q + 1
  end.

Definition sign_string (s : bool) : string := if s then "-" else "".

Definition point_and_fraction (digits : nat) (n : Z) : string :=
  match digits with
  | O => ""
  | _ => "." ++ fixed_digits digits (n mod 10 ^ Z.of_nat digits) ""
  end.

Definition format_f (digits : nat) (x : double) : string :=
  match x with
  | S754_zero s => sign_string s ++ "0" ++ point_and_fraction digits 0
  | S754_infinity s => sign_string s ++ "inf"
  | S754_nan => "nan"
  | S754_finite s m e =>
      let n := scaled_round m e digits in
      sign_string s ++ decimal (n / 10 ^ Z.of_nat digits)
        ++ point_and_fraction digits n
  end.

Definition snprintf (size : nat) (s : string) : string :=
  substring 0 (size - 1) s.

(** The three [snprintf] calls of [print_data]. *)
Definition format_temperature (t : double) : string :=
  snprintf 15 ("Temp-" ++ format_f 1 t ++ "C").
Definition format_pressure (p : double) : string :=
  snprintf 20 ("Pres-" ++ format_f 2 (double_div p (double_of_Z 100)) ++ "hPa").
Definition format_humidity (h : double) : string :=
  snprintf 15 ("Hum-" ++ format_f 1 h ++ "%").

(** The record of the steady-state scenario. *)
Definition steady_record : bme280_data :=
  mkData (double_of_decimal 213 1) (double_of_Z 101325) (double_of_decimal 450 1).

(** ** Bring-up

    [app_main] up to the point where it enters the render loop; the event
    [PrintData] marks the call of [print_data], which never returns and is
    embedded below.  [mutex] is what [xSemaphoreCreateMutex] answers, and
    [configASSERT] halts the process on a null handle. *)
Definition app_main (cfg : CommonI2c.config) (ai : CommonI2c.answers)
    (aw : Wifi.wifi_answers) (at_ : Sntp.sntp_answers) (mutex : handle) : M unit :=
  ESP_ERROR_CHECK (CommonI2c.i2c_shared_init cfg ai) ;;
  Wifi.wifi_init_sta aw ;;
  Sntp.init_sntp at_ ;;
  lock <- (emit XSemaphoreCreateMutex ;; ret mutex) ;;
  (if is_null lock then abort else ret tt) ;;
  emit (XTaskCreatePinnedToCore "sensor_task") ;;
  emit PrintData.

(** ** The shared record and the two tasks

    [sensor_task] and the render loop [print_data] run concurrently; the
    scheduler may switch between them at any point.  Each task is a
    program counter over the statements of its loop body and its locals;
    one step runs one statement.  The struct assignment
    [bme280_device_data = tmp] is not one indivisible store: it is split
    into one step per field, and so are the three reads of [print_data]. *)

Inductive task := SensorTask | RenderTask.

Definition task_eqb (a b : task) : bool :=
  match a, b with
  | SensorTask, SensorTask | RenderTask, RenderTask => true
  | _, _ => false
  end.

Inductive sensor_pc :=
| S_read               (* bme_forced_read_once(&bme280_device_handle, &tmp) *)
| S_take               (* xSemaphoreTake(s_bme_lock, portMAX_DELAY) *)
| S_copy_temperature   (* bme280_device_data = tmp, first field *)
| S_copy_pressure      (* second field *)
| S_copy_humidity      (* third field *)
| S_give               (* xSemaphoreGive(s_bme_lock) *)
| S_delay.             (* vTaskDelay(pdMS_TO_TICKS(2500)) *)

Inductive render_pc :=
| R_clock              (* time, date: strftime and draw *)
| R_take               (* xSemaphoreTake(s_bme_lock, portMAX_DELAY) *)
| R_temperature        (* snprintf(temperature_str, ...) *)
| R_pressure           (* snprintf(pressure_str, ...) *)
| R_humidity           (* snprintf(humidity_str, ...) *)
| R_give               (* xSemaphoreGive(s_bme_lock) *)
| R_draw.              (* draw the three strings, ssd1306_update, vTaskDelay *)

(** The values read in the critical section of [print_data] ([seen]) are
    kept next to the strings made from them. *)
Record state := mkState {
  s_bme_lock : option task;            (* the mutex and its holder *)
  bme280_device_data : bme280_data;    (* the shared record *)
  sensor_at : sensor_pc;
  tmp : bme280_data;                   (* local of sensor_task *)
  render_at : render_pc;
  seen : bme280_data;
  temperature_str : string;
  pressure_str : string;
  humidity_str : string;
  halted : bool                        (* abort() was called *)
}.

(** What an execution shows: a publish that has been completed, a snapshot
    that has been taken, the three sensor lines that a pass has drawn
    before a flush that succeeded. *)
Inductive obs :=
| Published (r : bme280_data)
| Snapshot (r : bme280_data)
| Displayed (humidity_line temperature_line pressure_line : string).

(** Modelled from the spec: the FreeRTOS mutex is outside the repository.
    The spec has it as a mutual-exclusion lock without reentrancy: taking a
    free lock makes the caller its holder, taking a held lock with
    [portMAX_DELAY] blocks, giving it makes it free again. *)
Definition xSemaphoreTake (t : task) (lock : option task) : option (option task) :=
  match lock with
  | None => Some (Some t)
  | Some _ => None
  end.
Definition xSemaphoreGive (t : task) (lock : option task) : option task :=
  match lock with
  | Some holder => if task_eqb holder t then None else lock
  | None => None
  end.

Definition set_temperature (v : double) (r : bme280_data) : bme280_data :=
  mkData v (pressure r) (humidity r).
Definition set_pressure (v : double) (r : bme280_data) : bme280_data :=
  mkData (temperature r) v (humidity r).
Definition set_humidity (v : double) (r : bme280_data) : bme280_data :=
  mkData (temperature r) (pressure r) v.

(** One statement of [sensor_task].  [sample] is what
    [bme_forced_read_once] stores into [tmp], if it stores anything. *)
Definition sensor_step (sample : option bme280_data) (st : state)
    : state * list obs :=
  let at_ pc lock data tmp' :=
    mkState lock data pc tmp' (render_at st) (seen st)
            (temperature_str st) (pressure_str st) (humidity_str st) (halted st) in
  let lock := s_bme_lock st in
  let data := bme280_device_data st in
  match sensor_at st with
  | S_read =>
      (at_ S_take lock data (match sample with Some r => r | None => tmp st end), [])
  | S_take =>
      match xSemaphoreTake SensorTask lock with
      | Some lock' => (at_ S_copy_temperature lock' data (tmp st), [])
      | None => (st, [])
      end
  | S_copy_temperature =>
      (at_ S_copy_pressure lock
           (set_temperature (temperature (tmp st)) data) (tmp st), [])
  | S_copy_pressure =>
      (at_ S_copy_humidity lock
           (set_pressure (pressure (tmp st)) data) (tmp st), [])
  | S_copy_humidity =>
      (at_ S_give lock (set_humidity (humidity (tmp st)) data) (tmp st), [])
  | S_give =>
      (at_ S_delay (xSemaphoreGive SensorTask lock) data (tmp st),
       [Published (tmp st)])
  | S_delay => (at_ S_read lock data (tmp st), [])
  end.

(** One statement of [print_data]'s loop.  [update] is the result of
    [ssd1306_update], which is under [ESP_ERROR_CHECK]: on an error the
    process is halted there. *)
Definition render_step (update : esp_err_t) (st : state) : state * list obs :=
  let at_ pc lock seen' t p h stop :=
    mkState lock (bme280_device_data st) (sensor_at st) (tmp st) pc seen'
            t p h stop in
  let lock := s_bme_lock st in
  let data := bme280_device_data st in
  let t := temperature_str st in
  let p := pressure_str st in
  let h := humidity_str st in
  let stop := halted st in
  match render_at st with
  | R_clock => (at_ R_take lock (seen st) t p h stop, [])
  | R_take =>
      match xSemaphoreTake RenderTask lock with
      | Some lock' => (at_ R_temperature lock' (seen st) t p h stop, [])
      | None => (st, [])
      end
  | R_temperature =>
      let v := temperature data in
      (at_ R_pressure lock (set_temperature v (seen st))
           (format_temperature v) p h stop, [])
  | R_pressure =>
      let v := pressure data in
      (at_ R_humidity lock (set_pressure v (seen st))
           t (format_pressure v) h stop, [])
  | R_humidity =>
      let v := humidity data in
      (at_ R_give lock (set_humidity v (seen st))
           t p (format_humidity v) stop, [])
  | R_give =>
      (at_ R_draw (xSemaphoreGive RenderTask lock) (seen st) t p h stop,
       [Snapshot (seen st)])
  | R_draw =>
      if Z.eqb update ESP_OK
      then (at_ R_clock lock (seen st) t p h stop, [Displayed h t p])
      else (at_ R_draw lock (seen st) t p h true, [])
  end.

(** The scheduler's choice for one step, with what the outside world
    answers to the statement if it asks. *)
Inductive choice :=
| RunSensor (sample : option bme280_data)
| RunRender (update : esp_err_t).

Definition step (c : choice) (st : state) : state * list obs :=
  if halted st then (st, []) else
  match c with
  | RunSensor sample => sensor_step sample st
  | RunRender update => render_step update st
  end.

Fixpoint run (schedule : list choice) (st : state) : state * list obs :=
  match schedule with
  | [] => (st, [])
  | c :: rest =>
      let (st1, o1) := step c st in
      let (st2, o2) := run rest st1 in
      (st2, (o1 ++ o2)%list)
  end.

(** The state in which [app_main] has created the mutex and the sensor
    task and enters [print_data].  [tmp] of [sensor_task] has no
    initialiser, so it starts with whatever [garbage] is on the stack. *)
Definition start (garbage : bme280_data) : state :=
  mkState None zero_data S_read garbage R_clock zero_data "" "" "" false.

(** The record that a snapshot taken after the observations [t] has to
    return if the store behaves like one atomic cell: the latest completed
    publish, or [cur] when there is none. *)
Fixpoint latest (cur : bme280_data) (t : list obs) : bme280_data :=
  match t with
  | [] => cur
  | Published r :: t' => latest r t'
  | _ :: t' => latest cur t'
  end.

Definition is_published (o : obs) : bool :=
  match o with Published _ => true | _ => false end.

(** The observations [t] are those of one atomic cell that holds [cur] at
    first: every snapshot returns the latest completed publish. *)
Fixpoint atomic (cur : bme280_data) (t : list obs) : Prop :=
  match t with
  | [] => True
  | Published r :: t' => atomic r t'
  | Snapshot r :: t' => r = cur /\ atomic cur t'
  | Displayed _ _ _ :: t' => atomic cur t'
  end.

(** ** The invariant of the two tasks

    The statements between [xSemaphoreTake] and [xSemaphoreGive]. *)
Definition sensor_in_cs (pc : sensor_pc) : bool :=
  match pc with
  | S_copy_temperature | S_copy_pressure | S_copy_humidity | S_give => true
  | S_read | S_take | S_delay => false
  end.
Definition render_in_cs (pc : render_pc) : bool :=
  match pc with
  | R_temperature | R_pressure | R_humidity | R_give => true
  | R_clock | R_take | R_draw => false
  end.

(** The holder of the mutex, read off the two program counters. *)
Definition holder (st : state) : option task :=
  if sensor_in_cs (sensor_at st) then Some SensorTask
  else if render_in_cs (render_at st) then Some RenderTask
  else None.

(** The fields that the copy in [sensor_task] has already written. *)
Definition copied (st : state) : Prop :=
  let data := bme280_device_data st in
  match sensor_at st with
  | S_copy_pressure => temperature data = temperature (tmp st)
  | S_copy_humidity =>
      temperature data = temperature (tmp st)
      /\ pressure data = pressure (tmp st)
  | S_give => data = tmp st
  | _ => True
  end.

(** The fields that [print_data] has already read. *)
Definition read_so_far (st : state) : Prop :=
  let data := bme280_device_data st in
  match render_at st with
  | R_pressure => temperature (seen st) = temperature data
  | R_humidity =>
      temperature (seen st) = temperature data
      /\ pressure (seen st) = pressure data
  | R_give => seen st = data
  | _ => True
  end.

(** [t] is what has been observed up to the state [st]. *)
Record invariant (st : state) (t : list obs) : Prop := mkInvariant {
  inv_lock : s_bme_lock st = holder st;
  inv_exclusive : sensor_in_cs (sensor_at st) && render_in_cs (render_at st) = false;
  inv_stored : sensor_in_cs (sensor_at st) = false ->
               bme280_device_data st = latest zero_data t;
  inv_copied : copied st;
  inv_read : read_so_far st;
  inv_atomic : atomic zero_data t
}.

(** ** Concrete schedules used by the examples *)

Definition publish_once (r : bme280_data) : list choice :=
  [RunSensor (Some r); RunSensor None; RunSensor None; RunSensor None;
   RunSensor None; RunSensor None].

Definition render_pass : list choice :=
  [RunRender ESP_OK; RunRender ESP_OK; RunRender ESP_OK; RunRender ESP_OK;
   RunRender ESP_OK; RunRender ESP_OK; RunRender ESP_OK].

(** The sensor task is preempted in the middle of its copy, the render
    loop runs up to the lock, the sensor task finishes, the render loop
    takes its snapshot; then a second pass with no publish in between. *)
Definition preempted (r : bme280_data) : list choice :=
  ([RunSensor (Some r); RunSensor None; RunSensor None;
   RunRender ESP_OK; RunRender ESP_OK; RunRender ESP_OK;
   RunSensor None; RunSensor None; RunSensor None]
  ++ render_pass ++ render_pass)%list.

End Main.

(* ================================================================== *)
(** * Reading traces                                                   *)
(* ================================================================== *)

Module Trace.

(** The calls that a run started in [w] has added to the trace. *)
Definition added {A} (w : world) (o : outcome A) : list event :=
  skipn (List.length (trace w)) (trace (final o)).

Definition is_erase_or_init (ev : event) : bool :=
  match ev with NvsFlashInit | NvsFlashErase => true | _ => false end.

(** The driver calls that touch the sensor or the display. *)
Definition is_device_call (ev : event) : bool :=
  match ev with
  | Bme280DeviceInit _ | ConfigureSensorSettings | I2cDeviceProbe _ _
  | Ssd1306LinkFromDevice _ | Ssd1306Init _ _ | Ssd1306SetCursor _ _
  | Ssd1306DrawString _ | Ssd1306Update => true
  | _ => false
  end.

(** The calls of [wifi.c] and [sntp.c]. *)
Definition is_network_call (ev : event) : bool :=
  match ev with
  | NvsFlashInit | NvsFlashErase | EspNetifInit | EspEventLoopCreateDefault
  | EspNetifCreateDefaultWifiSta | EspWifiInit | XSemaphoreCreateBinary
  | EspEventHandlerRegister _ | EspWifiSetMode | EspWifiSetConfig _ _
  | EspWifiStart | XSemaphoreTakeIpReady | EspNetifSntpInit _ | Setenv _ _
  | Tzset | EspNetifSntpSyncWait _ | TimeLocaltime | VTaskDelayMs _ => true
  | _ => false
  end.

(** The time spent in [vTaskDelay], in milliseconds. *)
Definition delay_of (ev : event) : Z :=
  match ev with VTaskDelayMs ms => ms | _ => 0 end.
Definition total_delay (t : list event) : Z :=
  fold_right (fun ev acc => delay_of ev + acc) 0 t.

End Trace.

(* ================================================================== *)
(** * wifi.c: the event handler                                        *)
(* ================================================================== *)

Module WifiHandler.

(** [esp_event_base_t] is a pointer that is compared with the two bases
    the handler is registered for; any other base is [OTHER_BASE]. *)
Inductive esp_event_base_t := WIFI_EVENT | IP_EVENT | OTHER_BASE.

Definition base_eqb (a b : esp_event_base_t) : bool :=
  match a, b with
  | WIFI_EVENT, WIFI_EVENT | IP_EVENT, IP_EVENT | OTHER_BASE, OTHER_BASE => true
  | _, _ => false
  end.

(** The event ids, as ESP-IDF's [wifi_event_t] and [ip_event_t] number
    them. *)
Definition WIFI_EVENT_STA_START : Z := 2.
Definition WIFI_EVENT_STA_DISCONNECTED : Z := 5.
Definition IP_EVENT_STA_GOT_IP : Z := 0.

(** What the handler calls. *)
Inductive handler_call :=
| EspWifiConnect
| LogDisconnected        (* ESP_LOGW(TAG_WIFI, "Disconnected. Retrying...") *)
| LogGotIp               (* ESP_LOGI(TAG_WIFI, "Got IP!") *)
| XSemaphoreGiveIpReady.

(** [wifi_event_handler(arg, event_base, event_id, event_data)]; it reads
    the static [s_ip_ready]. *)
Definition wifi_event_handler (w : world) (event_base : esp_event_base_t)
    (event_id : Z) : list handler_call :=
  if base_eqb event_base WIFI_EVENT then
    if Z.eqb event_id WIFI_EVENT_STA_START then [EspWifiConnect]
    else if Z.eqb event_id WIFI_EVENT_STA_DISCONNECTED
         then [LogDisconnected; EspWifiConnect]
         else []
  else if base_eqb event_base IP_EVENT && Z.eqb event_id IP_EVENT_STA_GOT_IP
       then LogGotIp :: (if negb (is_null (s_ip_ready w))
                         then [XSemaphoreGiveIpReady] else [])
       else [].

(** The handler run on a sequence of events, in one world. *)
Definition deliver (w : world) (events : list (esp_event_base_t * Z))
    : list handler_call :=
  flat_map (fun e => wifi_event_handler w (fst e) (snd e)) events.

Definition is_connect (c : handler_call) : bool :=
  match c with EspWifiConnect => true | _ => false end.
Definition is_give (c : handler_call) : bool :=
  match c with XSemaphoreGiveIpReady => true | _ => false end.

(** The events on which the station asks for a connection, and the one
    that reports an address. *)
Definition asks_connect (e : esp_event_base_t * Z) : bool :=
  base_eqb (fst e) WIFI_EVENT
  && (Z.eqb (snd e) WIFI_EVENT_STA_START
      || Z.eqb (snd e) WIFI_EVENT_STA_DISCONNECTED).
Definition reports_ip (e : esp_event_base_t * Z) : bool :=
  base_eqb (fst e) IP_EVENT && Z.eqb (snd e) IP_EVENT_STA_GOT_IP.

(** The calls of [wifi_init_sta] in the order of the source, when nothing
    fails: the erase and the second initialisation only on one of the two
    codes. *)
Definition wifi_script (a : Wifi.wifi_answers) : list event :=
  (NvsFlashInit
   :: (if Z.eqb (Wifi.nvs_flash_init_a a) ESP_ERR_NVS_NO_FREE_PAGES
          || Z.eqb (Wifi.nvs_flash_init_a a) ESP_ERR_NVS_NEW_VERSION_FOUND
       then [NvsFlashErase; NvsFlashInit] else [])
   ++ [EspNetifInit; EspEventLoopCreateDefault; EspNetifCreateDefaultWifiSta;
       EspWifiInit; XSemaphoreCreateBinary;
       EspEventHandlerRegister "WIFI_EVENT"; EspEventHandlerRegister "IP_EVENT";
       EspWifiSetMode; EspWifiSetConfig Wifi.WIFI_SSID Wifi.WIFI_PASS;
       EspWifiStart; Log LOGI Wifi.TAG_WIFI "Connecting to WiFi...";
       XSemaphoreTakeIpReady;
       Log LOGI Wifi.TAG_WIFI "WiFi connected, proceeding..."])%list.

(** A station for which everything works on the first try. *)
Definition station_up : world :=
  final (Wifi.wifi_init_sta Wifi.wifi_all_ok world_init).

End WifiHandler.

(* ================================================================== *)
(** * main.c: the frame that [print_data] draws                        *)
(* ================================================================== *)

Module Frame.
Import CommonI2c Main.

(** [strlen] of a C string. *)
Definition strlen (s : string) : Z := Z.of_nat (String.length s).

(** [(WIDTH / 2) - ((strlen(s) * 8) / 2)], stored in the [uint16_t]
    [horizontal_cursor]: the subtraction is made in [size_t] and the
    result is cut to 16 bits. *)
Definition centered_cursor (width : Z) (s : string) : Z :=
  uint16 (Z.quot width 2 - Z.quot (strlen s * 8) 2).

Definition draw_line (x y : Z) (s : string) : M unit :=
  emit (Ssd1306SetCursor x y) ;; emit (Ssd1306DrawString s).

(** The vertical cursors of the five lines, from [PIXELS_PER_PAGE]
    (a constant of the display driver's header, taken as a parameter). *)
Definition time_row (pixels_per_page : Z) : Z := uint16 (pixels_per_page * 1 - 4).
Definition date_row (pixels_per_page : Z) : Z := uint16 (pixels_per_page * 2).
Definition humidity_row (pixels_per_page : Z) : Z := uint16 (pixels_per_page * 4 - 4).
Definition temperature_row (pixels_per_page : Z) : Z := uint16 (pixels_per_page * 5 - 2).
Definition pressure_row (pixels_per_page : Z) : Z := uint16 (pixels_per_page * 6).

(** One iteration of the loop of [print_data] without its waiting: the
    two [strftime] results are given, [d] is the record read under the
    lock, [update] is what [ssd1306_update] answers. *)
Definition print_data_frame (cfg : config) (pixels_per_page : Z)
    (time_buffer date_buffer : string) (d : bme280_data)
    (update : esp_err_t) : M unit :=
  draw_line (uint16 (Z.quot (WIDTH cfg) 2 - Z.quot (8 * 8) 2))
            (time_row pixels_per_page) time_buffer ;;
  draw_line (uint16 (Z.quot (WIDTH cfg) 2 - Z.quot (8 * 10) 2))
            (date_row pixels_per_page) date_buffer ;;
  let temperature_str := format_temperature (temperature d) in
  let pressure_str := format_pressure (pressure d) in
  let humidity_str := format_humidity (humidity d) in
  draw_line (centered_cursor (WIDTH cfg) humidity_str)
            (humidity_row pixels_per_page) humidity_str ;;
  draw_line (centered_cursor (WIDTH cfg) temperature_str)
            (temperature_row pixels_per_page) temperature_str ;;
  draw_line (centered_cursor (WIDTH cfg) pressure_str)
            (pressure_row pixels_per_page) pressure_str ;;
  ESP_ERROR_CHECK (emit Ssd1306Update ;; ret update).

(** The magnitude of a double is below the integer [bound]; infinities
    and NaN have no magnitude to compare and print as short words. *)
Definition below (x : double) (bound : Z) : Prop :=
  match x with
  | S754_finite _ m e => Zpos m * 2 ^ Z.max e 0 < bound * 2 ^ Z.max (- e) 0
  | _ => True
  end.

End Frame.

(* ================================================================== *)
(** * main.c: what the two tasks show                                  *)
(* ================================================================== *)

Module Tasks.
Import Main.

(** The latest snapshot among the observations [t], or [cur]. *)
Fixpoint last_snapshot (cur : option bme280_data) (t : list obs)
    : option bme280_data :=
  match t with
  | [] => cur
  | Snapshot r :: t' => last_snapshot (Some r) t'
  | _ :: t' => last_snapshot cur t'
  end.

(** The three lines are the text of the record [r]. *)
Definition text_of (r : bme280_data) (h t p : string) : Prop :=
  h = format_humidity (humidity r)
  /\ t = format_temperature (temperature r)
  /\ p = format_pressure (pressure r).

(** The lines of every [Displayed] in [t] are the text of the latest
    snapshot before it; [cur] is the latest snapshot before [t]. *)
Fixpoint faithful (cur : option bme280_data) (t : list obs) : Prop :=
  match t with
  | [] => True
  | Snapshot r :: t' => faithful (Some r) t'
  | Displayed h tl p :: t' =>
      (exists r, cur = Some r /\ text_of r h tl p) /\ faithful cur t'
  | Published _ :: t' => faithful cur t'
  end.

(** The strings that [print_data] has formatted so far belong to the
    values it has read. *)
Definition formatted (st : state) : Prop :=
  let r := seen st in
  match render_at st with
  | R_pressure => temperature_str st = format_temperature (temperature r)
  | R_humidity =>
      temperature_str st = format_temperature (temperature r)
      /\ pressure_str st = format_pressure (pressure r)
  | R_give | R_draw =>
      text_of r (humidity_str st) (temperature_str st) (pressure_str st)
  | _ => True
  end.

Record shows (st : state) (t : list obs) : Prop := mkShows {
  shows_formatted : formatted st;
  shows_snapshot : render_at st = R_draw -> last_snapshot None t = Some (seen st);
  shows_faithful : faithful None t
}.

(** What [bme_forced_read_once] answered in the course of a schedule:
    the schedule is replayed from [st], and the answer of every step that
    executes the read statement of [sensor_task] is collected, in order.
    The answers that the scheduler offers at other statements, or after
    the process has been halted, are answers to nothing. *)
Fixpoint reads (schedule : list choice) (st : state)
    : list (option bme280_data) :=
  match schedule with
  | [] => []
  | c :: rest =>
      let here :=
        match c with
        | RunSensor sample =>
            if halted st then []
            else match sensor_at st with S_read => [sample] | _ => [] end
        | RunRender _ => []
        end in
      (here ++ reads rest (fst (step c st)))%list
  end.

(** What [tmp] holds after the reads [rs] when it held [cur] before them:
    the latest sample that a read has stored; a read that stores nothing
    leaves it as it is. *)
Fixpoint held (cur : bme280_data) (rs : list (option bme280_data))
    : bme280_data :=
  match rs with
  | [] => cur
  | Some r :: rs' => held r rs'
  | None :: rs' => held cur rs'
  end.

(** A schedule that runs one task only. *)
Definition sensor_only (n : nat) : list choice := repeat (RunSensor None) n.
(** [sensor_task] reads [r], takes the mutex and copies the three fields;
    its next statement gives the mutex back. *)
Definition read_and_copy (r : bme280_data) : list choice :=
  RunSensor (Some r) :: sensor_only 4.
Definition render_only (n : nat) : list choice := repeat (RunRender ESP_OK) n.

(** The sensor task is stopped in the middle of its copy. *)
Definition mid_copy : state :=
  fst (run [RunSensor (Some steady_record); RunSensor None; RunSensor None]
         (start zero_data)).

End Tasks.

(* ================================================================== *)
(** * Properties of the monad                                          *)
(* ================================================================== *)

Module EspFacts.

Lemma bind_Returned {A B} (m : M A) (k : A -> M B) (w w' : world) (a : A) :
  m w = Returned a w' -> bind m k w = k a w'.
Proof. intro E. unfold bind. now rewrite E. Qed.

Lemma bind_Aborted {A B} (m : M A) (k : A -> M B) (w w' : world) :
  m w = Aborted w' -> bind m k w = Aborted w'.
Proof. intro E. unfold bind. now rewrite E. Qed.

Lemma is_null_false (h : handle) : h <> NULL -> is_null h = false.
Proof. intro H. unfold is_null. now apply N.eqb_neq. Qed.

Lemma is_null_true (h : handle) : h = NULL -> is_null h = true.
Proof. intros ->. reflexivity. Qed.

Lemma err_eqb_false (e : esp_err_t) : e <> ESP_OK -> Z.eqb e ESP_OK = false.
Proof. intro H. now apply Z.eqb_neq. Qed.

End EspFacts.
Import EspFacts.

(* ================================================================== *)
(** * Properties of the shared bus registry                            *)
(* ================================================================== *)

Module CommonI2cFacts.
Import CommonI2c.

Ltac unfold_m :=
  unfold i2c_shared_init, init_sensor, init_screen, i2c_new_master_bus,
    i2c_master_bus_add_device, i2c_get_bus, i2c_get_bme280, i2c_get_ssd1306,
    ESP_RETURN_ON_ERROR, ESP_ERROR_CHECK, ESP_LOGE, ESP_LOGI, store_out,
    bind, ret, read, write, emit, abort.

Section WithConfig.
Variable cfg : config.

(** The guard at the top of [i2c_shared_init]: with a bus handle stored,
    the call does nothing at all. *)
Lemma shared_init_with_bus (a : answers) (w : world) :
  i2c_bus w <> NULL -> i2c_shared_init cfg a w = Returned ESP_OK w.
Proof.
  intro Hbus. unfold i2c_shared_init, bind, read, ret.
  now rewrite (is_null_false _ Hbus).
Qed.

Lemma shared_init_seq_with_bus (calls : list answers) (w : world) :
  i2c_bus w <> NULL ->
  i2c_shared_init_seq cfg calls w
  = Returned (repeat ESP_OK (List.length calls)) w.
Proof.
  intro Hbus. induction calls as [|a rest IH]; simpl.
  - reflexivity.
  - unfold bind at 1. rewrite (shared_init_with_bus a w Hbus).
    unfold bind at 1. now rewrite IH.
Qed.

(** A call that finds no bus and cannot create one changes no static. *)
Lemma shared_init_bus_failure (a : answers) (w : world) :
  i2c_bus w = NULL ->
  fst (new_master_bus_a a) <> ESP_OK ->
  snd (new_master_bus_a a) = None ->
  exists w',
    i2c_shared_init cfg a w = Returned (fst (new_master_bus_a a)) w'
    /\ i2c_bus w' = NULL
    /\ sensor_i2c_dev w' = sensor_i2c_dev w
    /\ screen_i2c_dev w' = screen_i2c_dev w.
Proof.
  intros Hbus Herr Hout. unfold_m.
  rewrite (is_null_true _ Hbus), Hout. simpl.
  rewrite (err_eqb_false _ Herr). simpl.
  eexists; repeat split; simpl; auto.
Qed.

(** With no bus yet and the three driver calls succeeding, the call gets
    as far as the two devices. *)
Lemma shared_init_reaches_devices (a : answers) (w : world) :
  i2c_bus w = NULL ->
  fst (new_master_bus_a a) = ESP_OK ->
  fst (add_ssd1306_a a) = ESP_OK ->
  fst (add_bme280_a a) = ESP_OK ->
  exists w3 bus,
    i2c_shared_init cfg a w
    = (init_sensor a ;; init_screen cfg a ;; ret ESP_OK) w3
    /\ trace w3
       = (trace w ++ [I2cNewMasterBus;
                      I2cMasterBusAddDevice bus (SSD1306_I2C_ADDR_DEFAULT cfg);
                      I2cMasterBusAddDevice bus (BME280_I2C_ADDR_PRIM cfg)])%list.
Proof.
  intros Hbus H1 H2 H3.
  destruct a as [[e1 o1] [e2 o2] [e3 o3] c p i u]. simpl in *. subst e1 e2 e3.
  unfold i2c_shared_init, ESP_RETURN_ON_ERROR, i2c_new_master_bus,
    i2c_master_bus_add_device, store_out.
  unfold bind at 1. unfold read at 1. rewrite (is_null_true _ Hbus).
  cbn [negb new_master_bus_a add_ssd1306_a add_bme280_a fst snd].
  destruct o1, o2, o3; cbn [bind ret emit write read Z.eqb ESP_OK];
    eexists; eexists; (split; [reflexivity|]);
    cbn [trace record_event set_i2c_bus set_screen_i2c_dev set_sensor_i2c_dev
         i2c_bus];
    rewrite <- !app_assoc; reflexivity.
Qed.

Lemma init_sensor_returns (a : answers) (w : world) :
  exists w',
    init_sensor a w = Returned tt w'
    /\ trace w'
       = (trace w ++ Bme280DeviceInit (sensor_i2c_dev w)
            :: ConfigureSensorSettings
            :: (if Z.eqb (configure_sensor_settings_a a) BME280_OK then []
                else [Log LOGE "BME280" "configure_sensor_settings failed"]))%list
    /\ i2c_bus w' = i2c_bus w.
Proof.
  unfold init_sensor, i2c_get_bme280, ESP_LOGE.
  cbn [bind ret emit read].
  destruct (Z.eqb (configure_sensor_settings_a a) BME280_OK);
    cbn [negb ret emit]; eexists; (split; [reflexivity|]);
    cbn [trace record_event i2c_bus]; rewrite <- ?app_assoc; split; reflexivity.
Qed.

Lemma init_screen_probe_first (a : answers) (w : world) :
  exists after,
    trace (final (init_screen cfg a w))
    = (trace w ++ I2cDeviceProbe (i2c_bus w) (SSD1306_I2C_ADDR_DEFAULT cfg)
         :: after)%list.
Proof.
  unfold_m. cbv beta iota.
  destruct (Z.eqb (i2c_device_probe_a a) ESP_OK); cbv beta iota.
  2:{ exists []. reflexivity. }
  destruct (Z.eqb (ssd1306_init_a a) ESP_OK); cbv beta iota.
  2:{ eexists. cbn [final trace record_event]. rewrite <- !app_assoc. reflexivity. }
  destruct (Z.eqb (ssd1306_update_a a) ESP_OK); cbv beta iota;
   eexists; cbn [final trace record_event]; rewrite <- !app_assoc; reflexivity.
Qed.

Lemma init_screen_probe_fails (a : answers) (w : world) :
  i2c_device_probe_a a <> ESP_OK ->
  init_screen cfg a w
  = Aborted (record_event
               (I2cDeviceProbe (i2c_bus w) (SSD1306_I2C_ADDR_DEFAULT cfg)) w).
Proof.
  intro Hp.
  unfold_m. cbv beta iota. rewrite (err_eqb_false _ Hp). reflexivity.
Qed.

(** Whether [init_screen] returns depends on the display alone. *)
Lemma init_screen_retval (a : answers) (w1 w2 : world) :
  retval (init_screen cfg a w1) = retval (init_screen cfg a w2).
Proof.
  unfold_m. cbv beta iota.
  destruct (Z.eqb (i2c_device_probe_a a) ESP_OK); cbv beta iota; [|reflexivity].
  destruct (Z.eqb (ssd1306_init_a a) ESP_OK); cbv beta iota; [|reflexivity].
  destruct (Z.eqb (ssd1306_update_a a) ESP_OK); reflexivity.
Qed.

Lemma init_screen_works (a : answers) (w : world) :
  i2c_device_probe_a a = ESP_OK -> ssd1306_init_a a = ESP_OK ->
  ssd1306_update_a a = ESP_OK ->
  retval (init_screen cfg a w) = Some tt.
Proof.
  intros Hp Hi Hu.
  unfold_m. cbv beta iota. rewrite Hp. cbv beta iota. rewrite Hi. cbv beta iota.
  rewrite Hu. reflexivity.
Qed.

End WithConfig.

(** While every call so far has failed to create the bus, the three
    handles are still null. *)
Lemma handles_null_until_bus_created (cfg : config) (calls : list answers) :
  Forall (fun a => fst (new_master_bus_a a) <> ESP_OK
                   /\ snd (new_master_bus_a a) = None) calls ->
  exists es w',
    i2c_shared_init_seq cfg calls world_init = Returned es w'
    /\ i2c_bus w' = NULL /\ sensor_i2c_dev w' = NULL /\ screen_i2c_dev w' = NULL.
Proof.
  assert (G : forall w, i2c_bus w = NULL ->
            Forall (fun a => fst (new_master_bus_a a) <> ESP_OK
                             /\ snd (new_master_bus_a a) = None) calls ->
            exists es w',
              i2c_shared_init_seq cfg calls w = Returned es w'
              /\ i2c_bus w' = NULL
              /\ sensor_i2c_dev w' = sensor_i2c_dev w
              /\ screen_i2c_dev w' = screen_i2c_dev w).
  { induction calls as [|a rest IH]; intros w Hbus Hall.
    - exists [], w. simpl. unfold ret. auto.
    - inversion Hall as [|? ? [Herr Hout] Hrest]; subst.
      destruct (shared_init_bus_failure cfg a w Hbus Herr Hout)
        as (w1 & E1 & B1 & S1 & D1).
      destruct (IH w1 B1 Hrest) as (es & w2 & E2 & B2 & S2 & D2).
      exists (fst (new_master_bus_a a) :: es), w2. simpl.
      unfold bind at 1. rewrite E1. unfold bind at 1. rewrite E2.
      unfold ret. repeat split; congruence. }
  intro Hall. destruct (G world_init eq_refl Hall) as (es & w' & E & B & S & D).
  exists es, w'. auto.
Qed.

(** C2, as stated, fails: when the first call cannot create the bus it
    leaves the bus handle null, so the second call is not a no-op: it
    performs the whole hardware setup and the bus accessor changes. *)
Lemma bus_failure_is_retried :
  exists w1 w2,
    i2c_shared_init_seq board [bus_fails] world_init
    = Returned [ESP_ERR_NO_MEM] w1
    /\ i2c_shared_init_seq board [all_ok] w1 = Returned [ESP_OK] w2
    /\ trace w2 <> trace w1
    /\ In I2cNewMasterBus (skipn (List.length (trace w1)) (trace w2))
    /\ retval (i2c_get_bus w2) <> retval (i2c_get_bus w1).
Proof.
  eexists. eexists. split; [reflexivity|]. split; [reflexivity|].
  split; [discriminate|]. split; [simpl; auto|discriminate].
Qed.

(** C2, amended: once a call of [i2c_shared_init] has returned with a bus
    handle stored, every later call returns [ESP_OK] at once, adds nothing
    to the trace of driver calls, and each accessor returns what it
    returned after that call. *)
Theorem shared_init_idempotent_once_bus_exists
    (cfg : config) (first : answers) (w0 : world) (e1 : esp_err_t)
    (w1 : world) (rest : list answers) :
  i2c_shared_init cfg first w0 = Returned e1 w1 ->
  i2c_bus w1 <> NULL ->
  exists w',
    i2c_shared_init_seq cfg rest w1
    = Returned (repeat ESP_OK (List.length rest)) w'
    /\ trace w' = trace w1
    /\ retval (i2c_get_bus w') = retval (i2c_get_bus w1)
    /\ retval (i2c_get_bme280 w') = retval (i2c_get_bme280 w1)
    /\ retval (i2c_get_ssd1306 w') = retval (i2c_get_ssd1306 w1).
Proof.
  intros _ Hbus. exists w1.
  rewrite (shared_init_seq_with_bus cfg rest w1 Hbus). auto.
Qed.

Lemma shared_init_idempotent_once_bus_exists_witness :
  let w1 := final (i2c_shared_init board all_ok world_init) in
  i2c_shared_init board all_ok world_init = Returned ESP_OK w1
  /\ i2c_bus w1 <> NULL
  /\ exists w',
       i2c_shared_init_seq board [all_ok; bus_fails; probe_fails] w1
       = Returned [ESP_OK; ESP_OK; ESP_OK] w'
       /\ trace w' = trace w1
       /\ retval (i2c_get_bus w') = Some 1%N
       /\ retval (i2c_get_bme280 w') = Some 3%N
       /\ retval (i2c_get_ssd1306 w') = Some 2%N.
Proof.
  split; [reflexivity|]. split; [discriminate|].
  apply (shared_init_idempotent_once_bus_exists board all_ok world_init ESP_OK
           (final (i2c_shared_init board all_ok world_init))
           [all_ok; bus_fails; probe_fails]).
  - reflexivity.
  - discriminate.
Defined.

(** C3, as stated, fails for the display accessor: when the bus is
    created, the display is attached and the attach of the sensor fails,
    the call returns the error with the bus handle stored, the later calls
    return [ESP_OK], and [i2c_get_ssd1306] does not return null: it keeps
    returning the display handle that was attached before the failure.
    Only [i2c_get_bme280] returns null. *)
Lemma failed_sensor_attach_keeps_display_handle :
  fst (new_master_bus_a bme_attach_fails) = ESP_OK
  /\ fst (add_bme280_a bme_attach_fails) <> ESP_OK
  /\ exists w',
       i2c_shared_init_seq board [bme_attach_fails; all_ok; all_ok] world_init
       = Returned [ESP_ERR_NO_MEM; ESP_OK; ESP_OK] w'
       /\ retval (i2c_get_bus w') = Some 1%N
       /\ retval (i2c_get_bme280 w') = Some NULL
       /\ retval (i2c_get_ssd1306 w') = Some 2%N
       /\ retval (i2c_get_ssd1306 w') <> Some NULL.
Proof.
  split; [reflexivity|]. split; [discriminate|].
  eexists. split; [reflexivity|]. repeat split. discriminate.
Qed.

(** C3, amended: when the first call creates the bus and then fails to
    attach a device (the display, or the sensor after the display) without
    a handle being stored for it, it returns the driver's error with the
    bus handle stored.  Every later call then returns [ESP_OK] without a
    single driver call, so the missing handles are never attached:
    [i2c_get_bme280] returns null from then on; [i2c_get_ssd1306] returns
    null from then on when the display attach stored no handle, and keeps
    returning the display handle when the display was attached and only
    the sensor attach failed. *)
Theorem partial_init_is_never_retried
    (cfg : config) (first : answers) (h : handle) (e : esp_err_t)
    (rest : list answers) :
  new_master_bus_a first = (ESP_OK, Some h) ->
  h <> NULL ->
  e <> ESP_OK ->
  add_ssd1306_a first = (e, None)
  \/ (fst (add_ssd1306_a first) = ESP_OK /\ add_bme280_a first = (e, None)) ->
  exists w1,
    i2c_shared_init cfg first world_init = Returned e w1
    /\ retval (i2c_get_bus w1) = Some h
    /\ exists w',
         i2c_shared_init_seq cfg rest w1
         = Returned (repeat ESP_OK (List.length rest)) w'
         /\ trace w' = trace w1
         /\ retval (i2c_get_bus w') = Some h
         /\ retval (i2c_get_bme280 w') = Some NULL
         /\ (snd (add_ssd1306_a first) = None ->
             retval (i2c_get_ssd1306 w') = Some NULL)
         /\ (forall d, snd (add_ssd1306_a first) = Some d ->
             retval (i2c_get_ssd1306 w') = Some d).
Proof.
  intros Hbus Hh He Hfail.
  assert (Hw1 : exists w1,
            i2c_shared_init cfg first world_init = Returned e w1
            /\ i2c_bus w1 = h /\ sensor_i2c_dev w1 = NULL
            /\ (snd (add_ssd1306_a first) = None -> screen_i2c_dev w1 = NULL)
            /\ (forall d, snd (add_ssd1306_a first) = Some d ->
                screen_i2c_dev w1 = d)).
  { unfold_m. simpl. rewrite Hbus. simpl.
    destruct Hfail as [Hssd | [Hssd Hbme]].
    - rewrite Hssd. simpl. rewrite (err_eqb_false _ He). simpl.
      eexists. repeat split. intros d K. discriminate K.
    - destruct (add_ssd1306_a first) as [e2 o2]. simpl in Hssd. subst e2.
      rewrite Hbme. simpl. rewrite (err_eqb_false _ He).
      destruct o2; simpl; eexists; repeat split; simpl;
        try discriminate; intros d K; now inversion K. }
  destruct Hw1 as (w1 & E1 & B1 & S1 & D1 & D2).
  exists w1. split; [exact E1|]. split; [simpl; congruence|].
  exists w1. rewrite shared_init_seq_with_bus by congruence.
  repeat split; simpl; try congruence.
  - intro Hnone. now rewrite (D1 Hnone).
  - intros d Hd. now rewrite (D2 d Hd).
Qed.

Lemma partial_init_is_never_retried_witness :
  new_master_bus_a bme_attach_fails = (ESP_OK, Some 1%N)
  /\ 1%N <> NULL
  /\ ESP_ERR_NO_MEM <> ESP_OK
  /\ (add_ssd1306_a bme_attach_fails = (ESP_ERR_NO_MEM, None)
      \/ (fst (add_ssd1306_a bme_attach_fails) = ESP_OK
          /\ add_bme280_a bme_attach_fails = (ESP_ERR_NO_MEM, None)))
  /\ exists w1,
       i2c_shared_init board bme_attach_fails world_init
       = Returned ESP_ERR_NO_MEM w1
       /\ retval (i2c_get_bus w1) = Some 1%N
       /\ exists w',
            i2c_shared_init_seq board [all_ok; all_ok] w1
            = Returned [ESP_OK; ESP_OK] w'
            /\ trace w' = trace w1
            /\ retval (i2c_get_bus w') = Some 1%N
            /\ retval (i2c_get_bme280 w') = Some NULL
            /\ (snd (add_ssd1306_a bme_attach_fails) = None ->
                retval (i2c_get_ssd1306 w') = Some NULL)
            /\ (forall d, snd (add_ssd1306_a bme_attach_fails) = Some d ->
                retval (i2c_get_ssd1306 w') = Some d).
Proof.
  split; [reflexivity|]. split; [discriminate|]. split; [discriminate|].
  split; [right; split; reflexivity|].
  apply (partial_init_is_never_retried board bme_attach_fails 1%N
           ESP_ERR_NO_MEM [all_ok; all_ok]).
  - reflexivity.
  - discriminate.
  - discriminate.
  - right. split; reflexivity.
Defined.

(** C5: when bring-up reaches the display and the display does not answer
    the probe, [i2c_shared_init] does not return: the process is halted
    with the probe as the last driver call, and [app_main] is halted in the
    same world, so the render loop is never entered. *)
Theorem missing_display_halts_bring_up
    (cfg : config) (a : answers) (w : world)
    (aw : Wifi.wifi_answers) (at_ : Sntp.sntp_answers) (mutex : handle) :
  i2c_bus w = NULL ->
  fst (new_master_bus_a a) = ESP_OK ->
  fst (add_ssd1306_a a) = ESP_OK ->
  fst (add_bme280_a a) = ESP_OK ->
  i2c_device_probe_a a <> ESP_OK ->
  exists w' before,
    i2c_shared_init cfg a w = Aborted w'
    /\ trace w'
       = (before ++ [I2cDeviceProbe (i2c_bus w') (SSD1306_I2C_ADDR_DEFAULT cfg)])%list
    /\ Main.app_main cfg a aw at_ mutex w = Aborted w'.
Proof.
  intros Hbus H1 H2 H3 Hp.
  destruct (shared_init_reaches_devices cfg a w Hbus H1 H2 H3) as (w3 & bus & E3 & _).
  destruct (init_sensor_returns a w3) as (w4 & E4 & _ & _).
  assert (E : i2c_shared_init cfg a w
              = Aborted (record_event
                  (I2cDeviceProbe (i2c_bus w4) (SSD1306_I2C_ADDR_DEFAULT cfg)) w4)).
  { rewrite E3. rewrite (bind_Returned _ _ _ _ _ E4).
    apply bind_Aborted. now apply init_screen_probe_fails. }
  eexists. exists (trace w4). split; [exact E|]. split; [reflexivity|].
  unfold Main.app_main, ESP_ERROR_CHECK.
  apply bind_Aborted. now apply bind_Aborted.
Qed.

Lemma missing_display_halts_bring_up_witness :
  i2c_bus world_init = NULL
  /\ fst (new_master_bus_a probe_fails) = ESP_OK
  /\ fst (add_ssd1306_a probe_fails) = ESP_OK
  /\ fst (add_bme280_a probe_fails) = ESP_OK
  /\ i2c_device_probe_a probe_fails <> ESP_OK
  /\ exists w' before,
       i2c_shared_init board probe_fails world_init = Aborted w'
       /\ trace w' = (before ++ [I2cDeviceProbe (i2c_bus w') 0x3C])%list
       /\ Main.app_main board probe_fails Wifi.wifi_all_ok Sntp.never_synced 9%N
            world_init = Aborted w'.
Proof.
  repeat (split; [first [reflexivity | discriminate]|]).
  apply (missing_display_halts_bring_up board probe_fails world_init
           Wifi.wifi_all_ok Sntp.never_synced 9%N);
    first [reflexivity | discriminate].
Defined.

(** C6: whatever [configure_sensor_settings] returns, [init_sensor] at most
    logs an error.  Initialisation goes on to the display (the probe is
    the next driver call), its outcome is the one it has when the sensor
    accepts its configuration, it never returns a code other than
    [ESP_OK], and it returns [ESP_OK] when the display works. *)
Theorem sensor_configuration_failure_is_tolerated
    (cfg : config) (a : answers) (w : world) (rslt : Z) :
  i2c_bus w = NULL ->
  fst (new_master_bus_a a) = ESP_OK ->
  fst (add_ssd1306_a a) = ESP_OK ->
  fst (add_bme280_a a) = ESP_OK ->
  let o := i2c_shared_init cfg (with_configure rslt a) w in
  (exists before bus after,
     trace (final o)
     = (before ++ ConfigureSensorSettings
          :: (if Z.eqb rslt BME280_OK then []
              else [Log LOGE "BME280" "configure_sensor_settings failed"])
          ++ I2cDeviceProbe bus (SSD1306_I2C_ADDR_DEFAULT cfg) :: after)%list)
  /\ retval o = retval (i2c_shared_init cfg (with_configure BME280_OK a) w)
  /\ (forall e w', o = Returned e w' -> e = ESP_OK)
  /\ (i2c_device_probe_a a = ESP_OK -> ssd1306_init_a a = ESP_OK ->
      ssd1306_update_a a = ESP_OK -> retval o = Some ESP_OK).
Proof.
  intros Hbus H1 H2 H3 o.
  assert (Hrun : forall r,
    exists w4 : world,
      i2c_shared_init cfg (with_configure r a) w
      = (init_screen cfg a ;; ret ESP_OK) w4
      /\ exists before,
           trace w4
           = (before ++ ConfigureSensorSettings
                :: (if Z.eqb r BME280_OK then []
                    else [Log LOGE "BME280" "configure_sensor_settings failed"]))%list).
  { intro r.
    destruct (shared_init_reaches_devices cfg (with_configure r a) w Hbus H1 H2 H3)
      as (w3 & bus & E3 & _).
    destruct (init_sensor_returns (with_configure r a) w3) as (w4 & E4 & T4 & _).
    exists w4. split.
    - rewrite E3. now rewrite (bind_Returned _ _ _ _ _ E4).
    - exists (trace w3 ++ [Bme280DeviceInit (sensor_i2c_dev w3)])%list.
      rewrite T4. rewrite <- app_assoc. reflexivity. }
  assert (Hret : forall w4 : world,
            retval ((init_screen cfg a ;; ret ESP_OK) w4)
            = match retval (init_screen cfg a w4) with
              | Some _ => Some ESP_OK
              | None => None
              end).
  { intro w4. unfold bind. destruct (init_screen cfg a w4); reflexivity. }
  destruct (Hrun rslt) as (w4 & E & before & T).
  destruct (Hrun BME280_OK) as (w4' & E' & _).
  subst o. rewrite E, E'. repeat split.
  - destruct (init_screen_probe_first cfg a w4) as (after & Ta).
    exists before, (i2c_bus w4), after.
    assert (F : final ((init_screen cfg a ;; ret ESP_OK) w4)
                = final (init_screen cfg a w4)).
    { unfold bind. destruct (init_screen cfg a w4); reflexivity. }
    rewrite F, Ta, T. rewrite <- app_assoc. reflexivity.
  - rewrite !Hret. now rewrite (init_screen_retval cfg a w4 w4').
  - intros e w' Heq. unfold bind in Heq.
    destruct (init_screen cfg a w4); [|discriminate].
    unfold ret in Heq. now inversion Heq.
  - intros Hp Hi Hu. rewrite Hret.
    now rewrite (init_screen_works cfg a w4 Hp Hi Hu).
Qed.

Lemma sensor_configuration_failure_is_tolerated_witness :
  i2c_bus world_init = NULL
  /\ fst (new_master_bus_a all_ok) = ESP_OK
  /\ fst (add_ssd1306_a all_ok) = ESP_OK
  /\ fst (add_bme280_a all_ok) = ESP_OK
  /\ let o := i2c_shared_init board (with_configure (-2) all_ok) world_init in
     (exists before bus after,
        trace (final o)
        = (before ++ ConfigureSensorSettings
             :: (if Z.eqb (-2) BME280_OK then []
                 else [Log LOGE "BME280" "configure_sensor_settings failed"])
             ++ I2cDeviceProbe bus (SSD1306_I2C_ADDR_DEFAULT board) :: after)%list)
     /\ retval o
        = retval (i2c_shared_init board (with_configure BME280_OK all_ok)
                    world_init)
     /\ (forall e w', o = Returned e w' -> e = ESP_OK)
     /\ (i2c_device_probe_a all_ok = ESP_OK -> ssd1306_init_a all_ok = ESP_OK ->
         ssd1306_update_a all_ok = ESP_OK -> retval o = Some ESP_OK).
Proof.
  repeat (split; [reflexivity|]).
  exact (sensor_configuration_failure_is_tolerated board all_ok world_init (-2)
           eq_refl eq_refl eq_refl eq_refl).
Defined.

(** C8, as stated, fails: [init_sensor] and [init_screen] call the
    accessors from inside [i2c_shared_init], before it has completed, and
    get the handles that the call has stored so far.  In the first call
    with a working board, [init_sensor] runs in the world [attached], where
    none of the three accessors returns null, and hands the sensor handle
    it got from [i2c_get_bme280] to the sensor driver. *)
Lemma accessors_inside_init_return_handles :
  i2c_shared_init board all_ok world_init
  = (init_sensor all_ok ;; init_screen board all_ok ;; ret ESP_OK) attached
  /\ retval (i2c_get_bus attached) = Some 1%N
  /\ retval (i2c_get_bme280 attached) = Some 3%N
  /\ retval (i2c_get_ssd1306 attached) = Some 2%N
  /\ 1%N <> NULL /\ 3%N <> NULL /\ 2%N <> NULL
  /\ trace (final (init_sensor all_ok attached))
     = (trace attached ++ [Bme280DeviceInit 3%N; ConfigureSensorSettings])%list.
Proof. repeat split; discriminate. Qed.

(** C8, amended: before [i2c_shared_init] has been called, the three
    statics are still zero and each accessor returns a null handle; and in
    every world an accessor returns the static, whatever has been stored
    in it so far, and leaves the world as it was. *)
Theorem accessors_null_before_init_and_pure :
  (retval (i2c_get_bus world_init) = Some NULL
   /\ retval (i2c_get_bme280 world_init) = Some NULL
   /\ retval (i2c_get_ssd1306 world_init) = Some NULL)
  /\ (forall w : world,
        i2c_get_bus w = Returned (i2c_bus w) w
        /\ i2c_get_bme280 w = Returned (sensor_i2c_dev w) w
        /\ i2c_get_ssd1306 w = Returned (screen_i2c_dev w) w).
Proof.
  split.
  - repeat split.
  - intro w. repeat split.
Qed.

End CommonI2cFacts.

(* ================================================================== *)
(** * Properties of the persistent-store initialisation                *)
(* ================================================================== *)

Module WifiFacts.
Import Wifi.

Lemma retried_test (e : esp_err_t) :
  ~ retried e ->
  Z.eqb e ESP_ERR_NVS_NO_FREE_PAGES || Z.eqb e ESP_ERR_NVS_NEW_VERSION_FOUND
  = false.
Proof.
  intro H. apply orb_false_iff. split; apply Z.eqb_neq; intro E; apply H.
  - now left.
  - now right.
Qed.

(** The result of the first [nvs_flash_init] is only compared with the two
    codes that ask for an erase: any other code, success or failure, leads
    to the same run. *)
Lemma first_nvs_code_is_dropped (e1 e2 erase again : esp_err_t) (w : world) :
  ~ retried e1 -> ~ retried e2 ->
  wifi_init_sta (with_nvs e1 erase again) w
  = wifi_init_sta (with_nvs e2 erase again) w.
Proof.
  intros H1 H2.
  unfold wifi_init_sta, with_nvs, call, ESP_ERROR_CHECK, ESP_LOGI,
    bind, ret, emit, read, write.
  cbv beta iota. cbn [nvs_flash_init_a].
  now rewrite (retried_test _ H1), (retried_test _ H2).
Qed.

Lemma retried_test_true (e : esp_err_t) :
  retried e ->
  Z.eqb e ESP_ERR_NVS_NO_FREE_PAGES || Z.eqb e ESP_ERR_NVS_NEW_VERSION_FOUND
  = true.
Proof. intros [-> | ->]; reflexivity. Qed.

(** On one of the two codes the store is erased and initialised again,
    and a failure of either step halts the process. *)
Lemma nvs_erase_failure_is_fatal (e erase again : esp_err_t) (w : world) :
  retried e -> erase <> ESP_OK ->
  wifi_init_sta (with_nvs e erase again) w
  = Aborted (record_event NvsFlashErase (record_event NvsFlashInit w)).
Proof.
  intros He Hne. unfold wifi_init_sta.
  rewrite (bind_Returned _ _ w (record_event NvsFlashInit w) e) by reflexivity.
  apply bind_Aborted. rewrite (retried_test_true _ He).
  apply bind_Aborted.
  unfold ESP_ERROR_CHECK, call, bind, emit, ret. cbn [nvs_flash_erase_a with_nvs].
  now rewrite (err_eqb_false _ Hne).
Qed.

Lemma nvs_retry_failure_is_fatal (e again : esp_err_t) (w : world) :
  retried e -> again <> ESP_OK ->
  wifi_init_sta (with_nvs e ESP_OK again) w
  = Aborted (record_event NvsFlashInit
               (record_event NvsFlashErase (record_event NvsFlashInit w))).
Proof.
  intros He Hne. unfold wifi_init_sta.
  rewrite (bind_Returned _ _ w (record_event NvsFlashInit w) e) by reflexivity.
  apply bind_Aborted. rewrite (retried_test_true _ He).
  unfold ESP_ERROR_CHECK, call, bind, emit, ret.
  cbn [nvs_flash_erase_a nvs_flash_init_again_a with_nvs Z.eqb ESP_OK].
  now rewrite (err_eqb_false _ Hne).
Qed.

(** C9, at the failing input: the first [nvs_flash_init] returns
    [ESP_ERR_NOT_FOUND], which is neither of the two codes the code tests
    for.  The
    process is not halted: the store is initialised once and never erased,
    [wifi_init_sta] goes on to start Wi-Fi and returns, and [app_main]
    reaches the render loop. *)
Theorem nvs_init_failure_is_not_fatal :
  exists w',
    wifi_init_sta nvs_init_fails world_init = Returned tt w'
    /\ count is_nvs_init (trace w') = 1%nat
    /\ count is_nvs_erase (trace w') = 0%nat
    /\ In EspWifiStart (trace w')
    /\ wifi_init_sta nvs_init_fails world_init
       = wifi_init_sta wifi_all_ok world_init
    /\ In PrintData
         (trace (final (Main.app_main CommonI2c.board CommonI2c.all_ok
                          nvs_init_fails Sntp.never_synced 9%N world_init))).
Proof.
  eexists. split; [reflexivity|]. split; [reflexivity|].
  split; [reflexivity|]. split; [simpl; tauto|]. split; [reflexivity|].
  vm_compute. tauto.
Qed.

End WifiFacts.

(* ================================================================== *)
(** * Properties of the wait for wall-clock time                       *)
(* ================================================================== *)

Module SntpFacts.
Import Sntp.

Lemma polls_app (l1 l2 : list event) :
  polls (l1 ++ l2) = (polls l1 + polls l2)%nat.
Proof. unfold polls. now rewrite filter_app, length_app. Qed.

Lemma polls_failed_polls (n : nat) : polls (failed_polls n) = n.
Proof. induction n as [|n IH]; [reflexivity|]. simpl. now rewrite <- IH at 2. Qed.

(** One iteration of the loop, by the outcome of its test. *)
Lemma fallback_check_valid (a : sntp_answers) (remaining retry : nat) (w : world) :
  tm_year_a a retry > 2016 - 1900 ->
  fallback_check a (S remaining) retry w
  = Returned true
      (record_event (Log LOGI TAG_GETT "Time looks valid (fallback).")
         (record_event TimeLocaltime w)).
Proof.
  intro H. simpl. unfold bind, emit, ESP_LOGI, ret.
  destruct (Z.gtb_spec (tm_year_a a retry) 116); [reflexivity | lia].
Qed.

Lemma fallback_check_invalid (a : sntp_answers) (remaining retry : nat) (w : world) :
  tm_year_a a retry <= 2016 - 1900 ->
  fallback_check a (S remaining) retry w
  = fallback_check a remaining (S retry)
      (record_event (VTaskDelayMs 500) (record_event TimeLocaltime w)).
Proof.
  intro H. simpl. unfold bind at 1. unfold emit at 1.
  destruct (Z.gtb_spec (tm_year_a a retry) 116); [lia | reflexivity].
Qed.

(** The loop always comes to an end, after at most [remaining] polls. *)
Lemma fallback_check_total (a : sntp_answers) (remaining : nat) :
  forall (retry : nat) (w : world),
  exists (b : bool) (w' : world) (new : list event),
    fallback_check a remaining retry w = Returned b w'
    /\ trace w' = (trace w ++ new)%list
    /\ (polls new <= remaining)%nat.
Proof.
  induction remaining as [|n IH]; intros retry w.
  - exists false, w, []. simpl. unfold ret. rewrite app_nil_r. auto.
  - destruct (Z_gt_le_dec (tm_year_a a retry) (2016 - 1900)) as [Hv | Hi].
    + eexists. eexists. eexists.
      split; [apply (fallback_check_valid a n retry w Hv)|].
      cbn [trace record_event]. rewrite <- app_assoc. split; [reflexivity|].
      cbn. lia.
    + rewrite (fallback_check_invalid a n retry w Hi).
      destruct (IH (S retry)
                  (record_event (VTaskDelayMs 500) (record_event TimeLocaltime w)))
        as (b & w' & new & E & T & P).
      exists b, w', (failed_poll ++ new)%list. split; [exact E|].
      split.
      * rewrite T. cbn [trace record_event]. now rewrite <- !app_assoc.
      * rewrite polls_app. cbn. lia.
Qed.

(** No poll passes the test: the loop runs out after [remaining] polls. *)
Lemma fallback_check_exhausted (a : sntp_answers) (remaining : nat) :
  forall (retry : nat) (w : world),
  (forall j, (j < remaining)%nat -> tm_year_a a (retry + j) <= 2016 - 1900) ->
  exists w',
    fallback_check a remaining retry w = Returned false w'
    /\ trace w' = (trace w ++ failed_polls remaining)%list.
Proof.
  induction remaining as [|n IH]; intros retry w Hall.
  - exists w. simpl. unfold ret. now rewrite app_nil_r.
  - assert (H0 : tm_year_a a retry <= 2016 - 1900).
    { rewrite <- (Nat.add_0_r retry). apply Hall. lia. }
    rewrite (fallback_check_invalid a n retry w H0).
    destruct (IH (S retry)
                (record_event (VTaskDelayMs 500) (record_event TimeLocaltime w)))
      as (w' & E & T).
    { intros j Hj. replace (S retry + j)%nat with (retry + S j)%nat by lia.
      apply Hall. lia. }
    exists w'. split; [exact E|]. rewrite T.
    cbn [trace record_event failed_polls]. now rewrite <- !app_assoc.
Qed.

(** Poll [k] is the first that passes the test: the loop is left there. *)
Lemma fallback_check_found (a : sntp_answers) (k : nat) :
  forall (remaining retry : nat) (w : world),
  (k < remaining)%nat ->
  (forall j, (j < k)%nat -> tm_year_a a (retry + j) <= 2016 - 1900) ->
  tm_year_a a (retry + k) > 2016 - 1900 ->
  exists w',
    fallback_check a remaining retry w = Returned true w'
    /\ trace w'
       = (trace w ++ failed_polls k
            ++ [TimeLocaltime;
                Log LOGI TAG_GETT "Time looks valid (fallback)."])%list.
Proof.
  induction k as [|k IH]; intros remaining retry w Hk Hbefore Hvalid.
  - destruct remaining as [|n]; [lia|].
    rewrite Nat.add_0_r in Hvalid.
    rewrite (fallback_check_valid a n retry w Hvalid).
    eexists. split; [reflexivity|].
    cbn [trace record_event failed_polls]. now rewrite <- !app_assoc.
  - destruct remaining as [|n]; [lia|].
    assert (H0 : tm_year_a a retry <= 2016 - 1900).
    { rewrite <- (Nat.add_0_r retry). apply Hbefore. lia. }
    rewrite (fallback_check_invalid a n retry w H0).
    destruct (IH n (S retry)
                (record_event (VTaskDelayMs 500) (record_event TimeLocaltime w)))
      as (w' & E & T).
    + lia.
    + intros j Hj. replace (S retry + j)%nat with (retry + S j)%nat by lia.
      apply Hbefore. lia.
    + replace (S retry + k)%nat with (retry + S k)%nat by lia. exact Hvalid.
    + exists w'. split; [exact E|]. rewrite T.
      cbn [trace record_event failed_polls failed_poll].
      now rewrite <- !app_assoc.
Qed.

Lemma wait_unfold (a : sntp_answers) (timeout_ms : Z) (w : world) :
  wait_for_time_blocking a timeout_ms w
  = (if Z.eqb (esp_netif_sntp_sync_wait_a a) ESP_OK
     then ESP_LOGI TAG_GETT "Time synced"
     else (returned <- fallback_check a 10 0 ;;
           if returned : bool then ret tt
           else ESP_LOGW TAG_GETT "Time not synced (timeout)."))
      (record_event (EspNetifSntpSyncWait timeout_ms) w).
Proof. reflexivity. Qed.

(** C7: for every timeout, [wait_for_time_blocking] returns, and without
    an error.  After the wait it makes no further call when the wait
    succeeded; otherwise it polls the clock at most 10 times, 500 ms
    apart, stops at the first poll whose year is after 2016, and logs a
    warning when none of the 10 polls is. *)
Theorem wait_for_time_blocking_returns
    (a : sntp_answers) (timeout_ms : Z) (w : world) :
  exists (w' : world) (new : list event),
    wait_for_time_blocking a timeout_ms w = Returned tt w'
    /\ trace w' = (trace w ++ EspNetifSntpSyncWait timeout_ms :: new)%list
    /\ (polls new <= 10)%nat
    /\ (esp_netif_sntp_sync_wait_a a = ESP_OK ->
        new = [Log LOGI TAG_GETT "Time synced"])
    /\ (esp_netif_sntp_sync_wait_a a <> ESP_OK ->
        forall k : nat,
          (k < 10)%nat ->
          (forall j, (j < k)%nat -> 1900 + tm_year_a a j <= 2016) ->
          1900 + tm_year_a a k > 2016 ->
          new = (failed_polls k
                 ++ [TimeLocaltime;
                     Log LOGI TAG_GETT "Time looks valid (fallback)."])%list)
    /\ (esp_netif_sntp_sync_wait_a a <> ESP_OK ->
        (forall j, (j < 10)%nat -> 1900 + tm_year_a a j <= 2016) ->
        new = (failed_polls 10
               ++ [Log LOGW TAG_GETT "Time not synced (timeout)."])%list).
Proof.
  rewrite wait_unfold.
  set (w0 := record_event (EspNetifSntpSyncWait timeout_ms) w).
  assert (T0 : trace w0 = (trace w ++ [EspNetifSntpSyncWait timeout_ms])%list)
    by reflexivity.
  destruct (Z.eqb_spec (esp_netif_sntp_sync_wait_a a) ESP_OK) as [Hok | Hno].
  - eexists. exists [Log LOGI TAG_GETT "Time synced"].
    split; [reflexivity|]. split.
    { cbn [trace record_event]. rewrite T0. now rewrite <- app_assoc. }
    split; [cbn; lia|]. split; [reflexivity|].
    split; intro; contradiction.
  - destruct (fallback_check_total a 10 0 w0) as (b & w1 & new & E & T & P).
    assert (Hshape : forall l, trace w1 = (trace w0 ++ l)%list -> new = l).
    { intros l Tl. rewrite T in Tl. now apply app_inv_head in Tl. }
    destruct b.
    + exists w1, new. rewrite (bind_Returned _ _ _ _ _ E).
      split; [reflexivity|]. split.
      { rewrite T, T0. now rewrite <- app_assoc. }
      split; [exact P|]. split; [intro; contradiction|]. split.
      * intros _ k Hk Hbefore Hvalid.
        destruct (fallback_check_found a k 10 0 w0 Hk) as (w2 & E2 & T2).
        { intros j Hj. specialize (Hbefore j Hj). simpl. lia. }
        { simpl. lia. }
        rewrite E in E2. inversion E2; subst w2. now apply Hshape.
      * intros _ Hall.
        destruct (fallback_check_exhausted a 10 0 w0) as (w2 & E2 & _).
        { intros j Hj. specialize (Hall j Hj). simpl. lia. }
        rewrite E in E2. discriminate E2.
    + eexists.
      exists (new ++ [Log LOGW TAG_GETT "Time not synced (timeout)."])%list.
      rewrite (bind_Returned _ _ _ _ _ E).
      split; [reflexivity|]. split.
      { cbn [trace record_event]. rewrite T, T0. now rewrite <- !app_assoc. }
      split; [rewrite polls_app; cbn; lia|].
      split; [intro; contradiction|]. split.
      * intros _ k Hk Hbefore Hvalid.
        destruct (fallback_check_found a k 10 0 w0 Hk) as (w2 & E2 & _).
        { intros j Hj. specialize (Hbefore j Hj). simpl. lia. }
        { simpl. lia. }
        rewrite E in E2. discriminate E2.
      * intros _ Hall.
        destruct (fallback_check_exhausted a 10 0 w0) as (w2 & E2 & T2).
        { intros j Hj. specialize (Hall j Hj). simpl. lia. }
        rewrite E in E2. inversion E2; subst w2.
        now rewrite (Hshape _ T2).
Qed.

Lemma wait_for_time_blocking_returns_witness :
  exists (w' : world) (new : list event),
    wait_for_time_blocking never_synced 10000 world_init = Returned tt w'
    /\ trace w' = (trace world_init ++ EspNetifSntpSyncWait 10000 :: new)%list
    /\ (polls new <= 10)%nat
    /\ (esp_netif_sntp_sync_wait_a never_synced = ESP_OK ->
        new = [Log LOGI TAG_GETT "Time synced"])
    /\ (esp_netif_sntp_sync_wait_a never_synced <> ESP_OK ->
        forall k : nat,
          (k < 10)%nat ->
          (forall j, (j < k)%nat -> 1900 + tm_year_a never_synced j <= 2016) ->
          1900 + tm_year_a never_synced k > 2016 ->
          new = (failed_polls k
                 ++ [TimeLocaltime;
                     Log LOGI TAG_GETT "Time looks valid (fallback)."])%list)
    /\ (esp_netif_sntp_sync_wait_a never_synced <> ESP_OK ->
        (forall j, (j < 10)%nat -> 1900 + tm_year_a never_synced j <= 2016) ->
        new = (failed_polls 10
               ++ [Log LOGW TAG_GETT "Time not synced (timeout)."])%list).
Proof.
  exact (wait_for_time_blocking_returns never_synced 10000 world_init).
Defined.

(** The two scenarios, run: ten failed polls and the warning; three failed
    polls and a fourth that finds the year 2025. *)
Example never_synced_run :
  trace (final (wait_for_time_blocking never_synced 10000 world_init))
  = (EspNetifSntpSyncWait 10000 :: failed_polls 10
     ++ [Log LOGW TAG_GETT "Time not synced (timeout)."])%list.
Proof. reflexivity. Qed.

Example synced_late_run :
  trace (final (wait_for_time_blocking synced_late 10000 world_init))
  = (EspNetifSntpSyncWait 10000 :: failed_polls 3
     ++ [TimeLocaltime; Log LOGI TAG_GETT "Time looks valid (fallback)."])%list.
Proof. reflexivity. Qed.

End SntpFacts.

(* ================================================================== *)
(** * Properties of the shared measurement record                      *)
(* ================================================================== *)

Module MainFacts.
Import Main.

(** ** The text of the steady-state record *)

Lemma steady_temperature :
  format_temperature (temperature steady_record) = "Temp-21.3C".
Proof. vm_compute. reflexivity. Qed.

Lemma steady_pressure :
  format_pressure (pressure steady_record) = "Pres-1013.25hPa".
Proof. vm_compute. reflexivity. Qed.

Lemma steady_humidity :
  format_humidity (humidity steady_record) = "Hum-45.0%".
Proof. vm_compute. reflexivity. Qed.

(** The double of the scenario's 21.3 is the one nearest to 213/10: the
    error is at most half a unit in the last place, [2^-49]. *)
Lemma steady_temperature_nearest :
  exists m e,
    temperature steady_record = S754_finite false m e
    /\ e = -48
    /\ Z.abs (10 * Zpos m - 213 * 2 ^ 48) * 2 <= 10.
Proof. eexists. eexists. split; [reflexivity|]. split; [reflexivity|]. vm_compute. discriminate. Qed.

(** ** One atomic cell *)

Lemma latest_app (cur : bme280_data) (t o : list obs) :
  latest cur (t ++ o) = latest (latest cur t) o.
Proof.
  revert cur. induction t as [|x t IH]; intro cur; [reflexivity|].
  destruct x; simpl; apply IH.
Qed.

Lemma atomic_app (cur : bme280_data) (t o : list obs) :
  atomic cur (t ++ o) <-> atomic cur t /\ atomic (latest cur t) o.
Proof.
  revert cur. induction t as [|x t IH]; intro cur; simpl.
  - tauto.
  - destruct x; simpl; rewrite ?IH; tauto.
Qed.

Lemma latest_published (cur : bme280_data) (t : list obs) :
  latest cur t = cur \/ In (Published (latest cur t)) t.
Proof.
  revert cur. induction t as [|x t IH]; intro cur; simpl; [now left|].
  destruct x; simpl.
  - destruct (IH r) as [E | I]; right; [left; now rewrite E | now right].
  - destruct (IH cur) as [E | I]; [now left | right; now right].
  - destruct (IH cur) as [E | I]; [now left | right; now right].
Qed.

Lemma latest_without_publish (cur : bme280_data) (t : list obs) :
  existsb is_published t = false -> latest cur t = cur.
Proof.
  induction t as [|x t IH]; simpl; [reflexivity|].
  destruct x; simpl; intro H; try discriminate; now apply IH.
Qed.

(** ** The invariant holds in every execution *)

Lemma invariant_start (garbage : bme280_data) : invariant (start garbage) [].
Proof. constructor; simpl; auto; exact I. Qed.

Ltac record_eq :=
  repeat match goal with
         | r : bme280_data |- _ => destruct r
         end;
  unfold set_temperature, set_pressure, set_humidity in *;
  simpl in *; intuition (subst; try congruence).

Lemma sensor_step_invariant (sample : option bme280_data) (st : state)
    (t : list obs) :
  invariant st t ->
  invariant (fst (sensor_step sample st)) (t ++ snd (sensor_step sample st)).
Proof.
  intros [Hlock Hexcl Hstored Hcopied Hread Hatomic].
  destruct st as [lock data spc tmp0 rpc seen0 ts ps hs stop].
  unfold holder, copied, read_so_far in *. simpl in *.
  unfold sensor_step; simpl.
  destruct spc; simpl in *.
  all: try (destruct rpc; simpl in *; try discriminate; subst lock; simpl;
            constructor; unfold holder, copied, read_so_far; simpl;
            rewrite ?app_nil_r, ?latest_app; simpl; auto;
            try (intro; discriminate);
            try (rewrite atomic_app; simpl; auto);
            try solve [record_eq]).
Qed.

Lemma render_step_invariant (update : esp_err_t) (st : state) (t : list obs) :
  invariant st t ->
  invariant (fst (render_step update st)) (t ++ snd (render_step update st)).
Proof.
  intros [Hlock Hexcl Hstored Hcopied Hread Hatomic].
  destruct st as [lock data spc tmp0 rpc seen0 ts ps hs stop].
  unfold holder, copied, read_so_far in *. simpl in *.
  unfold render_step; simpl.
  destruct rpc; simpl in *.
  all: try destruct (Z.eqb update ESP_OK).
  all: try (destruct spc; simpl in *; try discriminate; subst lock; simpl;
            constructor; unfold holder, copied, read_so_far; simpl;
            rewrite ?app_nil_r, ?latest_app; simpl; auto;
            try (intro; discriminate);
            try (rewrite atomic_app; simpl; auto);
            try solve [record_eq]).
Qed.

Lemma step_invariant (c : choice) (st : state) (t : list obs) :
  invariant st t -> invariant (fst (step c st)) (t ++ snd (step c st)).
Proof.
  intro H. unfold step. destruct (halted st).
  - simpl. now rewrite app_nil_r.
  - destruct c; [now apply sensor_step_invariant | now apply render_step_invariant].
Qed.

Lemma run_invariant (schedule : list choice) :
  forall (st : state) (t : list obs),
  invariant st t ->
  invariant (fst (run schedule st)) (t ++ snd (run schedule st)).
Proof.
  induction schedule as [|c rest IH]; intros st t H; simpl.
  - now rewrite app_nil_r.
  - pose proof (step_invariant c st t H) as H1.
    destruct (step c st) as [st1 o1]. simpl in H1.
    pose proof (IH st1 _ H1) as H2.
    destruct (run rest st1) as [st2 o2]. simpl in *.
    now rewrite app_assoc.
Qed.

(** Every execution is one of an atomic cell. *)
Lemma run_atomic (garbage : bme280_data) (schedule : list choice) :
  atomic zero_data (snd (run schedule (start garbage))).
Proof.
  exact (inv_atomic _ _ (run_invariant schedule _ _ (invariant_start garbage))).
Qed.

(** The copy does pass through a mixed record: with the sensor task
    preempted after its first field, the store holds the new temperature
    next to the old pressure and humidity.  The render loop cannot see it:
    its [xSemaphoreTake] does not get the lock. *)
Example mixed_record_is_behind_the_lock :
  let halfway := [RunSensor (Some steady_record); RunSensor None; RunSensor None;
                  RunRender ESP_OK] in
  let st := fst (run halfway (start zero_data)) in
  bme280_device_data st
  = mkData (temperature steady_record) (pressure zero_data) (humidity zero_data)
  /\ s_bme_lock st = Some SensorTask
  /\ render_at st = R_take
  /\ run [RunRender ESP_OK; RunRender ESP_OK] st = (st, []).
Proof. vm_compute. repeat split. Qed.

(** C1: for every interleaving of the two tasks, a snapshot taken by the
    render loop is the record of the latest publish that the sampling
    task has completed before it, or the all-zero initial record when there
    is none: it is never a mixture of fields of two publishes. *)
Theorem snapshot_is_never_torn
    (garbage : bme280_data) (schedule : list choice)
    (before after : list obs) (r : bme280_data) :
  snd (run schedule (start garbage)) = (before ++ Snapshot r :: after)%list ->
  r = latest zero_data before
  /\ (r = zero_data \/ In (Published r) before).
Proof.
  intro E. pose proof (run_atomic garbage schedule) as H.
  rewrite E in H. apply atomic_app in H. destruct H as [_ [Hr _]].
  split; [exact Hr|]. rewrite Hr. apply latest_published.
Qed.

Lemma snapshot_is_never_torn_witness :
  snd (run (preempted steady_record) (start zero_data))
  = ([Published steady_record]
     ++ Snapshot steady_record
     :: [Displayed "Hum-45.0%" "Temp-21.3C" "Pres-1013.25hPa";
         Snapshot steady_record;
         Displayed "Hum-45.0%" "Temp-21.3C" "Pres-1013.25hPa"])%list
  /\ steady_record = latest zero_data [Published steady_record]
  /\ (steady_record = zero_data
      \/ In (Published steady_record) [Published steady_record]).
Proof.
  split; [vm_compute; reflexivity|].
  apply (snapshot_is_never_torn zero_data (preempted steady_record)
           [Published steady_record]
           [Displayed "Hum-45.0%" "Temp-21.3C" "Pres-1013.25hPa";
            Snapshot steady_record;
            Displayed "Hum-45.0%" "Temp-21.3C" "Pres-1013.25hPa"]
           steady_record).
  vm_compute. reflexivity.
Defined.

(** C10: in every execution, two snapshots with no publish completed
    between them return the same record; and no statement of the render
    loop writes the stored record. *)
Theorem snapshot_twice_is_the_same
    (garbage : bme280_data) (schedule : list choice)
    (before between after : list obs) (r1 r2 : bme280_data) :
  snd (run schedule (start garbage))
  = (before ++ Snapshot r1 :: between ++ Snapshot r2 :: after)%list ->
  existsb is_published between = false ->
  r1 = r2
  /\ (forall (update : esp_err_t) (st : state),
        bme280_device_data (fst (render_step update st))
        = bme280_device_data st).
Proof.
  intros E Hnone. split.
  - pose proof (run_atomic garbage schedule) as H.
    rewrite E in H. apply atomic_app in H. destruct H as [_ [Hr1 H]].
    apply atomic_app in H. destruct H as [_ [Hr2 _]].
    rewrite Hr2, (latest_without_publish _ _ Hnone). exact Hr1.
  - intros update st. unfold render_step.
    destruct (render_at st); try reflexivity.
    + destruct (xSemaphoreTake RenderTask (s_bme_lock st)); reflexivity.
    + destruct (Z.eqb update ESP_OK); reflexivity.
Qed.

Lemma snapshot_twice_is_the_same_witness :
  snd (run (preempted steady_record) (start zero_data))
  = ([Published steady_record]
     ++ Snapshot steady_record
     :: [Displayed "Hum-45.0%" "Temp-21.3C" "Pres-1013.25hPa"]
     ++ Snapshot steady_record
     :: [Displayed "Hum-45.0%" "Temp-21.3C" "Pres-1013.25hPa"])%list
  /\ existsb is_published
       [Displayed "Hum-45.0%" "Temp-21.3C" "Pres-1013.25hPa"] = false
  /\ steady_record = steady_record
  /\ (forall (update : esp_err_t) (st : state),
        bme280_device_data (fst (render_step update st))
        = bme280_device_data st).
Proof.
  split; [vm_compute; reflexivity|]. split; [reflexivity|].
  apply (snapshot_twice_is_the_same zero_data (preempted steady_record)
           [Published steady_record]
           [Displayed "Hum-45.0%" "Temp-21.3C" "Pres-1013.25hPa"]
           [Displayed "Hum-45.0%" "Temp-21.3C" "Pres-1013.25hPa"]
           steady_record steady_record).
  - vm_compute. reflexivity.
  - reflexivity.
Defined.

(** C4: with [{temperature = 21.3, pressure = 101325, humidity = 45.0}]
    stored, one pass of the render loop formats exactly ["Temp-21.3C"],
    ["Pres-1013.25hPa"] (the pressure divided by 100, with two decimals)
    and ["Hum-45.0%"], and these are the lines it sends to the display. *)
Theorem steady_state_render_pass (st : state) :
  halted st = false ->
  s_bme_lock st = None ->
  render_at st = R_take ->
  bme280_device_data st = steady_record ->
  let pass := run (repeat (RunRender ESP_OK) 6) st in
  temperature_str (fst pass) = "Temp-21.3C"
  /\ pressure_str (fst pass) = "Pres-1013.25hPa"
  /\ humidity_str (fst pass) = "Hum-45.0%"
  /\ snd pass = [Snapshot steady_record;
                 Displayed "Hum-45.0%" "Temp-21.3C" "Pres-1013.25hPa"].
Proof.
  intros Hrun Hlock Hpc Hdata.
  destruct st as [lock data spc tmp0 rpc seen0 ts ps hs stop].
  simpl in Hrun, Hlock, Hpc, Hdata. subst stop lock rpc data.
  cbn [repeat run step render_step halted render_at s_bme_lock
       bme280_device_data sensor_at tmp seen temperature_str pressure_str
       humidity_str xSemaphoreTake xSemaphoreGive task_eqb negb Z.eqb ESP_OK
       set_temperature set_pressure set_humidity temperature pressure
       humidity fst snd app].
  rewrite steady_temperature, steady_pressure, steady_humidity.
  repeat split.
Qed.

Lemma steady_state_render_pass_witness :
  let st := fst (run (publish_once steady_record ++ [RunRender ESP_OK])
                   (start zero_data)) in
  halted st = false
  /\ s_bme_lock st = None
  /\ render_at st = R_take
  /\ bme280_device_data st = steady_record
  /\ temperature_str (fst (run (repeat (RunRender ESP_OK) 6) st)) = "Temp-21.3C"
  /\ pressure_str (fst (run (repeat (RunRender ESP_OK) 6) st)) = "Pres-1013.25hPa"
  /\ humidity_str (fst (run (repeat (RunRender ESP_OK) 6) st)) = "Hum-45.0%"
  /\ snd (run (repeat (RunRender ESP_OK) 6) st)
     = [Snapshot steady_record;
        Displayed "Hum-45.0%" "Temp-21.3C" "Pres-1013.25hPa"].
Proof.
  intro st.
  repeat (split; [vm_compute; reflexivity|]).
  apply (steady_state_render_pass st); vm_compute; reflexivity.
Defined.

End MainFacts.

(* ================================================================== *)
(** * More on traces and the monad                                   *)
(* ================================================================== *)

Module TraceFacts.
Import Trace.

Lemma added_app {A} (w : world) (o : outcome A) (l : list event) :
  trace (final o) = (trace w ++ l)%list -> added w o = l.
Proof.
  intro E. unfold added. rewrite E.
  rewrite skipn_app, skipn_all, Nat.sub_diag. reflexivity.
Qed.

Lemma bind_inv {A B} (m : M A) (k : A -> M B) (w w2 : world) (b : B) :
  bind m k w = Returned b w2 ->
  exists a w1, m w = Returned a w1 /\ k a w1 = Returned b w2.
Proof.
  unfold bind. destruct (m w) as [a w1|w1]; [|discriminate].
  intro E. now exists a, w1.
Qed.

End TraceFacts.
Import TraceFacts.

(* ================================================================== *)
(** * More on the shared bus registry                                *)
(* ================================================================== *)

Module CommonI2cMore.
Import CommonI2c CommonI2cFacts Trace.

Ltac unfold_i2c :=
  unfold i2c_shared_init, init_sensor, init_screen, i2c_new_master_bus,
    i2c_master_bus_add_device, i2c_get_bus, i2c_get_bme280, i2c_get_ssd1306,
    ESP_RETURN_ON_ERROR, ESP_ERROR_CHECK, ESP_LOGE, ESP_LOGI, store_out,
    bind, ret, read, write, emit, abort.

Ltac test_i2c e := destruct (Z.eqb_spec e ESP_OK); cbv beta iota.

(** X1: a call of [i2c_shared_init] that finds no bus returns [ESP_OK]
    exactly when the bus, both attachments and the three display steps
    (probe, init, update) succeed; it halts the process exactly when the
    attachments succeed and a display step fails; and it returns an error
    code exactly when that code is the result of the first of bus creation
    and the two attachments that fails.  The result of
    [configure_sensor_settings] plays no part. *)
Theorem shared_init_outcome (cfg : config) (a : answers) (w : world) :
  i2c_bus w = NULL ->
  let o := i2c_shared_init cfg a w in
  let bus := fst (new_master_bus_a a) in
  let ssd := fst (add_ssd1306_a a) in
  let bme := fst (add_bme280_a a) in
  let attach_ok := bus = ESP_OK /\ ssd = ESP_OK /\ bme = ESP_OK in
  let display := i2c_device_probe_a a = ESP_OK /\ ssd1306_init_a a = ESP_OK
                 /\ ssd1306_update_a a = ESP_OK in
  (retval o = Some ESP_OK <-> attach_ok /\ display)
  /\ (retval o = None <-> attach_ok /\ ~ display)
  /\ (forall e, e <> ESP_OK ->
        (retval o = Some e <->
         bus = e \/ (bus = ESP_OK /\ (ssd = e \/ (ssd = ESP_OK /\ bme = e))))).
Proof.
  intro Hbus.
  destruct a as [[e1 o1] [e2 o2] [e3 o3] c p i u].
  cbn [new_master_bus_a add_ssd1306_a add_bme280_a i2c_device_probe_a
       ssd1306_init_a ssd1306_update_a fst].
  unfold_i2c. cbn [new_master_bus_a add_ssd1306_a add_bme280_a
    configure_sensor_settings_a i2c_device_probe_a ssd1306_init_a
    ssd1306_update_a fst snd].
  rewrite (is_null_true _ Hbus). cbv beta iota. cbn [negb].
  destruct o1; cbv beta iota; (test_i2c e1; [|cbn [retval]; intuition congruence]);
  destruct o2; cbv beta iota; (test_i2c e2; [|cbn [retval]; intuition congruence]);
  destruct o3; cbv beta iota; (test_i2c e3; [|cbn [retval]; intuition congruence]);
  destruct (Z.eqb c BME280_OK); cbn [negb]; cbv beta iota;
  (test_i2c p; [|cbn [retval]; intuition congruence]);
  (test_i2c i; [|cbn [retval]; intuition congruence]);
  (test_i2c u; cbn [retval]; intuition congruence).
Qed.

Lemma shared_init_outcome_witness :
  i2c_bus world_init = NULL
  /\ retval (i2c_shared_init board all_ok world_init) = Some ESP_OK
  /\ retval (i2c_shared_init board probe_fails world_init) = None
  /\ retval (i2c_shared_init board ssd_attach_fails world_init)
     = Some ESP_ERR_NO_MEM.
Proof.
  split; [reflexivity|]. split; [|split].
  - apply (proj1 (shared_init_outcome board all_ok world_init eq_refl)).
    repeat split.
  - apply (proj1 (proj2 (shared_init_outcome board probe_fails world_init
                            eq_refl))).
    split; [repeat split|]. intros [H _]. discriminate H.
  - apply (proj2 (proj2 (shared_init_outcome board ssd_attach_fails world_init
                            eq_refl)) ESP_ERR_NO_MEM ltac:(discriminate)).
    right. split; [reflexivity|]. now left.
Defined.

(** X2: when everything succeeds, each driver is given the handle that
    belongs to it: both devices are attached to the bus that was just
    created, the display first and at its address, the sensor driver gets
    the handle attached at the sensor's address, the display is probed on
    the bus and linked to the handle attached at the display's address, and
    the three accessors return these three handles. *)
Theorem shared_init_routes_handles
    (cfg : config) (a : answers) (w : world) (hb hs hm : handle) :
  i2c_bus w = NULL ->
  new_master_bus_a a = (ESP_OK, Some hb) ->
  add_ssd1306_a a = (ESP_OK, Some hs) ->
  add_bme280_a a = (ESP_OK, Some hm) ->
  i2c_device_probe_a a = ESP_OK ->
  ssd1306_init_a a = ESP_OK ->
  ssd1306_update_a a = ESP_OK ->
  exists w',
    i2c_shared_init cfg a w = Returned ESP_OK w'
    /\ retval (i2c_get_bus w') = Some hb
    /\ retval (i2c_get_ssd1306 w') = Some hs
    /\ retval (i2c_get_bme280 w') = Some hm
    /\ exists (sensor_log : list event) (x y : Z),
         added w (i2c_shared_init cfg a w)
         = ([I2cNewMasterBus;
             I2cMasterBusAddDevice hb (SSD1306_I2C_ADDR_DEFAULT cfg);
             I2cMasterBusAddDevice hb (BME280_I2C_ADDR_PRIM cfg);
             Bme280DeviceInit hm; ConfigureSensorSettings]
            ++ sensor_log
            ++ [I2cDeviceProbe hb (SSD1306_I2C_ADDR_DEFAULT cfg);
                Log LOGI "SSD1306" "SSD1306 detected";
                Ssd1306LinkFromDevice hs;
                Ssd1306Init (WIDTH cfg) (HEIGHT cfg);
                Ssd1306SetCursor x y; Ssd1306DrawString "Getting Data";
                Ssd1306Update])%list
         /\ existsb is_device_call sensor_log = false.
Proof.
  intros Hbus H1 H2 H3 Hp Hi Hu.
  destruct a as [[e1 o1] [e2 o2] [e3 o3] c p i u].
  cbn [new_master_bus_a add_ssd1306_a add_bme280_a i2c_device_probe_a
       ssd1306_init_a ssd1306_update_a] in *.
  inversion H1; inversion H2; inversion H3; subst. clear H1 H2 H3.
  assert (Hskip : forall l, skipn (List.length (trace w)) (trace w ++ l) = l).
  { intro l. now rewrite skipn_app, skipn_all, Nat.sub_diag. }
  unfold added. unfold_i2c. cbn [new_master_bus_a add_ssd1306_a add_bme280_a
    configure_sensor_settings_a i2c_device_probe_a ssd1306_init_a
    ssd1306_update_a fst snd].
  rewrite (is_null_true _ Hbus). cbv beta iota. cbn [negb Z.eqb ESP_OK].
  cbv beta iota.
  destruct (Z.eqb c BME280_OK); cbn [negb]; cbv beta iota;
    eexists; (split; [reflexivity|]);
    cbn [retval final trace record_event set_i2c_bus set_screen_i2c_dev
         set_sensor_i2c_dev sensor_i2c_dev screen_i2c_dev i2c_bus];
    (split; [reflexivity|]); (split; [reflexivity|]); (split; [reflexivity|]);
    rewrite <- ?app_assoc; rewrite Hskip; cbn [app].
  - exists []. eexists. eexists. split; reflexivity.
  - eexists [_]. eexists. eexists. split; reflexivity.
Qed.

Lemma shared_init_routes_handles_witness :
  i2c_bus world_init = NULL
  /\ exists w',
       i2c_shared_init board all_ok world_init = Returned ESP_OK w'
       /\ retval (i2c_get_bus w') = Some 1%N
       /\ retval (i2c_get_ssd1306 w') = Some 2%N
       /\ retval (i2c_get_bme280 w') = Some 3%N
       /\ exists (sensor_log : list event) (x y : Z),
            added world_init (i2c_shared_init board all_ok world_init)
            = ([I2cNewMasterBus;
                I2cMasterBusAddDevice 1%N (SSD1306_I2C_ADDR_DEFAULT board);
                I2cMasterBusAddDevice 1%N (BME280_I2C_ADDR_PRIM board);
                Bme280DeviceInit 3%N; ConfigureSensorSettings]
               ++ sensor_log
               ++ [I2cDeviceProbe 1%N (SSD1306_I2C_ADDR_DEFAULT board);
                   Log LOGI "SSD1306" "SSD1306 detected";
                   Ssd1306LinkFromDevice 2%N;
                   Ssd1306Init (WIDTH board) (HEIGHT board);
                   Ssd1306SetCursor x y; Ssd1306DrawString "Getting Data";
                   Ssd1306Update])%list
            /\ existsb is_device_call sensor_log = false.
Proof.
  split; [reflexivity|].
  exact (shared_init_routes_handles board all_ok world_init 1%N 2%N 3%N
           eq_refl eq_refl eq_refl eq_refl eq_refl eq_refl eq_refl).
Defined.

Ltac finish_error Hskip :=
  let E := fresh "E" in
  intro E; inversion E; subst; clear E;
  cbn [trace record_event set_i2c_bus set_screen_i2c_dev set_sensor_i2c_dev
       sensor_i2c_dev i2c_bus];
  rewrite <- ?app_assoc; rewrite Hskip; cbn [app];
  (split; [reflexivity|]);
  eexists; eexists; (split; [
    match goal with
    | |- ?l = _ => change l with (removelast l ++ [last l I2cNewMasterBus])%list
    end; cbn [removelast last]; reflexivity |]);
  cbn [List.length]; intuition auto.

(** X3: when [i2c_shared_init] returns an error, the code is the one the
    failing driver call returned, the last thing it did was to log which
    step failed ("bus fail", "ssd fail" or "bme fail") after one, two or
    three driver calls, and neither the sensor nor the display driver was
    called. *)
Theorem shared_init_error_return
    (cfg : config) (a : answers) (w w' : world) (e : esp_err_t) :
  i2c_bus w = NULL ->
  i2c_shared_init cfg a w = Returned e w' ->
  e <> ESP_OK ->
  existsb is_device_call (added w (i2c_shared_init cfg a w)) = false
  /\ exists calls msg,
       added w (i2c_shared_init cfg a w)
       = (calls ++ [Log LOGE TAG msg])%list
       /\ ((msg = "bus fail" /\ e = fst (new_master_bus_a a)
            /\ calls = [I2cNewMasterBus])
           \/ (msg = "ssd fail" /\ e = fst (add_ssd1306_a a)
               /\ List.length calls = 2%nat)
           \/ (msg = "bme fail" /\ e = fst (add_bme280_a a)
               /\ List.length calls = 3%nat)).
Proof.
  intros Hbus E He.
  assert (Ha : added w (i2c_shared_init cfg a w)
               = skipn (List.length (trace w)) (trace w')).
  { unfold added. now rewrite E. }
  rewrite Ha. clear Ha. revert E.
  destruct a as [[e1 o1] [e2 o2] [e3 o3] c p i u].
  unfold_i2c. cbn [new_master_bus_a add_ssd1306_a add_bme280_a
    configure_sensor_settings_a i2c_device_probe_a ssd1306_init_a
    ssd1306_update_a fst snd].
  rewrite (is_null_true _ Hbus). cbv beta iota. cbn [negb].
  assert (Hskip : forall l, skipn (List.length (trace w)) (trace w ++ l) = l).
  { intro l. now rewrite skipn_app, skipn_all, Nat.sub_diag. }
  destruct o1; cbv beta iota; (test_i2c e1; [|finish_error Hskip]);
  destruct o2; cbv beta iota; (test_i2c e2; [|finish_error Hskip]);
  destruct o3; cbv beta iota; (test_i2c e3; [|finish_error Hskip]);
  destruct (Z.eqb c BME280_OK); cbn [negb]; cbv beta iota;
  (test_i2c p; [|discriminate]);
  (test_i2c i; [|discriminate]);
  (test_i2c u; [|discriminate]);
  intro E; inversion E; congruence.
Qed.

Lemma shared_init_error_return_witness :
  i2c_bus world_init = NULL
  /\ i2c_shared_init board ssd_attach_fails world_init
     = Returned ESP_ERR_NO_MEM
         (final (i2c_shared_init board ssd_attach_fails world_init))
  /\ ESP_ERR_NO_MEM <> ESP_OK
  /\ existsb is_device_call
       (added world_init (i2c_shared_init board ssd_attach_fails world_init))
     = false
  /\ exists calls msg,
       added world_init (i2c_shared_init board ssd_attach_fails world_init)
       = (calls ++ [Log LOGE TAG msg])%list
       /\ ((msg = "bus fail"
            /\ ESP_ERR_NO_MEM = fst (new_master_bus_a ssd_attach_fails)
            /\ calls = [I2cNewMasterBus])
           \/ (msg = "ssd fail"
               /\ ESP_ERR_NO_MEM = fst (add_ssd1306_a ssd_attach_fails)
               /\ List.length calls = 2%nat)
           \/ (msg = "bme fail"
               /\ ESP_ERR_NO_MEM = fst (add_bme280_a ssd_attach_fails)
               /\ List.length calls = 3%nat)).
Proof.
  split; [reflexivity|]. split; [reflexivity|]. split; [discriminate|].
  exact (shared_init_error_return board ssd_attach_fails world_init
           (final (i2c_shared_init board ssd_attach_fails world_init))
           ESP_ERR_NO_MEM eq_refl eq_refl ltac:(discriminate)).
Defined.

(** X4: as long as every call of [i2c_shared_init] so far has failed to
    create the bus (and the driver stored nothing), the three handles are
    still null: the calls return their errors and no state is left
    behind. *)
Theorem handles_stay_null_while_bus_creation_fails
    (cfg : config) (calls : list answers) :
  Forall (fun a => fst (new_master_bus_a a) <> ESP_OK
                   /\ snd (new_master_bus_a a) = None) calls ->
  exists w',
    i2c_shared_init_seq cfg calls world_init
    = Returned (map (fun a => fst (new_master_bus_a a)) calls) w'
    /\ retval (i2c_get_bus w') = Some NULL
    /\ retval (i2c_get_bme280 w') = Some NULL
    /\ retval (i2c_get_ssd1306 w') = Some NULL.
Proof.
  assert (G : forall w, i2c_bus w = NULL ->
            Forall (fun a => fst (new_master_bus_a a) <> ESP_OK
                             /\ snd (new_master_bus_a a) = None) calls ->
            exists w',
              i2c_shared_init_seq cfg calls w
              = Returned (map (fun a => fst (new_master_bus_a a)) calls) w'
              /\ i2c_bus w' = NULL
              /\ sensor_i2c_dev w' = sensor_i2c_dev w
              /\ screen_i2c_dev w' = screen_i2c_dev w).
  { induction calls as [|a rest IH]; intros w Hbus Hall.
    - exists w. cbn. unfold ret. auto.
    - inversion Hall as [|? ? [Herr Hout] Hrest]; subst.
      destruct (shared_init_bus_failure cfg a w Hbus Herr Hout)
        as (w1 & E1 & B1 & S1 & D1).
      destruct (IH w1 B1 Hrest) as (w2 & E2 & B2 & S2 & D2).
      exists w2. cbn [i2c_shared_init_seq map].
      rewrite (bind_Returned _ _ _ _ _ E1), (bind_Returned _ _ _ _ _ E2).
      unfold ret. repeat split; congruence. }
  intro Hall. destruct (G world_init eq_refl Hall) as (w' & E & B & S & D).
  exists w'. split; [exact E|]. cbn. rewrite B, S, D. repeat split.
Qed.

Lemma handles_stay_null_while_bus_creation_fails_witness :
  Forall (fun a => fst (new_master_bus_a a) <> ESP_OK
                   /\ snd (new_master_bus_a a) = None) [bus_fails; bus_fails]
  /\ exists w',
       i2c_shared_init_seq board [bus_fails; bus_fails] world_init
       = Returned [ESP_ERR_NO_MEM; ESP_ERR_NO_MEM] w'
       /\ retval (i2c_get_bus w') = Some NULL
       /\ retval (i2c_get_bme280 w') = Some NULL
       /\ retval (i2c_get_ssd1306 w') = Some NULL.
Proof.
  assert (H : Forall (fun a => fst (new_master_bus_a a) <> ESP_OK
                               /\ snd (new_master_bus_a a) = None)
                [bus_fails; bus_fails]).
  { repeat constructor; discriminate. }
  split; [exact H|].
  exact (handles_stay_null_while_bus_creation_fails board
           [bus_fails; bus_fails] H).
Defined.

Lemma uint16_small (z : Z) : 0 <= z < 65536 -> uint16 z = z.
Proof. intro H. unfold uint16. now apply Z.mod_small. Qed.

Lemma uint16_wrap (z : Z) : -65536 <= z < 0 -> uint16 z = z + 65536.
Proof.
  intro H. unfold uint16. change (2 ^ 16) with 65536.
  symmetry. apply (Z.mod_unique_pos z 65536 (-1)); lia.
Qed.

Lemma quot2 (z : Z) : 0 <= z -> Z.quot z 2 = z / 2.
Proof. intro H. apply Z.quot_div_nonneg; lia. Qed.

(** X5: [init_screen] puts the cursor of "Getting Data" so that the text
    is centred: on a panel at least as wide as the text (96 pixels) the
    text lies within the panel and its two margins differ by at most one
    pixel; on a narrower panel the subtraction wraps around in the 16-bit
    cursor, which then lies beyond 65487. *)
Theorem init_message_cursor (cfg : config) (a : answers) (w : world) :
  i2c_device_probe_a a = ESP_OK ->
  ssd1306_init_a a = ESP_OK ->
  exists x y,
    In (Ssd1306SetCursor x y) (added w (init_screen cfg a w))
    /\ (8 * Z.of_nat (String.length init_message) <= WIDTH cfg <= 65535 ->
        0 <= x
        /\ x + 8 * Z.of_nat (String.length init_message) <= WIDTH cfg
        /\ 0 <= WIDTH cfg - (x + 8 * Z.of_nat (String.length init_message)) - x <= 1)
    /\ (0 <= WIDTH cfg < 8 * Z.of_nat (String.length init_message) ->
        65536 - 48 <= x).
Proof.
  intros Hp Hi.
  exists (uint16 (Z.quot (WIDTH cfg) 2 - 48)), (uint16 (Z.quot (HEIGHT cfg) 8 * 2)).
  split.
  - assert (Hskip : forall l, skipn (List.length (trace w)) (trace w ++ l) = l).
    { intro l. now rewrite skipn_app, skipn_all, Nat.sub_diag. }
    unfold added. unfold_i2c. rewrite Hp. cbn [Z.eqb ESP_OK]. cbv beta iota.
    rewrite Hi. cbn [Z.eqb ESP_OK]. cbv beta iota.
    destruct (Z.eqb (ssd1306_update_a a) ESP_OK); cbv beta iota;
      cbn [final trace record_event]; rewrite <- ?app_assoc; rewrite Hskip;
      cbn [app In]; change (Z.quot sizeof_init_message 2 * 8) with 48; tauto.
  - change (8 * Z.of_nat (String.length init_message)) with 96. split.
    + intro H. rewrite quot2 by lia. rewrite uint16_small.
      * pose proof (Z.div_mod (WIDTH cfg) 2 ltac:(lia)) as D.
        pose proof (Z.mod_pos_bound (WIDTH cfg) 2 ltac:(lia)) as B. lia.
      * pose proof (Z.div_mod (WIDTH cfg) 2 ltac:(lia)) as D.
        pose proof (Z.mod_pos_bound (WIDTH cfg) 2 ltac:(lia)) as B. lia.
    + intro H. rewrite quot2 by lia. rewrite uint16_wrap.
      * pose proof (Z.div_mod (WIDTH cfg) 2 ltac:(lia)) as D.
        pose proof (Z.mod_pos_bound (WIDTH cfg) 2 ltac:(lia)) as B. lia.
      * pose proof (Z.div_mod (WIDTH cfg) 2 ltac:(lia)) as D.
        pose proof (Z.mod_pos_bound (WIDTH cfg) 2 ltac:(lia)) as B. lia.
Qed.

Lemma init_message_cursor_witness :
  i2c_device_probe_a all_ok = ESP_OK
  /\ ssd1306_init_a all_ok = ESP_OK
  /\ exists x y,
       In (Ssd1306SetCursor x y)
          (added world_init (init_screen board all_ok world_init))
       /\ (8 * Z.of_nat (String.length init_message) <= WIDTH board <= 65535 ->
           0 <= x
           /\ x + 8 * Z.of_nat (String.length init_message) <= WIDTH board
           /\ 0 <= WIDTH board
                   - (x + 8 * Z.of_nat (String.length init_message)) - x <= 1)
       /\ (0 <= WIDTH board < 8 * Z.of_nat (String.length init_message) ->
           65536 - 48 <= x).
Proof.
  split; [reflexivity|]. split; [reflexivity|].
  exact (init_message_cursor board all_ok world_init eq_refl eq_refl).
Defined.

End CommonI2cMore.

(* ================================================================== *)
(** * More on the station bring-up and its event handler             *)
(* ================================================================== *)

Module WifiMore.
Import Wifi WifiHandler Trace.

Ltac unfold_wifi :=
  unfold wifi_init_sta, call, ESP_ERROR_CHECK, ESP_LOGI,
    bind, ret, read, write, emit, abort.

Ltac test_wifi e := destruct (Z.eqb_spec e ESP_OK); cbv beta iota.

Ltac as_prefix Hskip :=
  cbn [final trace record_event set_s_ip_ready];
  rewrite <- ?app_assoc; rewrite Hskip; cbn [app];
  match goal with
  | |- exists n, ?l = _ /\ _ => exists (List.length l); split; [reflexivity|]
  end.

Ltac stop Hskip :=
  as_prefix Hskip; cbn [retval List.length];
  (split; [lia|split; [discriminate | intro; discriminate]]).

(** The run of [wifi_init_sta] is an initial segment of its script, the
    whole script exactly when it returns. *)
Lemma wifi_init_sta_script (a : wifi_answers) (w : world) :
  exists n,
    added w (wifi_init_sta a w) = firstn n (wifi_script a)
    /\ (1 <= n)%nat
    /\ (retval (wifi_init_sta a w) = Some tt
        <-> n = List.length (wifi_script a)).
Proof.
  assert (Hskip : forall l, skipn (List.length (trace w)) (trace w ++ l) = l).
  { intro l. now rewrite skipn_app, skipn_all, Nat.sub_diag. }
  destruct a as [first erase again netif loop wifi sem rw rip mode config start take].
  unfold added, wifi_script. unfold_wifi.
  cbn [nvs_flash_init_a nvs_flash_erase_a nvs_flash_init_again_a
       esp_netif_init_a esp_event_loop_create_default_a esp_wifi_init_a
       xSemaphoreCreateBinary_a register_wifi_event_a register_ip_event_a
       esp_wifi_set_mode_a esp_wifi_set_config_a esp_wifi_start_a
       xSemaphoreTake_a s_ip_ready set_s_ip_ready].
  destruct (Z.eqb first ESP_ERR_NVS_NO_FREE_PAGES
            || Z.eqb first ESP_ERR_NVS_NEW_VERSION_FOUND); cbv beta iota;
  [ (test_wifi erase; [|stop Hskip]); (test_wifi again; [|stop Hskip]) | ];
  (test_wifi netif; [|stop Hskip]); (test_wifi loop; [|stop Hskip]);
  (test_wifi wifi; [|stop Hskip]);
  (destruct (is_null sem); cbn [negb]; [cbn [Z.eqb ESP_ERR_NO_MEM ESP_OK]; cbv beta iota; stop Hskip|]);
  cbn [Z.eqb ESP_OK]; cbv beta iota;
  (test_wifi rw; [|stop Hskip]); (test_wifi rip; [|stop Hskip]);
  (test_wifi mode; [|stop Hskip]); (test_wifi config; [|stop Hskip]);
  (test_wifi start; [|stop Hskip]);
  (destruct take; cbn [Z.eqb ESP_OK ESP_FAIL]; cbv beta iota; [|stop Hskip]);
  as_prefix Hskip; cbn [retval List.length]; (split; [lia|split; reflexivity]).
Qed.

Lemma retried_dec (e : esp_err_t) :
  Z.eqb e ESP_ERR_NVS_NO_FREE_PAGES || Z.eqb e ESP_ERR_NVS_NEW_VERSION_FOUND
  = true <-> retried e.
Proof.
  unfold retried. rewrite orb_true_iff, !Z.eqb_eq. tauto.
Qed.

Lemma prefix_split {A} (n : nat) (l pre post : list A) (x : A) :
  firstn n l = (pre ++ x :: post)%list ->
  exists post', l = (pre ++ x :: post')%list.
Proof.
  intro E. exists (post ++ skipn n l)%list.
  rewrite <- (firstn_skipn n l) at 1. rewrite E.
  rewrite <- app_assoc. reflexivity.
Qed.

(** In an equation [l = pre ++ x :: post] with [l] a closed list, walk
    along [l]: either the heads differ, or [pre] is known. *)
Ltac walk H :=
  repeat (match type of H with
          | _ = (?pre ++ _ :: _)%list =>
              destruct pre as [|? pre]; cbn [app] in H;
              [ first [ discriminate H
                      | injection H as _ _; cbn [In]; tauto
                      | injection H as _; cbn [In]; tauto
                      | cbn [In]; tauto ]
              | first [ discriminate H | injection H as <- H ] ]
          end).

(** X6: in every run of [wifi_init_sta], whatever fails, the semaphore
    is created before an event handler is registered, both handlers are
    registered and the station is configured before Wi-Fi is started, and
    the wait for an address comes after the start: no event of the start
    can be missed by the handler that answers it. *)
Theorem wifi_init_sta_order (a : wifi_answers) (w : world) :
  let t := added w (wifi_init_sta a w) in
  (forall pre post b,
     t = (pre ++ EspEventHandlerRegister b :: post)%list ->
     In XSemaphoreCreateBinary pre)
  /\ (forall pre post,
        t = (pre ++ EspWifiStart :: post)%list ->
        In (EspEventHandlerRegister "WIFI_EVENT") pre
        /\ In (EspEventHandlerRegister "IP_EVENT") pre
        /\ In (EspWifiSetConfig WIFI_SSID WIFI_PASS) pre)
  /\ (forall pre post,
        t = (pre ++ XSemaphoreTakeIpReady :: post)%list ->
        In EspWifiStart pre).
Proof.
  destruct (wifi_init_sta_script a w) as (n & E & _ & _).
  cbv zeta. rewrite E. clear E. unfold wifi_script.
  destruct (Z.eqb (nvs_flash_init_a a) ESP_ERR_NVS_NO_FREE_PAGES
            || Z.eqb (nvs_flash_init_a a) ESP_ERR_NVS_NEW_VERSION_FOUND);
    cbn [app]; (split; [|split]); intros pre post; intros;
    match goal with
    | H : firstn _ _ = _ |- _ => apply prefix_split in H; destruct H as [post' H]
    end; walk H.
Qed.


Lemma wifi_init_sta_order_witness :
  let t := added world_init (wifi_init_sta wifi_all_ok world_init) in
  (forall pre post b,
     t = (pre ++ EspEventHandlerRegister b :: post)%list ->
     In XSemaphoreCreateBinary pre)
  /\ (forall pre post,
        t = (pre ++ EspWifiStart :: post)%list ->
        In (EspEventHandlerRegister "WIFI_EVENT") pre
        /\ In (EspEventHandlerRegister "IP_EVENT") pre
        /\ In (EspWifiSetConfig WIFI_SSID WIFI_PASS) pre)
  /\ (forall pre post,
        t = (pre ++ XSemaphoreTakeIpReady :: post)%list ->
        In EspWifiStart pre).
Proof. exact (wifi_init_sta_order wifi_all_ok world_init). Defined.

Ltac nvs_done Hskip Hr :=
  cbn [final trace record_event set_s_ip_ready];
  rewrite <- ?app_assoc; rewrite Hskip; cbn [app hd_error];
  (split; [reflexivity|]);
  (split;
   [ let H := fresh in
     intro H; first [ exfalso; apply H; apply Hr; reflexivity
                    | split; reflexivity ]
   | let H := fresh in
     intro H;
     first [ apply Hr in H; discriminate H
           | eexists; (split; [reflexivity|]);
             (split; [reflexivity|]);
             (split; [cbv; lia|]);
             let N := fresh in
             intro N; first [ reflexivity | congruence ] ] ]).

Ltac iff_done Hr Hn :=
  cbn [retval];
  split;
  [ let H := fresh in
    intro H;
    first
      [ discriminate H
      | split;
        [ let K := fresh in
          intro K; first [ apply Hr in K; discriminate K | split; congruence ]
        | repeat split; try congruence;
          try (let K := fresh in intro K; apply Hn in K; discriminate K) ] ]
  | let H := fresh in
    intro H; first [ reflexivity | exfalso ];
    destruct H as (Hnv & ? & ? & ? & Hs & ? & ? & ? & ? & ? & ?);
    try congruence;
    try (apply Hs; apply Hn; reflexivity);
    try (destruct Hnv as [? ?]; [apply Hr; reflexivity | congruence]) ].

(** X7: the first call of [wifi_init_sta] is always [nvs_flash_init].
    Unless it returned one of the two codes that ask for it, the store is
    never erased and never initialised again; on one of the two codes the
    erase is the very next call, it happens once, at most one further
    initialisation follows, and nothing follows a failed erase. *)
Theorem nvs_is_erased_only_on_request (a : wifi_answers) (w : world) :
  let t := added w (wifi_init_sta a w) in
  hd_error t = Some NvsFlashInit
  /\ (~ retried (nvs_flash_init_a a) ->
      count is_nvs_erase t = 0%nat /\ count is_nvs_init t = 1%nat)
  /\ (retried (nvs_flash_init_a a) ->
      exists rest,
        t = NvsFlashInit :: NvsFlashErase :: rest
        /\ count is_nvs_erase rest = 0%nat
        /\ (count is_nvs_init rest <= 1)%nat
        /\ (nvs_flash_erase_a a <> ESP_OK -> rest = [])).
Proof.
  assert (Hskip : forall l, skipn (List.length (trace w)) (trace w ++ l) = l).
  { intro l. now rewrite skipn_app, skipn_all, Nat.sub_diag. }
  destruct a as [first erase again netif loop wifi sem rw rip mode config start take].
  cbv zeta. unfold added. unfold_wifi.
  cbn [nvs_flash_init_a nvs_flash_erase_a nvs_flash_init_again_a
       esp_netif_init_a esp_event_loop_create_default_a esp_wifi_init_a
       xSemaphoreCreateBinary_a register_wifi_event_a register_ip_event_a
       esp_wifi_set_mode_a esp_wifi_set_config_a esp_wifi_start_a
       xSemaphoreTake_a s_ip_ready set_s_ip_ready].
  pose proof (retried_dec first) as Hr.
  destruct (Z.eqb first ESP_ERR_NVS_NO_FREE_PAGES
            || Z.eqb first ESP_ERR_NVS_NEW_VERSION_FOUND); cbv beta iota;
  [ (test_wifi erase; [|nvs_done Hskip Hr]); (test_wifi again; [|nvs_done Hskip Hr]) | ];
  (test_wifi netif; [|nvs_done Hskip Hr]); (test_wifi loop; [|nvs_done Hskip Hr]);
  (test_wifi wifi; [|nvs_done Hskip Hr]);
  (destruct (is_null sem); cbn [negb];
   [cbn [Z.eqb ESP_ERR_NO_MEM ESP_OK]; cbv beta iota; nvs_done Hskip Hr|]);
  cbn [Z.eqb ESP_OK]; cbv beta iota;
  (test_wifi rw; [|nvs_done Hskip Hr]); (test_wifi rip; [|nvs_done Hskip Hr]);
  (test_wifi mode; [|nvs_done Hskip Hr]); (test_wifi config; [|nvs_done Hskip Hr]);
  (test_wifi start; [|nvs_done Hskip Hr]);
  (destruct take; cbn [Z.eqb ESP_OK ESP_FAIL]; cbv beta iota;
   [|nvs_done Hskip Hr]);
  nvs_done Hskip Hr.
Qed.

Lemma nvs_is_erased_only_on_request_witness :
  let t := added world_init (wifi_init_sta nvs_init_fails world_init) in
  hd_error t = Some NvsFlashInit
  /\ (~ retried (nvs_flash_init_a nvs_init_fails) ->
      count is_nvs_erase t = 0%nat /\ count is_nvs_init t = 1%nat)
  /\ (retried (nvs_flash_init_a nvs_init_fails) ->
      exists rest,
        t = NvsFlashInit :: NvsFlashErase :: rest
        /\ count is_nvs_erase rest = 0%nat
        /\ (count is_nvs_init rest <= 1)%nat
        /\ (nvs_flash_erase_a nvs_init_fails <> ESP_OK -> rest = [])).
Proof. exact (nvs_is_erased_only_on_request nvs_init_fails world_init). Defined.

(** [wifi_init_sta] returns exactly when every checked call succeeds. *)
Lemma wifi_returns_iff (a : wifi_answers) (w : world) :
  retval (wifi_init_sta a w) = Some tt
  <-> ((retried (nvs_flash_init_a a) ->
        nvs_flash_erase_a a = ESP_OK /\ nvs_flash_init_again_a a = ESP_OK)
       /\ esp_netif_init_a a = ESP_OK
       /\ esp_event_loop_create_default_a a = ESP_OK
       /\ esp_wifi_init_a a = ESP_OK
       /\ xSemaphoreCreateBinary_a a <> NULL
       /\ register_wifi_event_a a = ESP_OK
       /\ register_ip_event_a a = ESP_OK
       /\ esp_wifi_set_mode_a a = ESP_OK
       /\ esp_wifi_set_config_a a = ESP_OK
       /\ esp_wifi_start_a a = ESP_OK
       /\ xSemaphoreTake_a a = true).
Proof.
  destruct a as [first erase again netif loop wifi sem rw rip mode config start take].
  unfold_wifi.
  cbn [nvs_flash_init_a nvs_flash_erase_a nvs_flash_init_again_a
       esp_netif_init_a esp_event_loop_create_default_a esp_wifi_init_a
       xSemaphoreCreateBinary_a register_wifi_event_a register_ip_event_a
       esp_wifi_set_mode_a esp_wifi_set_config_a esp_wifi_start_a
       xSemaphoreTake_a s_ip_ready set_s_ip_ready].
  pose proof (retried_dec first) as Hr.
  assert (Hn : is_null sem = true <-> sem = NULL).
  { unfold is_null. apply N.eqb_eq. }
  destruct (Z.eqb first ESP_ERR_NVS_NO_FREE_PAGES
            || Z.eqb first ESP_ERR_NVS_NEW_VERSION_FOUND); cbv beta iota;
  [ (test_wifi erase; [|iff_done Hr Hn]); (test_wifi again; [|iff_done Hr Hn]) | ];
  (test_wifi netif; [|iff_done Hr Hn]); (test_wifi loop; [|iff_done Hr Hn]);
  (test_wifi wifi; [|iff_done Hr Hn]);
  (destruct (is_null sem); cbn [negb];
   [cbn [Z.eqb ESP_ERR_NO_MEM ESP_OK]; cbv beta iota; iff_done Hr Hn|]);
  cbn [Z.eqb ESP_OK]; cbv beta iota;
  (test_wifi rw; [|iff_done Hr Hn]); (test_wifi rip; [|iff_done Hr Hn]);
  (test_wifi mode; [|iff_done Hr Hn]); (test_wifi config; [|iff_done Hr Hn]);
  (test_wifi start; [|iff_done Hr Hn]);
  (destruct take; cbn [Z.eqb ESP_OK ESP_FAIL]; cbv beta iota;
   [|iff_done Hr Hn]);
  iff_done Hr Hn.
Qed.

Ltac wait_done Hskip Hr Hn :=
  cbn [final trace record_event set_s_ip_ready];
  rewrite <- ?app_assoc; rewrite Hskip; cbn [app In];
  split;
  [ let H := fresh in
    intro H;
    first
      [ exfalso;
        repeat (match type of H with
                | _ \/ _ => destruct H as [H|H]; [discriminate H|]
                end);
        exact H
      | split;
        [ let K := fresh in
          intro K; first [ apply Hr in K; discriminate K | split; congruence ]
        | repeat split; try congruence;
          try (let K := fresh in intro K; apply Hn in K; discriminate K) ] ]
  | let H := fresh in
    intro H; first [ clear H; tauto | exfalso ];
    destruct H as (Hnv & ? & ? & ? & Hs & ? & ? & ? & ? & ?);
    try congruence;
    try (apply Hs; apply Hn; reflexivity);
    try (destruct Hnv as [? ?]; [apply Hr; reflexivity | congruence]) ].

(** X8: [wifi_init_sta] reaches its wait for an address, the call of
    [xSemaphoreTake] with [portMAX_DELAY], exactly when every checked call
    before it succeeded (after one of the two store codes, also the erase
    and the second initialisation) and the semaphore was created; and it
    returns exactly when, moreover, that call answers [pdTRUE].  The world
    it starts in plays no part.  The statement says when the function
    returns: it does not say that the process is halted otherwise, since a
    wait that is never answered keeps the function from returning without
    halting anything. *)
Theorem wifi_init_sta_waits_and_returns_iff (a : wifi_answers) (w : world) :
  let o := wifi_init_sta a w in
  let checks :=
    (retried (nvs_flash_init_a a) ->
     nvs_flash_erase_a a = ESP_OK /\ nvs_flash_init_again_a a = ESP_OK)
    /\ esp_netif_init_a a = ESP_OK
    /\ esp_event_loop_create_default_a a = ESP_OK
    /\ esp_wifi_init_a a = ESP_OK
    /\ xSemaphoreCreateBinary_a a <> NULL
    /\ register_wifi_event_a a = ESP_OK
    /\ register_ip_event_a a = ESP_OK
    /\ esp_wifi_set_mode_a a = ESP_OK
    /\ esp_wifi_set_config_a a = ESP_OK
    /\ esp_wifi_start_a a = ESP_OK in
  (In XSemaphoreTakeIpReady (added w o) <-> checks)
  /\ (retval o = Some tt <-> checks /\ xSemaphoreTake_a a = true).
Proof.
  cbv zeta. split.
  - assert (Hskip : forall l, skipn (List.length (trace w)) (trace w ++ l) = l).
    { intro l. now rewrite skipn_app, skipn_all, Nat.sub_diag. }
    destruct a as [first erase again netif loop wifi sem rw rip mode config start take].
    unfold added. unfold_wifi.
    cbn [nvs_flash_init_a nvs_flash_erase_a nvs_flash_init_again_a
         esp_netif_init_a esp_event_loop_create_default_a esp_wifi_init_a
         xSemaphoreCreateBinary_a register_wifi_event_a register_ip_event_a
         esp_wifi_set_mode_a esp_wifi_set_config_a esp_wifi_start_a
         xSemaphoreTake_a s_ip_ready set_s_ip_ready].
    pose proof (retried_dec first) as Hr.
    assert (Hn : is_null sem = true <-> sem = NULL).
    { unfold is_null. apply N.eqb_eq. }
    destruct (Z.eqb first ESP_ERR_NVS_NO_FREE_PAGES
              || Z.eqb first ESP_ERR_NVS_NEW_VERSION_FOUND); cbv beta iota;
    [ (test_wifi erase; [|wait_done Hskip Hr Hn]);
      (test_wifi again; [|wait_done Hskip Hr Hn]) | ];
    (test_wifi netif; [|wait_done Hskip Hr Hn]);
    (test_wifi loop; [|wait_done Hskip Hr Hn]);
    (test_wifi wifi; [|wait_done Hskip Hr Hn]);
    (destruct (is_null sem); cbn [negb];
     [cbn [Z.eqb ESP_ERR_NO_MEM ESP_OK]; cbv beta iota; wait_done Hskip Hr Hn|]);
    cbn [Z.eqb ESP_OK]; cbv beta iota;
    (test_wifi rw; [|wait_done Hskip Hr Hn]);
    (test_wifi rip; [|wait_done Hskip Hr Hn]);
    (test_wifi mode; [|wait_done Hskip Hr Hn]);
    (test_wifi config; [|wait_done Hskip Hr Hn]);
    (test_wifi start; [|wait_done Hskip Hr Hn]);
    (destruct take; cbn [Z.eqb ESP_OK ESP_FAIL]; cbv beta iota);
    wait_done Hskip Hr Hn.
  - split; intro H.
    + apply wifi_returns_iff in H. tauto.
    + apply wifi_returns_iff. tauto.
Qed.

(** On a platform that answers every call with success the wait is
    reached and the function returns; when the second initialisation of
    the store fails the wait is not reached and the function does not
    return. *)
Lemma wifi_init_sta_waits_and_returns_iff_witness :
  (In XSemaphoreTakeIpReady
      (added world_init (wifi_init_sta wifi_all_ok world_init))
   /\ retval (wifi_init_sta wifi_all_ok world_init) = Some tt)
  /\ (~ In XSemaphoreTakeIpReady
          (added world_init
             (wifi_init_sta
                (with_nvs ESP_ERR_NVS_NO_FREE_PAGES ESP_OK ESP_ERR_NO_MEM)
                world_init))
      /\ retval (wifi_init_sta
                   (with_nvs ESP_ERR_NVS_NO_FREE_PAGES ESP_OK ESP_ERR_NO_MEM)
                   world_init) <> Some tt).
Proof.
  split; [split|split].
  - apply (proj2 (proj1 (wifi_init_sta_waits_and_returns_iff wifi_all_ok
                           world_init))).
    repeat split; discriminate.
  - apply (proj2 (proj2 (wifi_init_sta_waits_and_returns_iff wifi_all_ok
                           world_init))).
    repeat split; discriminate.
  - intro E.
    apply (proj1 (proj1 (wifi_init_sta_waits_and_returns_iff _ world_init)))
      in E.
    destruct E as [E _]. destruct (E (or_introl eq_refl)) as [_ K].
    discriminate K.
  - intro E.
    apply (proj1 (proj2 (wifi_init_sta_waits_and_returns_iff _ world_init)))
      in E.
    destruct E as [[E _] _]. destruct (E (or_introl eq_refl)) as [_ K].
    discriminate K.
Defined.

(** X9: for every sequence of events delivered to [wifi_event_handler],
    [esp_wifi_connect] is called once for every station start and once for
    every disconnect, with no limit and no delay, and for no other event;
    the semaphore is given once for every address event when it exists and
    never when it is null. *)
Theorem handler_reconnects_every_time
    (w : world) (events : list (esp_event_base_t * Z)) :
  List.length (filter is_connect (deliver w events))
  = List.length (filter asks_connect events)
  /\ List.length (filter is_give (deliver w events))
     = (if is_null (s_ip_ready w) then 0%nat
        else List.length (filter reports_ip events)).
Proof.
  unfold deliver. induction events as [|[base id] events [IH1 IH2]].
  - split; [reflexivity|]. now destruct (is_null (s_ip_ready w)).
  - cbn [flat_map]. rewrite !filter_app, !length_app, IH1, IH2.
    cbn [filter]. unfold asks_connect, reports_ip, wifi_event_handler.
    cbn [fst snd].
    destruct base; cbn [base_eqb andb orb];
      destruct (Z.eqb id WIFI_EVENT_STA_START) eqn:Es;
      destruct (Z.eqb id WIFI_EVENT_STA_DISCONNECTED) eqn:Ed;
      destruct (Z.eqb id IP_EVENT_STA_GOT_IP) eqn:Ei;
      destruct (is_null (s_ip_ready w));
      cbn [orb negb filter is_connect is_give List.length app]; split; lia.
Qed.

(** X10: in every world in which [wifi_init_sta] has returned, the
    static [s_ip_ready] is the semaphore it created and an address event
    makes the handler log and give it; in a world where the semaphore is
    still null the same event is only logged. *)
Theorem ip_event_is_signalled_after_init
    (a : wifi_answers) (w w' : world) :
  wifi_init_sta a w = Returned tt w' ->
  s_ip_ready w' = xSemaphoreCreateBinary_a a
  /\ wifi_event_handler w' IP_EVENT IP_EVENT_STA_GOT_IP
     = [LogGotIp; XSemaphoreGiveIpReady]
  /\ (forall w0,
        s_ip_ready w0 = NULL ->
        wifi_event_handler w0 IP_EVENT IP_EVENT_STA_GOT_IP = [LogGotIp]).
Proof.
  intro E.
  assert (R : retval (wifi_init_sta a w) = Some tt) by now rewrite E.
  apply wifi_returns_iff in R.
  destruct R as (_ & _ & _ & _ & Hsem & _).
  assert (S : s_ip_ready w' = xSemaphoreCreateBinary_a a).
  { revert E.
    destruct a as [first erase again netif loop wifi sem rw rip mode config start take].
    unfold_wifi.
    cbn [nvs_flash_init_a nvs_flash_erase_a nvs_flash_init_again_a
         esp_netif_init_a esp_event_loop_create_default_a esp_wifi_init_a
         xSemaphoreCreateBinary_a register_wifi_event_a register_ip_event_a
         esp_wifi_set_mode_a esp_wifi_set_config_a esp_wifi_start_a
         xSemaphoreTake_a s_ip_ready set_s_ip_ready].
    destruct (Z.eqb first ESP_ERR_NVS_NO_FREE_PAGES
              || Z.eqb first ESP_ERR_NVS_NEW_VERSION_FOUND); cbv beta iota;
    [ (test_wifi erase; [|discriminate]); (test_wifi again; [|discriminate]) | ];
    (test_wifi netif; [|discriminate]); (test_wifi loop; [|discriminate]);
    (test_wifi wifi; [|discriminate]);
    (destruct (is_null sem); cbn [negb];
     [cbn [Z.eqb ESP_ERR_NO_MEM ESP_OK]; cbv beta iota; discriminate|]);
    cbn [Z.eqb ESP_OK]; cbv beta iota;
    (test_wifi rw; [|discriminate]); (test_wifi rip; [|discriminate]);
    (test_wifi mode; [|discriminate]); (test_wifi config; [|discriminate]);
    (test_wifi start; [|discriminate]);
    (destruct take; cbn [Z.eqb ESP_OK ESP_FAIL]; cbv beta iota;
     [|discriminate]);
    intro E; inversion E; reflexivity. }
  split; [exact S|]. split.
  - unfold wifi_event_handler. cbn [base_eqb andb Z.eqb IP_EVENT_STA_GOT_IP].
    rewrite S, (is_null_false _ Hsem). reflexivity.
  - intros w0 H0. unfold wifi_event_handler.
    cbn [base_eqb andb Z.eqb IP_EVENT_STA_GOT_IP].
    rewrite (is_null_true _ H0). reflexivity.
Qed.

Lemma ip_event_is_signalled_after_init_witness :
  wifi_init_sta wifi_all_ok world_init = Returned tt station_up
  /\ s_ip_ready station_up = xSemaphoreCreateBinary_a wifi_all_ok
  /\ wifi_event_handler station_up IP_EVENT IP_EVENT_STA_GOT_IP
     = [LogGotIp; XSemaphoreGiveIpReady]
  /\ (forall w0,
        s_ip_ready w0 = NULL ->
        wifi_event_handler w0 IP_EVENT IP_EVENT_STA_GOT_IP = [LogGotIp]).
Proof.
  split; [reflexivity|].
  exact (ip_event_is_signalled_after_init wifi_all_ok world_init station_up
           eq_refl).
Defined.

End WifiMore.

(* ================================================================== *)
(** * More on the start of the time service                          *)
(* ================================================================== *)

Module SntpMore.
Import Sntp SntpFacts Trace.

Lemma total_delay_app (l1 l2 : list event) :
  total_delay (l1 ++ l2) = total_delay l1 + total_delay l2.
Proof.
  unfold total_delay. induction l1 as [|x l1 IH]; [reflexivity|].
  cbn [app fold_right]. rewrite IH. lia.
Qed.

(** The loop sleeps 500 ms after each failed poll and not otherwise. *)
Lemma fallback_check_delay (a : sntp_answers) (remaining : nat) :
  forall (retry : nat) (w : world),
  exists (b : bool) (w' : world) (new : list event),
    fallback_check a remaining retry w = Returned b w'
    /\ trace w' = (trace w ++ new)%list
    /\ (polls new <= remaining)%nat
    /\ 0 <= total_delay new <= 500 * Z.of_nat remaining
    /\ (b = false -> total_delay new = 500 * Z.of_nat remaining).
Proof.
  induction remaining as [|n IH]; intros retry w.
  - exists false, w, []. simpl. unfold ret. rewrite app_nil_r.
    repeat split; cbn; lia.
  - destruct (Z_gt_le_dec (tm_year_a a retry) (2016 - 1900)) as [Hv | Hi].
    + eexists. eexists. eexists.
      split; [apply (fallback_check_valid a n retry w Hv)|].
      cbn [trace record_event]. rewrite <- app_assoc. split; [reflexivity|].
      split; [cbn; lia|]. split; [cbn; lia|]. discriminate.
    + rewrite (fallback_check_invalid a n retry w Hi).
      destruct (IH (S retry)
                  (record_event (VTaskDelayMs 500) (record_event TimeLocaltime w)))
        as (b & w' & new & E & T & P & D & F).
      exists b, w', (failed_poll ++ new)%list. split; [exact E|].
      split; [rewrite T; cbn [trace record_event]; now rewrite <- !app_assoc|].
      split; [rewrite polls_app; cbn; lia|].
      rewrite total_delay_app.
      change (total_delay failed_poll) with 500.
      split; [lia|]. intro Hb. specialize (F Hb). lia.
Qed.

(** The two outcomes of [init_sntp]. *)
Lemma init_sntp_cases (a : sntp_answers) (w : world) :
  (esp_netif_sntp_init_a a <> ESP_OK ->
   init_sntp a w = Aborted (record_event (EspNetifSntpInit "pool.ntp.org") w))
  /\ (esp_netif_sntp_init_a a = ESP_OK ->
      exists w' rest,
        init_sntp a w = Returned tt w'
        /\ added w (init_sntp a w)
           = ([EspNetifSntpInit "pool.ntp.org";
               Log LOGI TAG_SNTP "SNTP started via esp_netif";
               Setenv "TZ" EUROPE_ROMANIA_BUCHAREST; Tzset;
               EspNetifSntpSyncWait 10000] ++ rest)%list
        /\ (polls rest <= 10)%nat
        /\ 0 <= total_delay rest <= 5000
        /\ (esp_netif_sntp_sync_wait_a a = ESP_OK -> total_delay rest = 0)).
Proof.
  split.
  - intro H. unfold init_sntp, sntp_start, ESP_ERROR_CHECK.
    apply bind_Aborted. apply bind_Aborted.
    unfold bind, emit, ret, abort. now rewrite (err_eqb_false _ H).
  - intro H.
    set (w4 := record_event (EspNetifSntpSyncWait 10000)
                 (record_event Tzset
                    (record_event (Setenv "TZ" EUROPE_ROMANIA_BUCHAREST)
                       (record_event (Log LOGI TAG_SNTP "SNTP started via esp_netif")
                          (record_event (EspNetifSntpInit "pool.ntp.org") w))))).
    assert (E : init_sntp a w
                = (if Z.eqb (esp_netif_sntp_sync_wait_a a) ESP_OK
                   then ESP_LOGI TAG_GETT "Time synced"
                   else (returned <- fallback_check a 10 0 ;;
                         if returned : bool then ret tt
                         else ESP_LOGW TAG_GETT "Time not synced (timeout).")) w4).
    { unfold init_sntp, sntp_start, ESP_ERROR_CHECK, ESP_LOGI,
        wait_for_time_blocking.
      unfold bind at 1. unfold bind at 1. unfold bind at 1. unfold bind at 1.
      unfold emit at 1. unfold ret at 1. rewrite H.
      reflexivity. }
    assert (T4 : trace w4
                 = (trace w ++ [EspNetifSntpInit "pool.ntp.org";
                      Log LOGI TAG_SNTP "SNTP started via esp_netif";
                      Setenv "TZ" EUROPE_ROMANIA_BUCHAREST; Tzset;
                      EspNetifSntpSyncWait 10000])%list).
    { unfold w4. cbn [trace record_event]. now rewrite <- !app_assoc. }
    rewrite E. clearbody w4.
    destruct (Z.eqb_spec (esp_netif_sntp_sync_wait_a a) ESP_OK) as [Hok | Hno].
    + eexists. exists [Log LOGI TAG_GETT "Time synced"].
      split; [reflexivity|]. split.
      { apply added_app. cbn [final ESP_LOGI emit trace record_event].
        rewrite T4. now rewrite <- app_assoc. }
      cbn. repeat split; try lia.
    + destruct (fallback_check_delay a 10 0 w4) as (b & w5 & new & E5 & T5 & P & D & _).
      rewrite (bind_Returned _ _ _ _ _ E5).
      destruct b.
      * exists w5, new. split; [reflexivity|]. split.
        { apply added_app. cbn [final ret]. rewrite T5, T4.
          now rewrite <- app_assoc. }
        split; [exact P|]. split; [lia|]. intro; contradiction.
      * eexists. exists (new ++ [Log LOGW TAG_GETT "Time not synced (timeout)."])%list.
        split; [reflexivity|]. split.
        { apply added_app. cbn [final ESP_LOGW emit trace record_event].
          rewrite T5, T4. now rewrite <- !app_assoc. }
        split; [rewrite polls_app; cbn; lia|].
        rewrite total_delay_app. cbn. split; [lia|]. intro; contradiction.
Qed.
(** X11: [init_sntp] halts the process when the SNTP client cannot be
    started, before the time zone is touched.  Otherwise it always
    returns: it sets [TZ] to the Bucharest rule and calls [tzset] before
    it waits, it waits with a timeout of 10000 ms, and after the wait it
    polls the clock at most 10 times and sleeps at most 5000 ms in all,
    not at all when the wait succeeded. *)
Theorem init_sntp_outcome (a : sntp_answers) (w : world) :
  (esp_netif_sntp_init_a a <> ESP_OK ->
   init_sntp a w = Aborted (record_event (EspNetifSntpInit "pool.ntp.org") w))
  /\ (esp_netif_sntp_init_a a = ESP_OK ->
      exists w' rest,
        init_sntp a w = Returned tt w'
        /\ added w (init_sntp a w)
           = ([EspNetifSntpInit "pool.ntp.org";
               Log LOGI TAG_SNTP "SNTP started via esp_netif";
               Setenv "TZ" EUROPE_ROMANIA_BUCHAREST; Tzset;
               EspNetifSntpSyncWait 10000] ++ rest)%list
        /\ (polls rest <= 10)%nat
        /\ 0 <= total_delay rest <= 5000
        /\ (esp_netif_sntp_sync_wait_a a = ESP_OK -> total_delay rest = 0)).
Proof. exact (init_sntp_cases a w). Qed.

Lemma init_sntp_outcome_witness :
  esp_netif_sntp_init_a never_synced = ESP_OK
  /\ exists w' rest,
       init_sntp never_synced world_init = Returned tt w'
       /\ added world_init (init_sntp never_synced world_init)
          = ([EspNetifSntpInit "pool.ntp.org";
              Log LOGI TAG_SNTP "SNTP started via esp_netif";
              Setenv "TZ" EUROPE_ROMANIA_BUCHAREST; Tzset;
              EspNetifSntpSyncWait 10000] ++ rest)%list
       /\ (polls rest <= 10)%nat
       /\ 0 <= total_delay rest <= 5000
       /\ (esp_netif_sntp_sync_wait_a never_synced = ESP_OK ->
           total_delay rest = 0).
Proof.
  split; [reflexivity|].
  exact (proj2 (init_sntp_outcome never_synced world_init) eq_refl).
Defined.

End SntpMore.

(* ================================================================== *)
(** * More on app_main                                               *)
(* ================================================================== *)

Module BringUpMore.
Import Main Trace.

Lemma error_check_inv (m : M esp_err_t) (w w' : world) :
  ESP_ERROR_CHECK m w = Returned tt w' -> m w = Returned ESP_OK w'.
Proof.
  unfold ESP_ERROR_CHECK, bind. destruct (m w) as [e w1|w1]; [|discriminate].
  destruct (Z.eqb_spec e ESP_OK) as [->|N]; unfold ret, abort; [|discriminate].
  intro E. now inversion E.
Qed.

Lemma error_check_final (m : M esp_err_t) (w : world) :
  retval (m w) <> Some ESP_OK ->
  ESP_ERROR_CHECK m w = Aborted (final (m w)).
Proof.
  unfold ESP_ERROR_CHECK, bind. destruct (m w) as [e w1|w1]; [|reflexivity].
  cbn [retval final]. intro N.
  destruct (Z.eqb_spec e ESP_OK) as [->|N']; [congruence|reflexivity].
Qed.

Lemma retval_None {A} (o : outcome A) : retval o = None -> o = Aborted (final o).
Proof. destruct o; [discriminate|reflexivity]. Qed.

Lemma retval_Some {A} (o : outcome A) (a : A) :
  retval o = Some a -> o = Returned a (final o).
Proof. destruct o; cbn; [intro E; now inversion E|discriminate]. Qed.

(** X12: [app_main] reaches the render loop exactly when
    [i2c_shared_init] returned [ESP_OK], [wifi_init_sta] returned, the
    SNTP client started and the mutex was created.  It then has run the
    three stages in this order, each in the world the one before left, and
    has ended with the creation of the mutex, the creation of the sensor
    task and the call of [print_data], in this order: the sensor task never
    exists without the mutex it takes. *)
Theorem app_main_enters_render_loop
    (cfg : CommonI2c.config) (ai : CommonI2c.answers) (aw : Wifi.wifi_answers)
    (at_ : Sntp.sntp_answers) (mutex : handle) (w : world) :
  (retval (app_main cfg ai aw at_ mutex w) = Some tt
   <-> retval (CommonI2c.i2c_shared_init cfg ai w) = Some ESP_OK
       /\ retval (Wifi.wifi_init_sta aw w) = Some tt
       /\ Sntp.esp_netif_sntp_init_a at_ = ESP_OK
       /\ mutex <> NULL)
  /\ (forall w',
        app_main cfg ai aw at_ mutex w = Returned tt w' ->
        exists w1 w2 w3,
          CommonI2c.i2c_shared_init cfg ai w = Returned ESP_OK w1
          /\ Wifi.wifi_init_sta aw w1 = Returned tt w2
          /\ Sntp.init_sntp at_ w2 = Returned tt w3
          /\ trace w'
             = (trace w3 ++ [XSemaphoreCreateMutex;
                             XTaskCreatePinnedToCore "sensor_task";
                             PrintData])%list).
Proof.
  assert (Fwd : forall w',
    app_main cfg ai aw at_ mutex w = Returned tt w' ->
    exists w1 w2 w3,
      CommonI2c.i2c_shared_init cfg ai w = Returned ESP_OK w1
      /\ Wifi.wifi_init_sta aw w1 = Returned tt w2
      /\ Sntp.init_sntp at_ w2 = Returned tt w3
      /\ mutex <> NULL
      /\ trace w'
         = (trace w3 ++ [XSemaphoreCreateMutex;
                         XTaskCreatePinnedToCore "sensor_task";
                         PrintData])%list).
  { intros w' E. unfold app_main in E.
    apply bind_inv in E. destruct E as ([] & w1 & E1 & E).
    apply error_check_inv in E1.
    apply bind_inv in E. destruct E as ([] & w2 & E2 & E).
    apply bind_inv in E. destruct E as ([] & w3 & E3 & E).
    exists w1, w2, w3. repeat (split; [assumption|]).
    revert E. unfold bind, emit, ret, abort.
    destruct (is_null mutex) eqn:Hn; [discriminate|].
    intro E. inversion E. split.
    - intro Hm. rewrite (is_null_true _ Hm) in Hn. discriminate.
    - cbn [trace record_event]. now rewrite <- !app_assoc. }
  split.
  - split.
    + intro R. apply retval_Some in R.
      destruct (Fwd _ R) as (w1 & w2 & w3 & E1 & E2 & E3 & Hm & _).
      split; [now rewrite E1|].
      split.
      { apply (proj2 (WifiMore.wifi_returns_iff aw w)).
        apply (proj1 (WifiMore.wifi_returns_iff aw w1)).
        now rewrite E2. }
      split; [|exact Hm].
      destruct (Z.eq_dec (Sntp.esp_netif_sntp_init_a at_) ESP_OK) as [|N]; [assumption|].
      rewrite (proj1 (SntpMore.init_sntp_cases at_ w2) N) in E3. discriminate.
    + intros (R1 & R2 & R3 & Hm).
      apply retval_Some in R1.
      assert (R2' : retval (Wifi.wifi_init_sta aw (final (CommonI2c.i2c_shared_init cfg ai w))) = Some tt).
      { apply (proj2 (WifiMore.wifi_returns_iff aw _)).
        apply (proj1 (WifiMore.wifi_returns_iff aw w)). exact R2. }
      apply retval_Some in R2'.
      destruct (proj2 (SntpMore.init_sntp_cases at_
                  (final (Wifi.wifi_init_sta aw
                     (final (CommonI2c.i2c_shared_init cfg ai w))))) R3)
        as (w3 & rest & E3 & _).
      unfold app_main.
      assert (E1 : ESP_ERROR_CHECK (CommonI2c.i2c_shared_init cfg ai) w
                   = Returned tt (final (CommonI2c.i2c_shared_init cfg ai w))).
      { unfold ESP_ERROR_CHECK. rewrite (bind_Returned _ _ _ _ _ R1). reflexivity. }
      rewrite (bind_Returned _ _ _ _ _ E1).
      rewrite (bind_Returned _ _ _ _ _ R2').
      rewrite (bind_Returned _ _ _ _ _ E3).
      unfold bind, emit, ret, abort. rewrite (is_null_false _ Hm). reflexivity.
  - intros w' E. destruct (Fwd w' E) as (w1 & w2 & w3 & E1 & E2 & E3 & _ & T).
    exists w1, w2, w3. auto.
Qed.

Lemma app_main_enters_render_loop_witness :
  retval (app_main CommonI2c.board CommonI2c.all_ok Wifi.wifi_all_ok
            Sntp.never_synced 9%N world_init) = Some tt
  /\ retval (app_main CommonI2c.board CommonI2c.all_ok Wifi.wifi_all_ok
               Sntp.never_synced NULL world_init) <> Some tt.
Proof.
  split.
  - apply (proj2 (proj1 (app_main_enters_render_loop CommonI2c.board
                           CommonI2c.all_ok Wifi.wifi_all_ok Sntp.never_synced
                           9%N world_init))).
    repeat split; discriminate.
  - intro R.
    apply (proj1 (proj1 (app_main_enters_render_loop CommonI2c.board
                           CommonI2c.all_ok Wifi.wifi_all_ok Sntp.never_synced
                           NULL world_init))) in R.
    destruct R as (_ & _ & _ & K). now apply K.
Defined.

(** X13: [app_main] stops at the first stage that fails and calls nothing
    after it: when [i2c_shared_init] does not return [ESP_OK] (it halted,
    or returned an error code) the process is halted in the world that
    call left, before any network call; when [wifi_init_sta] halts, in the
    world it left; when the SNTP client does not start, right after that
    call; and when the mutex cannot be created, right after
    [xSemaphoreCreateMutex], before the sensor task is created. *)
Theorem app_main_stops_at_first_failure
    (cfg : CommonI2c.config) (ai : CommonI2c.answers) (aw : Wifi.wifi_answers)
    (at_ : Sntp.sntp_answers) (mutex : handle) (w : world) :
  let run := app_main cfg ai aw at_ mutex w in
  (retval (CommonI2c.i2c_shared_init cfg ai w) <> Some ESP_OK ->
   run = Aborted (final (CommonI2c.i2c_shared_init cfg ai w)))
  /\ (forall w1,
        CommonI2c.i2c_shared_init cfg ai w = Returned ESP_OK w1 ->
        (retval (Wifi.wifi_init_sta aw w1) = None ->
         run = Aborted (final (Wifi.wifi_init_sta aw w1)))
        /\ (forall w2,
              Wifi.wifi_init_sta aw w1 = Returned tt w2 ->
              (Sntp.esp_netif_sntp_init_a at_ <> ESP_OK ->
               run = Aborted (record_event (EspNetifSntpInit "pool.ntp.org") w2))
              /\ (forall w3,
                    Sntp.init_sntp at_ w2 = Returned tt w3 ->
                    mutex = NULL ->
                    run = Aborted (record_event XSemaphoreCreateMutex w3)))).
Proof.
  cbv zeta. unfold app_main. split.
  - intro N. apply bind_Aborted. now apply error_check_final.
  - intros w1 E1.
    assert (C1 : ESP_ERROR_CHECK (CommonI2c.i2c_shared_init cfg ai) w
                 = Returned tt w1).
    { unfold ESP_ERROR_CHECK. rewrite (bind_Returned _ _ _ _ _ E1). reflexivity. }
    rewrite (bind_Returned _ _ _ _ _ C1). split.
    + intro N. apply bind_Aborted. now apply retval_None.
    + intros w2 E2. rewrite (bind_Returned _ _ _ _ _ E2). split.
      * intro N. apply bind_Aborted.
        exact (proj1 (SntpMore.init_sntp_cases at_ w2) N).
      * intros w3 E3 Hm. rewrite (bind_Returned _ _ _ _ _ E3).
        unfold bind, emit, ret, abort. now rewrite (is_null_true _ Hm).
Qed.

Lemma app_main_stops_at_first_failure_witness :
  retval (CommonI2c.i2c_shared_init CommonI2c.board CommonI2c.ssd_attach_fails
            world_init) <> Some ESP_OK
  /\ app_main CommonI2c.board CommonI2c.ssd_attach_fails Wifi.wifi_all_ok
       Sntp.never_synced 9%N world_init
     = Aborted (final (CommonI2c.i2c_shared_init CommonI2c.board
                         CommonI2c.ssd_attach_fails world_init)).
Proof.
  assert (H : retval (CommonI2c.i2c_shared_init CommonI2c.board
                        CommonI2c.ssd_attach_fails world_init) <> Some ESP_OK)
    by discriminate.
  split; [exact H|].
  exact (proj1 (app_main_stops_at_first_failure CommonI2c.board
                  CommonI2c.ssd_attach_fails Wifi.wifi_all_ok Sntp.never_synced
                  9%N world_init) H).
Defined.

End BringUpMore.

(* ================================================================== *)
(** * More on the two tasks                                          *)
(* ================================================================== *)

Module TasksMore.
Import Main MainFacts Tasks.

(** ** Reachable states *)

Lemma reachable_invariant (garbage : bme280_data) (schedule : list choice) :
  invariant (fst (run schedule (start garbage)))
            (snd (run schedule (start garbage))).
Proof.
  exact (run_invariant schedule _ _ (invariant_start garbage)).
Qed.

(** X14: in every state that the two tasks can reach, at most one of them
    is between its [xSemaphoreTake] and its [xSemaphoreGive], and the mutex
    is held by the sensor task exactly while that task is there, by the
    render loop exactly while the render loop is there. *)
Theorem mutual_exclusion (garbage : bme280_data) (schedule : list choice) :
  let st := fst (run schedule (start garbage)) in
  sensor_in_cs (sensor_at st) && render_in_cs (render_at st) = false
  /\ (s_bme_lock st = Some SensorTask <-> sensor_in_cs (sensor_at st) = true)
  /\ (s_bme_lock st = Some RenderTask <-> render_in_cs (render_at st) = true).
Proof.
  cbv zeta. destruct (reachable_invariant garbage schedule) as [L X _ _ _ _].
  split; [exact X|]. rewrite L. unfold holder.
  destruct (sensor_in_cs (sensor_at (fst (run schedule (start garbage)))));
    destruct (render_in_cs (render_at (fst (run schedule (start garbage)))));
    try discriminate; intuition congruence.
Qed.

(** X15: the two tasks never block each other for good: in every
    reachable state in which the process has not been halted, the next
    statement of the sensor task or the next statement of the render loop
    can run. *)
Theorem no_deadlock
    (garbage : bme280_data) (schedule : list choice)
    (sample : option bme280_data) (update : esp_err_t) :
  let st := fst (run schedule (start garbage)) in
  halted st = false ->
  sensor_at (fst (step (RunSensor sample) st)) <> sensor_at st
  \/ render_at (fst (step (RunRender update) st)) <> render_at st.
Proof.
  cbv zeta. destruct (reachable_invariant garbage schedule) as [L X _ _ _ _].
  destruct (fst (run schedule (start garbage)))
    as [lock data spc tmp0 rpc seen0 ts ps hs stop].
  unfold holder in L. cbn in L, X. cbn [halted]. intro Hh. subst stop.
  unfold step, sensor_step, render_step. cbn.
  destruct spc; cbn in *; try (left; discriminate).
  destruct rpc; cbn in *; subst lock; cbn; try (left; discriminate);
    right; discriminate.
Qed.

Lemma no_deadlock_witness :
  halted (fst (run (preempted steady_record) (start zero_data))) = false
  /\ (sensor_at (fst (step (RunSensor None)
                        (fst (run (preempted steady_record) (start zero_data)))))
      <> sensor_at (fst (run (preempted steady_record) (start zero_data)))
      \/ render_at (fst (step (RunRender ESP_OK)
                           (fst (run (preempted steady_record)
                                   (start zero_data)))))
         <> render_at (fst (run (preempted steady_record) (start zero_data)))).
Proof.
  split; [reflexivity|].
  exact (no_deadlock zero_data (preempted steady_record) None ESP_OK eq_refl).
Defined.

Lemma run_app (s1 s2 : list choice) (st : state) :
  run (s1 ++ s2) st
  = (fst (run s2 (fst (run s1 st))),
     (snd (run s1 st) ++ snd (run s2 (fst (run s1 st))))%list).
Proof.
  revert st. induction s1 as [|c s1 IH]; intro st; cbn [app run].
  - cbn. now destruct (run s2 st).
  - destruct (step c st) as [st1 o1]. rewrite IH.
    destruct (run s1 st1) as [st2 o2]. cbn [fst snd].
    now rewrite app_assoc.
Qed.

(** X16: the mutex is never held for long: in every reachable state in
    which the process has not been halted, the task that holds the mutex
    gives it back within four of its own statements. *)
Theorem lock_is_released_within_four_steps
    (garbage : bme280_data) (schedule : list choice) :
  let st := fst (run schedule (start garbage)) in
  halted st = false ->
  (s_bme_lock st = Some SensorTask ->
   exists k, (k <= 4)%nat
             /\ s_bme_lock (fst (run (sensor_only k) st)) = None)
  /\ (s_bme_lock st = Some RenderTask ->
      exists k, (k <= 4)%nat
                /\ s_bme_lock (fst (run (render_only k) st)) = None).
Proof.
  cbv zeta. destruct (reachable_invariant garbage schedule) as [L X _ _ _ _].
  destruct (fst (run schedule (start garbage)))
    as [lock data spc tmp0 rpc seen0 ts ps hs stop].
  unfold holder in L. cbn in L, X. cbn [halted s_bme_lock]. intro Hh. subst stop.
  split; intro Hl; subst lock.
  - destruct spc; cbn in Hl; try (destruct rpc; discriminate).
    + exists 4%nat. split; [lia|reflexivity].
    + exists 3%nat. split; [lia|reflexivity].
    + exists 2%nat. split; [lia|reflexivity].
    + exists 1%nat. split; [lia|reflexivity].
  - destruct spc; cbn in Hl; try discriminate;
      destruct rpc; cbn in Hl; try discriminate.
    all: first [ exists 4%nat; split; [lia|reflexivity]
               | exists 3%nat; split; [lia|reflexivity]
               | exists 2%nat; split; [lia|reflexivity]
               | exists 1%nat; split; [lia|reflexivity] ].
Qed.

Lemma lock_is_released_within_four_steps_witness :
  mid_copy
  = fst (run [RunSensor (Some steady_record); RunSensor None; RunSensor None]
           (start zero_data))
  /\ halted mid_copy = false
  /\ s_bme_lock mid_copy = Some SensorTask
  /\ exists k, (k <= 4)%nat
               /\ s_bme_lock (fst (run (sensor_only k) mid_copy)) = None.
Proof.
  split; [reflexivity|]. split; [reflexivity|]. split; [reflexivity|].
  exact (proj1 (lock_is_released_within_four_steps zero_data
                  [RunSensor (Some steady_record); RunSensor None; RunSensor None]
                  eq_refl) eq_refl).
Defined.

(** ** Where published records come from *)

Lemma held_app (cur : bme280_data) (rs1 rs2 : list (option bme280_data)) :
  held cur (rs1 ++ rs2) = held (held cur rs1) rs2.
Proof.
  revert cur. induction rs1 as [|[r|] rs1 IH]; intro cur; cbn; auto.
Qed.

Lemma held_nothing (cur : bme280_data) (rs : list (option bme280_data)) :
  Forall (fun s => s = None) rs -> held cur rs = cur.
Proof.
  induction 1 as [|s rs Hs _ IH]; [reflexivity|]. subst s. exact IH.
Qed.

(** One step: [tmp] changes at the read statement only, and a publish is
    the publish of [tmp] by a step that reads nothing. *)
Lemma step_tmp (c : choice) (st : state) :
  tmp (fst (step c st)) = held (tmp st) (reads [c] st)
  /\ (forall r, In (Published r) (snd (step c st)) ->
       r = tmp st /\ tmp (fst (step c st)) = tmp st).
Proof.
  cbn [reads]. rewrite app_nil_r. unfold step. destruct (halted st).
  { cbn. destruct c; (split; [reflexivity|intros r []]). }
  destruct c as [sample|update].
  - unfold sensor_step.
    destruct (sensor_at st);
      try destruct (xSemaphoreTake SensorTask (s_bme_lock st));
      cbn [fst snd tmp held In];
      (split;
       [ first [ reflexivity | now destruct sample ]
       | intros r K; repeat (destruct K as [K|K]); try contradiction;
         inversion K; split; reflexivity ]).
  - unfold render_step.
    destruct (render_at st);
      try destruct (xSemaphoreTake RenderTask (s_bme_lock st));
      try destruct (Z.eqb update ESP_OK);
      cbn [fst snd tmp held In];
      (split; [reflexivity|]);
      intros r K; repeat (destruct K as [K|K]); try discriminate K;
      contradiction.
Qed.

Lemma run_tmp (schedule : list choice) :
  forall st : state,
  tmp (fst (run schedule st)) = held (tmp st) (reads schedule st).
Proof.
  induction schedule as [|c rest IH]; intro st; [reflexivity|].
  cbn [run reads].
  pose proof (proj1 (step_tmp c st)) as H1. cbn [reads] in H1.
  rewrite app_nil_r in H1.
  destruct (step c st) as [st1 o1] eqn:E1. cbn [fst] in *.
  pose proof (IH st1) as H2.
  destruct (run rest st1) as [st2 o2]. cbn [fst] in *.
  rewrite held_app, <- H1. exact H2.
Qed.

(** X17: every record that [sensor_task] publishes is the one stored by
    the latest read that stored something, among the reads that
    [sensor_task] executed before the publish; when none of them stored
    anything it is what [tmp] held at the start, the uninitialised local.
    And as long as the reads that follow a publish store nothing, the task
    publishes that same record again. *)
Theorem published_records_are_samples
    (garbage : bme280_data) (before : list choice) (c : choice)
    (r : bme280_data) :
  In (Published r) (snd (step c (fst (run before (start garbage))))) ->
  r = held garbage (reads before (start garbage))
  /\ forall (between : list choice) (c' : choice) (r' : bme280_data),
       Forall (fun s => s = None)
              (reads between (fst (step c (fst (run before (start garbage)))))) ->
       In (Published r')
          (snd (step c' (fst (run (before ++ c :: between) (start garbage))))) ->
       r' = r.
Proof.
  intro H. apply (proj2 (step_tmp c _)) in H. destruct H as [Hr Hkeep].
  split.
  - rewrite Hr. apply (run_tmp before (start garbage)).
  - intros between c' r' Hnone H'.
    apply (proj2 (step_tmp c' _)) in H'. destruct H' as [Hr' _].
    rewrite Hr'. rewrite run_app. cbn [fst run].
    destruct (step c (fst (run before (start garbage)))) as [st1 o1] eqn:E1.
    cbn [fst] in *.
    pose proof (run_tmp between st1) as T.
    destruct (run between st1) as [st2 o2]. cbn [fst] in *.
    rewrite T, (held_nothing _ _ Hnone). congruence.
Qed.

Lemma published_records_are_samples_witness :
  In (Published steady_record)
     (snd (step (RunSensor None)
             (fst (run (read_and_copy steady_record) (start zero_data)))))
  /\ steady_record
     = held zero_data (reads (read_and_copy steady_record) (start zero_data))
  /\ forall (between : list choice) (c' : choice) (r' : bme280_data),
       Forall (fun s => s = None)
              (reads between
                 (fst (step (RunSensor None)
                         (fst (run (read_and_copy steady_record)
                                 (start zero_data)))))) ->
       In (Published r')
          (snd (step c'
                  (fst (run (read_and_copy steady_record
                             ++ RunSensor None :: between)
                          (start zero_data))))) ->
       r' = steady_record.
Proof.
  assert (H : In (Published steady_record)
                (snd (step (RunSensor None)
                        (fst (run (read_and_copy steady_record)
                                (start zero_data))))))
    by (vm_compute; left; reflexivity).
  split; [exact H|].
  exact (published_records_are_samples zero_data (read_and_copy steady_record)
           (RunSensor None) steady_record H).
Defined.

(** ** The lines that a pass draws *)

Lemma last_snapshot_app (cur : option bme280_data) (t o : list obs) :
  last_snapshot cur (t ++ o) = last_snapshot (last_snapshot cur t) o.
Proof.
  revert cur. induction t as [|x t IH]; intro cur; [reflexivity|].
  destruct x; cbn; apply IH.
Qed.

Lemma faithful_app (cur : option bme280_data) (t o : list obs) :
  faithful cur (t ++ o) <-> faithful cur t /\ faithful (last_snapshot cur t) o.
Proof.
  revert cur. induction t as [|x t IH]; intro cur; cbn.
  - tauto.
  - destruct x; cbn; rewrite ?IH; tauto.
Qed.

Lemma shows_start (garbage : bme280_data) : shows (start garbage) [].
Proof. constructor; cbn; auto; discriminate. Qed.

Ltac simp_state :=
  cbn [fst snd app render_at seen temperature_str pressure_str humidity_str
       sensor_at tmp s_bme_lock bme280_device_data halted set_temperature
       set_pressure set_humidity temperature pressure humidity last_snapshot
       faithful] in *.

Lemma step_shows (c : choice) (st : state) (t : list obs) :
  shows st t -> shows (fst (step c st)) (t ++ snd (step c st)).
Proof.
  intros [F S H]. unfold step. destruct (halted st).
  { cbn [fst snd]. rewrite app_nil_r. now constructor. }
  destruct st as [lock data spc tmp0 rpc seen0 ts ps hs stop].
  unfold formatted, text_of in F. simp_state.
  destruct c as [sample|update].
  - unfold sensor_step. simp_state.
    destruct spc; try destruct (xSemaphoreTake SensorTask lock); simp_state;
      rewrite ?app_nil_r; constructor; unfold formatted, text_of; simp_state;
      auto;
      try (rewrite last_snapshot_app; simp_state; auto);
      try (rewrite faithful_app; simp_state; auto).
  - unfold render_step. simp_state.
    destruct rpc; try destruct (xSemaphoreTake RenderTask lock);
      try destruct (Z.eqb update ESP_OK); simp_state;
      rewrite ?app_nil_r; constructor; unfold formatted, text_of; simp_state;
      auto;
      try discriminate;
      try (rewrite last_snapshot_app; simp_state; auto);
      try (rewrite faithful_app; simp_state; split; [assumption|]);
      try solve [intuition congruence];
      try solve [intuition eauto].
    all: rewrite (S eq_refl); split; [|exact I]; exists seen0;
      unfold text_of; intuition congruence.
Qed.

Lemma run_shows (schedule : list choice) :
  forall (st : state) (t : list obs),
  shows st t -> shows (fst (run schedule st)) (t ++ snd (run schedule st)).
Proof.
  induction schedule as [|c rest IH]; intros st t H; cbn [run].
  - cbn. now rewrite app_nil_r.
  - pose proof (step_shows c st t H) as H1.
    destruct (step c st) as [st1 o1]. cbn [fst snd] in H1.
    pose proof (IH st1 _ H1) as H2.
    destruct (run rest st1) as [st2 o2]. cbn [fst snd] in *.
    now rewrite app_assoc.
Qed.

(** X18: in every execution, the three sensor strings that a pass of
    [print_data] hands to [ssd1306_draw_string] before a flush that
    succeeds are the ones formatted from the latest snapshot taken before
    it: the three strings of a pass never come from two different
    snapshots, and no pass draws them before a snapshot has been taken.
    This is about the strings drawn in the pass, not about the pixels of
    the frame, where an earlier pass may have left columns that a shorter
    line does not cover. *)
Theorem drawn_lines_come_from_latest_snapshot
    (garbage : bme280_data) (schedule : list choice)
    (before after : list obs) (h t p : string) :
  snd (run schedule (start garbage))
  = (before ++ Displayed h t p :: after)%list ->
  exists r,
    last_snapshot None before = Some r
    /\ h = format_humidity (humidity r)
    /\ t = format_temperature (temperature r)
    /\ p = format_pressure (pressure r).
Proof.
  intro E.
  pose proof (shows_faithful _ _ (run_shows schedule _ _ (shows_start garbage))) as F.
  cbn [app] in F. rewrite E in F. apply faithful_app in F.
  destruct F as [_ [(r & Hr & T) _]]. exists r. split; [exact Hr|exact T].
Qed.

Lemma drawn_lines_come_from_latest_snapshot_witness :
  snd (run (preempted steady_record) (start zero_data))
  = ([Published steady_record; Snapshot steady_record]
     ++ Displayed "Hum-45.0%" "Temp-21.3C" "Pres-1013.25hPa"
     :: [Snapshot steady_record;
         Displayed "Hum-45.0%" "Temp-21.3C" "Pres-1013.25hPa"])%list
  /\ exists r,
       last_snapshot None [Published steady_record; Snapshot steady_record]
       = Some r
       /\ "Hum-45.0%" = format_humidity (humidity r)
       /\ "Temp-21.3C" = format_temperature (temperature r)
       /\ "Pres-1013.25hPa" = format_pressure (pressure r).
Proof.
  assert (H : snd (run (preempted steady_record) (start zero_data))
              = ([Published steady_record; Snapshot steady_record]
                 ++ Displayed "Hum-45.0%" "Temp-21.3C" "Pres-1013.25hPa"
                 :: [Snapshot steady_record;
                     Displayed "Hum-45.0%" "Temp-21.3C" "Pres-1013.25hPa"])%list)
    by (vm_compute; reflexivity).
  split; [exact H|].
  exact (drawn_lines_come_from_latest_snapshot zero_data (preempted steady_record)
           [Published steady_record; Snapshot steady_record]
           [Snapshot steady_record;
            Displayed "Hum-45.0%" "Temp-21.3C" "Pres-1013.25hPa"]
           "Hum-45.0%" "Temp-21.3C" "Pres-1013.25hPa" H).
Defined.

(** ** After a failed flush *)

Lemma run_halted (schedule : list choice) (st : state) :
  halted st = true -> run schedule st = (st, []).
Proof.
  intro H. induction schedule as [|c rest IH]; [reflexivity|].
  cbn [run]. unfold step. rewrite H. now rewrite IH.
Qed.

(** X19: when [ssd1306_update] fails in the render loop the process is
    halted there: whatever the scheduler does afterwards, nothing more is
    published, snapshot or displayed, and the stored record stays as it
    was. *)
Theorem failed_flush_stops_both_tasks
    (garbage : bme280_data) (before after : list choice) (update : esp_err_t) :
  let st := fst (run before (start garbage)) in
  halted st = false ->
  render_at st = R_draw ->
  update <> ESP_OK ->
  snd (run (before ++ RunRender update :: after) (start garbage))
  = snd (run before (start garbage))
  /\ bme280_device_data
       (fst (run (before ++ RunRender update :: after) (start garbage)))
     = bme280_device_data st.
Proof.
  cbv zeta. intros Hh Hpc Hu.
  rewrite run_app. cbn [fst snd].
  set (st := fst (run before (start garbage))) in *.
  assert (E : step (RunRender update) st
              = (mkState (s_bme_lock st) (bme280_device_data st) (sensor_at st)
                   (tmp st) R_draw (seen st) (temperature_str st)
                   (pressure_str st) (humidity_str st) true, [])).
  { unfold step, render_step. rewrite Hh, Hpc.
    now rewrite (err_eqb_false _ Hu). }
  assert (R : run (RunRender update :: after) st
              = (mkState (s_bme_lock st) (bme280_device_data st) (sensor_at st)
                   (tmp st) R_draw (seen st) (temperature_str st)
                   (pressure_str st) (humidity_str st) true, [])).
  { cbn [run]. rewrite E. now rewrite run_halted by reflexivity. }
  rewrite R. cbn [fst snd bme280_device_data]. now rewrite app_nil_r.
Qed.

Lemma failed_flush_stops_both_tasks_witness :
  halted (fst (run (render_only 6) (start zero_data))) = false
  /\ render_at (fst (run (render_only 6) (start zero_data))) = R_draw
  /\ ESP_FAIL <> ESP_OK
  /\ snd (run (render_only 6 ++ RunRender ESP_FAIL :: publish_once steady_record)
            (start zero_data))
     = snd (run (render_only 6) (start zero_data))
  /\ bme280_device_data
       (fst (run (render_only 6 ++ RunRender ESP_FAIL
                  :: publish_once steady_record) (start zero_data)))
     = bme280_device_data (fst (run (render_only 6) (start zero_data))).
Proof.
  split; [reflexivity|]. split; [reflexivity|]. split; [discriminate|].
  exact (failed_flush_stops_both_tasks zero_data (render_only 6)
           (publish_once steady_record) ESP_FAIL eq_refl eq_refl
           ltac:(discriminate)).
Defined.

End TasksMore.

(* ================================================================== *)
(** * More on the text and the layout of a frame                     *)
(* ================================================================== *)

Module FrameMore.
Import CommonI2c Main Frame.
Import CommonI2cMore Trace.

(** ** Lengths of strings *)

Lemma length_append (a b : string) :
  String.length (a ++ b) = (String.length a + String.length b)%nat.
Proof. induction a as [|c a IH]; cbn; [reflexivity|now rewrite IH]. Qed.

Lemma substring_whole (s : string) :
  forall n : nat, (String.length s <= n)%nat -> substring 0 n s = s.
Proof.
  induction s as [|c s IH]; intros n H.
  - now destruct n.
  - destruct n as [|n]; cbn in *; [lia|]. rewrite IH; [reflexivity|lia].
Qed.

Lemma length_substring (s : string) :
  forall n : nat, (String.length (substring 0 n s) <= n)%nat.
Proof.
  induction s as [|c s IH]; intro n.
  - destruct n; cbn; lia.
  - destruct n as [|n]; cbn; [lia|]. specialize (IH n). lia.
Qed.

Lemma length_fixed_digits (width : nat) :
  forall (n : Z) (acc : string),
  String.length (fixed_digits width n acc) = (width + String.length acc)%nat.
Proof.
  induction width as [|k IH]; intros n acc; cbn [fixed_digits]; [reflexivity|].
  rewrite IH. cbn. lia.
Qed.

Lemma length_decimal_digits (fuel : nat) :
  forall (n : Z) (acc : string) (k : nat),
  (1 <= k)%nat -> 0 <= n < 10 ^ Z.of_nat k ->
  (String.length (decimal_digits fuel n acc) <= String.length acc + k)%nat.
Proof.
  induction fuel as [|f IH]; intros n acc k Hk Hn; cbn [decimal_digits].
  - lia.
  - destruct (Z.eqb_spec (n / 10) 0) as [E | N].
    + cbn. lia.
    + destruct k as [|[|k]]; [lia| |].
      * exfalso. apply N. apply Z.div_small. cbn in Hn. lia.
      * eapply Nat.le_trans.
        -- apply (IH (n / 10) _ (S k)); [lia|].
           split; [apply Z.div_pos; lia|].
           apply Z.div_lt_upper_bound; [lia|].
           replace (10 * 10 ^ Z.of_nat (S k)) with (10 ^ Z.of_nat (S (S k))); [lia|].
           rewrite (Nat2Z.inj_succ (S k)), Z.pow_succ_r by lia. reflexivity.
        -- cbn. lia.
Qed.

Lemma length_decimal (n : Z) (k : nat) :
  (1 <= k)%nat -> 0 <= n < 10 ^ Z.of_nat k ->
  (String.length (decimal n) <= k)%nat.
Proof.
  intros Hk Hn. unfold decimal.
  apply (length_decimal_digits _ n "" k Hk Hn).
Qed.

(** ** Rounding *)

Lemma scaled_round_bounds (m : positive) (e : Z) (digits : nat) (bound : Z) :
  Zpos m * 2 ^ Z.max e 0 < bound * 2 ^ Z.max (- e) 0 ->
  0 <= scaled_round m e digits <= bound * 10 ^ Z.of_nat digits.
Proof.
  intro H. unfold scaled_round.
  set (den := 2 ^ Z.max (- e) 0) in *.
  set (num := Zpos m * 10 ^ Z.of_nat digits * 2 ^ Z.max e 0).
  assert (Hden : 0 < den) by (apply Z.pow_pos_nonneg; lia).
  assert (Hp : 0 < 10 ^ Z.of_nat digits) by (apply Z.pow_pos_nonneg; lia).
  assert (Hq : 0 < 2 ^ Z.max e 0) by (apply Z.pow_pos_nonneg; lia).
  assert (Hnum : 0 <= num) by (unfold num; nia).
  assert (Hlt : num < bound * 10 ^ Z.of_nat digits * den) by (unfold num; nia).
  assert (Hq0 : 0 <= num / den) by (apply Z.div_pos; lia).
  assert (Hq1 : num / den < bound * 10 ^ Z.of_nat digits)
    by (apply Z.div_lt_upper_bound; [lia|nia]).
  destruct (Z.compare (2 * (num mod den)) den);
    [destruct (Z.even (num / den))| |]; lia.
Qed.

(** The number of characters of [%.Nf] for a magnitude below [10^k]. *)
Lemma length_format_f (digits : nat) (x : double) (k : nat) :
  (1 <= k)%nat -> (3 <= k + digits)%nat ->
  below x (10 ^ Z.of_nat k - 1) ->
  (String.length (format_f digits x)
   <= 1 + k + (match digits with O => 0 | _ => 1 + digits end))%nat.
Proof.
  intros Hk Hkd Hb. destruct x as [s|s| |s m e]; cbn [format_f].
  - rewrite !length_append. unfold point_and_fraction.
    destruct digits as [|d].
    + destruct s; cbn; lia.
    + rewrite length_append, length_fixed_digits. destruct s; cbn; lia.
  - rewrite length_append. destruct s, digits; cbn; lia.
  - destruct digits; cbn; lia.
  - cbn [below] in Hb.
    pose proof (scaled_round_bounds m e digits _ Hb) as [R0 R1].
    set (n := scaled_round m e digits) in *.
    assert (Hp : 0 < 10 ^ Z.of_nat digits) by (apply Z.pow_pos_nonneg; lia).
    assert (Hint : 0 <= n / 10 ^ Z.of_nat digits < 10 ^ Z.of_nat k).
    { split; [apply Z.div_pos; lia|].
      apply Z.div_lt_upper_bound; [lia|]. nia. }
    rewrite !length_append.
    pose proof (length_decimal _ k Hk Hint) as Hd.
    unfold point_and_fraction. destruct digits as [|d].
    + destruct s; cbn [sign_string String.length]; lia.
    + rewrite length_append, length_fixed_digits.
      destruct s; cbn [sign_string String.length]; lia.
Qed.

(** X20: the three buffers of [print_data] hold their lines in full for
    readings of ordinary size: the temperature line is not cut when the
    magnitude of the temperature is below 99999, the humidity line when
    the humidity is below 999999, the pressure line when the pressure in
    hPa (the double after the division by 100.0) is below 9999999; this
    includes NaN and the infinities. *)
Theorem readings_are_not_truncated (d : bme280_data) :
  (below (temperature d) 99999 ->
   format_temperature (temperature d)
   = "Temp-" ++ format_f 1 (temperature d) ++ "C")
  /\ (below (humidity d) 999999 ->
      format_humidity (humidity d)
      = "Hum-" ++ format_f 1 (humidity d) ++ "%")
  /\ (below (double_div (pressure d) (double_of_Z 100)) 9999999 ->
      format_pressure (pressure d)
      = "Pres-" ++ format_f 2 (double_div (pressure d) (double_of_Z 100))
          ++ "hPa").
Proof.
  split; [|split]; intro H.
  - unfold format_temperature, snprintf. apply substring_whole.
    pose proof (length_format_f 1 _ 5 ltac:(lia) ltac:(lia) H) as L.
    cbv beta iota in L. cbn [String.length append]. rewrite length_append. cbn [String.length]. lia.
  - unfold format_humidity, snprintf. apply substring_whole.
    pose proof (length_format_f 1 _ 6 ltac:(lia) ltac:(lia) H) as L.
    cbv beta iota in L. cbn [String.length append]. rewrite length_append. cbn [String.length]. lia.
  - unfold format_pressure, snprintf. apply substring_whole.
    pose proof (length_format_f 2 _ 7 ltac:(lia) ltac:(lia) H) as L.
    cbv beta iota in L. cbn [String.length append]. rewrite length_append. cbn [String.length]. lia.
Qed.

Lemma readings_are_not_truncated_witness :
  below (temperature steady_record) 99999
  /\ format_temperature (temperature steady_record)
     = "Temp-" ++ format_f 1 (temperature steady_record) ++ "C".
Proof.
  assert (H : below (temperature steady_record) 99999) by (vm_compute; reflexivity).
  split; [exact H|].
  exact (proj1 (readings_are_not_truncated steady_record) H).
Defined.

(** ** The horizontal cursor *)

Lemma half_of_width (s : string) : Z.quot (strlen s * 8) 2 = 4 * strlen s.
Proof.
  unfold strlen. rewrite quot2 by lia.
  replace (Z.of_nat (String.length s) * 8) with (4 * Z.of_nat (String.length s) * 2) by lia.
  apply Z.div_mul. lia.
Qed.

Lemma centered_cursor_cases (width : Z) (s : string) :
  (8 * strlen s <= width <= 65535 ->
   centered_cursor width s = width / 2 - 4 * strlen s)
  /\ (0 <= width < 8 * strlen s -> strlen s <= 16384 ->
      centered_cursor width s = 65536 + width / 2 - 4 * strlen s).
Proof.
  assert (L : 0 <= strlen s) by (unfold strlen; lia).
  unfold centered_cursor. rewrite half_of_width. split.
  - intro H. rewrite quot2 by lia. apply uint16_small.
    pose proof (Z.div_mod width 2 ltac:(lia)) as D.
    pose proof (Z.mod_pos_bound width 2 ltac:(lia)) as B. lia.
  - intros H K. rewrite quot2 by lia. rewrite uint16_wrap; [lia|].
    pose proof (Z.div_mod width 2 ltac:(lia)) as D.
    pose proof (Z.mod_pos_bound width 2 ltac:(lia)) as B. lia.
Qed.

Lemma centered_cursor_fits (width : Z) (s : string) :
  8 * strlen s <= width <= 65535 ->
  0 <= centered_cursor width s
  /\ centered_cursor width s + 8 * strlen s <= width
  /\ 0 <= (width - (centered_cursor width s + 8 * strlen s))
          - centered_cursor width s <= 1.
Proof.
  intro H. rewrite (proj1 (centered_cursor_cases width s) H).
  assert (L : 0 <= strlen s) by (unfold strlen; lia).
  pose proof (Z.div_mod width 2 ltac:(lia)) as D.
  pose proof (Z.mod_pos_bound width 2 ltac:(lia)) as B. lia.
Qed.

Lemma centered_cursor_wraps (width : Z) (s : string) :
  0 <= width < 8 * strlen s -> strlen s <= 16384 ->
  65536 - 4 * strlen s <= centered_cursor width s < 65536.
Proof.
  intros H K. rewrite (proj2 (centered_cursor_cases width s) H K).
  pose proof (Z.div_mod width 2 ltac:(lia)) as D.
  pose proof (Z.mod_pos_bound width 2 ltac:(lia)) as B. lia.
Qed.

(** X21: the horizontal cursor that [print_data] computes for a line
    centres it when the line fits the panel: the line lies within the
    panel and its two margins differ by at most one pixel.  When the line
    is wider than the panel the subtraction wraps around in the 16-bit
    cursor, which then lies within [4 * strlen] of 65536, far off the
    panel. *)
Theorem centered_cursor_centres_or_wraps (width : Z) (s : string) :
  let x := centered_cursor width s in
  (8 * strlen s <= width <= 65535 ->
   0 <= x
   /\ x + 8 * strlen s <= width
   /\ 0 <= (width - (x + 8 * strlen s)) - x <= 1)
  /\ (0 <= width < 8 * strlen s -> strlen s <= 16384 ->
      65536 - 4 * strlen s <= x < 65536).
Proof.
  cbv zeta. split.
  - apply centered_cursor_fits.
  - apply centered_cursor_wraps.
Qed.

Lemma centered_cursor_centres_or_wraps_witness :
  8 * strlen "Pres-1013.25hPa" <= 128 <= 65535
  /\ 0 <= centered_cursor 128 "Pres-1013.25hPa"
  /\ centered_cursor 128 "Pres-1013.25hPa" + 8 * strlen "Pres-1013.25hPa" <= 128
  /\ 0 <= (128 - (centered_cursor 128 "Pres-1013.25hPa"
                   + 8 * strlen "Pres-1013.25hPa"))
          - centered_cursor 128 "Pres-1013.25hPa" <= 1.
Proof.
  assert (H : 8 * strlen "Pres-1013.25hPa" <= 128 <= 65535) by (cbn; lia).
  split; [exact H|].
  exact (proj1 (centered_cursor_centres_or_wraps 128 "Pres-1013.25hPa") H).
Defined.

Lemma strlen_snprintf (size : nat) (s : string) :
  0 <= strlen (snprintf size s) <= Z.of_nat (size - 1).
Proof.
  unfold strlen, snprintf. pose proof (length_substring s (size - 1)). lia.
Qed.

(** X22: for every stored record, whatever its values, the temperature
    and humidity lines fit a panel of at least 112 pixels (their buffers
    hold at most 14 characters) and the pressure line fits one of at least
    152 pixels; on a narrower panel a pressure line that is too wide (its
    buffer holds up to 19 characters) sends the cursor beyond 65459. *)
Theorem sensor_lines_on_the_panel (cfg : config) (d : bme280_data) :
  let width := WIDTH cfg in
  let t := format_temperature (temperature d) in
  let h := format_humidity (humidity d) in
  let p := format_pressure (pressure d) in
  (112 <= width <= 65535 ->
   centered_cursor width t + 8 * strlen t <= width
   /\ centered_cursor width h + 8 * strlen h <= width)
  /\ (152 <= width <= 65535 -> centered_cursor width p + 8 * strlen p <= width)
  /\ (0 <= width < 8 * strlen p -> 65536 - 76 <= centered_cursor width p).
Proof.
  cbv zeta.
  pose proof (strlen_snprintf 15 ("Temp-" ++ format_f 1 (temperature d) ++ "C")) as Lt.
  pose proof (strlen_snprintf 15 ("Hum-" ++ format_f 1 (humidity d) ++ "%")) as Lh.
  pose proof (strlen_snprintf 20
                ("Pres-" ++ format_f 2 (double_div (pressure d) (double_of_Z 100))
                 ++ "hPa")) as Lp.
  fold (format_temperature (temperature d)) in Lt.
  fold (format_humidity (humidity d)) in Lh.
  fold (format_pressure (pressure d)) in Lp.
  cbn [Nat.sub Z.of_nat Pos.of_succ_nat Pos.succ] in Lt, Lh, Lp.
  split; [|split].
  - intro H. split.
    + apply centered_cursor_fits. lia.
    + apply centered_cursor_fits. lia.
  - intro H. apply centered_cursor_fits. lia.
  - intro H.
    pose proof (centered_cursor_wraps (WIDTH cfg)
                  (format_pressure (pressure d)) H ltac:(lia)) as W.
    lia.
Qed.

(** A pressure of 10^9 Pa fills the buffer of the pressure line, which is
    then 152 pixels wide. *)
Lemma sensor_lines_on_the_panel_witness :
  0 <= WIDTH board
       < 8 * strlen (format_pressure
                       (pressure (mkData (S754_zero false)
                                    (double_of_Z 1000000000) (S754_zero false))))
  /\ 65536 - 76
     <= centered_cursor (WIDTH board)
          (format_pressure
             (pressure (mkData (S754_zero false) (double_of_Z 1000000000)
                          (S754_zero false)))).
Proof.
  assert (H : 0 <= WIDTH board
                   < 8 * strlen (format_pressure
                                   (pressure (mkData (S754_zero false)
                                                (double_of_Z 1000000000)
                                                (S754_zero false)))))
    by (vm_compute; split; [discriminate|reflexivity]).
  split; [exact H|].
  exact (proj2 (proj2 (sensor_lines_on_the_panel board
                         (mkData (S754_zero false) (double_of_Z 1000000000)
                            (S754_zero false)))) H).
Defined.

(** ** The frame *)

(** X23: one frame of [print_data] draws five lines, each after setting
    its cursor, in the order time, date, humidity, temperature, pressure,
    and flushes after the last; it returns exactly when the flush
    succeeds and halts the process otherwise.  With at least 6 pixels per
    page the five rows go down the panel and leave room for the 8-pixel
    font: no line is drawn over another. *)
Theorem print_data_frame_layout
    (cfg : config) (pixels_per_page : Z) (time_buffer date_buffer : string)
    (d : bme280_data) (update : esp_err_t) (w : world) :
  let o := print_data_frame cfg pixels_per_page time_buffer date_buffer d update w in
  (exists x1 x2 x3 x4 x5,
     added w o
     = [Ssd1306SetCursor x1 (time_row pixels_per_page);
        Ssd1306DrawString time_buffer;
        Ssd1306SetCursor x2 (date_row pixels_per_page);
        Ssd1306DrawString date_buffer;
        Ssd1306SetCursor x3 (humidity_row pixels_per_page);
        Ssd1306DrawString (format_humidity (humidity d));
        Ssd1306SetCursor x4 (temperature_row pixels_per_page);
        Ssd1306DrawString (format_temperature (temperature d));
        Ssd1306SetCursor x5 (pressure_row pixels_per_page);
        Ssd1306DrawString (format_pressure (pressure d));
        Ssd1306Update])
  /\ (retval o = Some tt <-> update = ESP_OK)
  /\ (6 <= pixels_per_page <= 10000 ->
      time_row pixels_per_page + 8 <= date_row pixels_per_page
      /\ date_row pixels_per_page + 8 <= humidity_row pixels_per_page
      /\ humidity_row pixels_per_page + 8 <= temperature_row pixels_per_page
      /\ temperature_row pixels_per_page + 8 <= pressure_row pixels_per_page).
Proof.
  cbv zeta. split; [|split].
  - assert (Hskip : forall l, skipn (List.length (trace w)) (trace w ++ l) = l).
    { intro l. now rewrite skipn_app, skipn_all, Nat.sub_diag. }
    unfold added, print_data_frame, draw_line, ESP_ERROR_CHECK.
    unfold bind, emit, ret, abort. cbv beta iota zeta.
    destruct (Z.eqb update ESP_OK); cbn [final trace record_event];
      rewrite <- ?app_assoc; rewrite Hskip; cbn [app];
      do 5 eexists; reflexivity.
  - unfold print_data_frame, draw_line, ESP_ERROR_CHECK.
    unfold bind, emit, ret, abort. cbv beta iota zeta.
    destruct (Z.eqb_spec update ESP_OK); cbn [retval];
      split; intro; congruence.
  - intro H. unfold time_row, date_row, humidity_row, temperature_row,
      pressure_row.
    rewrite !uint16_small by lia. lia.
Qed.

Lemma print_data_frame_layout_witness :
  6 <= 8 <= 10000
  /\ time_row 8 + 8 <= date_row 8
  /\ date_row 8 + 8 <= humidity_row 8
  /\ humidity_row 8 + 8 <= temperature_row 8
  /\ temperature_row 8 + 8 <= pressure_row 8.
Proof.
  assert (H : 6 <= 8 <= 10000) by lia.
  split; [exact H|].
  exact (proj2 (proj2 (print_data_frame_layout board 8 "12:00:00" "2025-01-01"
                         steady_record ESP_OK world_init)) H).
Defined.

End FrameMore.
